(** * mlworkflow.datasets: a shallow embedding and its verified properties

    The development follows [mlworkflow/datasets.py]: Python values are an
    inductive type, exceptions are a sum, a method that reads or writes the
    receiver is a state-passing function returning either a value or the
    exception raised, and a generator is the finite trace of what it yields
    followed by how it ends.

    The specification names the faults abstractly; they are the exceptions
    of the code: EmptyBatch is the [StopIteration] of [next], KeyNotFound a
    [KeyError], EvenSplitRequired the [AssertionError] of the [assert], and
    StaleIndex the [AttributeError] of a call on the forgotten dataset. *)

From Stdlib Require Import ZArith Lia.
From stdpp Require Import base list strings gmap.

Set Warnings "-register-all,-clear-no-such-hyp".
Open Scope Z_scope.

(** ** Python values *)

Inductive pyobj :=
  | PyNone
  | PyInt (z : Z)
  | PyStr (s : string)
  | PyTuple (xs : list pyobj)
  | PyList (xs : list pyobj)
  | PyDict (kvs : list (pyobj * pyobj)).

Definition pyobj_eq_dec : forall a b : pyobj, {a = b} + {a <> b}.
Proof.
  fix IH 1. decide equality.
  - apply Z.eq_dec.
  - apply String.string_dec.
  - apply (List.list_eq_dec IH).
  - apply (List.list_eq_dec IH).
  - apply List.list_eq_dec. decide equality.
Defined.

#[global] Instance pyobj_eq_decision : EqDecision pyobj := pyobj_eq_dec.

(** ** Exceptions and results *)

(** The payload of a [DiffReason]: the message built in [pickle_or_load]
    for a missing key, or any other message. *)
Inductive diff_reason :=
  | MissingKey (k : pyobj)
  | ReasonMsg (msg : string).

Inductive exn :=
  | StopIteration
  | AssertionError
  | ZeroDivisionError
  | IndexError
  | KeyError (k : pyobj)
  | TypeError
  | ValueError
  | RuntimeError
  | AttributeError
  | EOFError
  | OSError
  | DiffReason (r : diff_reason)
  | KeyboardInterrupt.

(** [except Exception] catches everything but the exceptions that derive
    from [BaseException] only. *)
Definition is_Exception (e : exn) : bool :=
  match e with
  | KeyboardInterrupt => false
  | _ => true
  end.

Inductive res (A : Type) :=
  | Ok (a : A)
  | Raise (e : exn).
Arguments Ok {A} a.
Arguments Raise {A} e.

(** A method over a receiver of state [St]. *)
Definition py (St A : Type) : Type := St -> res A * St.

Definition py_ret {St A} (a : A) : py St A := fun s => (Ok a, s).
Definition py_raise {St A} (e : exn) : py St A := fun s => (Raise e, s).
Definition py_lift {St A} (r : res A) : py St A := fun s => (r, s).
Definition py_bind {St A B} (m : py St A) (k : A -> py St B) : py St B :=
  fun s => match m s with
           | (Ok a, s') => k a s'
           | (Raise e, s') => (Raise e, s')
           end.

Notation "'let*' x ':=' m 'in' k" := (py_bind m (fun x => k))
  (at level 10, x pattern, m at level 100, k at level 200).

(** ** Generators

    A generator over a finite input is the trace of its run: the values it
    yields, then either exhaustion or the exception that ended it. *)

Inductive gen (A : Type) :=
  | GDone
  | GRaise (e : exn)
  | GYield (a : A) (rest : gen A).
Arguments GDone {A}.
Arguments GRaise {A} e.
Arguments GYield {A} a rest.

Fixpoint gen_yields {A} (g : gen A) : list A :=
  match g with
  | GYield a rest => a :: gen_yields rest
  | _ => []
  end.

(** [None] when the generator is exhausted, the exception otherwise. *)
Fixpoint gen_end {A} (g : gen A) : option exn :=
  match g with
  | GDone => None
  | GRaise e => Some e
  | GYield _ rest => gen_end rest
  end.

Fixpoint gen_of_list {A} (l : list A) : gen A :=
  match l with
  | [] => GDone
  | a :: l' => GYield a (gen_of_list l')
  end.

(** [next(g)]. *)
Definition gen_next {A} (g : gen A) : res (A * gen A) :=
  match g with
  | GDone => Raise StopIteration
  | GRaise e => Raise e
  | GYield a rest => Ok (a, rest)
  end.

(** ** List primitives *)

(** [[None]*n]: the empty list when [n <= 0]. *)
Definition py_repeat_none (n : Z) : list pyobj := replicate (Z.to_nat n) PyNone.

(** [l[i] = v], with Python's negative indices and its [IndexError]. *)
Definition py_setitem {A} (l : list A) (i : Z) (v : A) : res (list A) :=
  let n := Z.of_nat (length l) in
  let i' := if i <? 0 then i + n else i in
  if (0 <=? i') && (i' <? n) then Ok (<[Z.to_nat i' := v]> l)
  else Raise IndexError.

(** [l[:stop]]. *)
Definition py_slice_to {A} (l : list A) (stop : Z) : list A :=
  let n := Z.of_nat (length l) in
  let stop' := if stop <? 0 then Z.max 0 (stop + n) else Z.min stop n in
  take (Z.to_nat stop') l.

(** ** chunkify *)

(** The [for] loop of [chunkify] from the element after index [i], then the
    final [yield ret[:i-offset+1]]. *)
Fixpoint chunkify_from (n : Z) (es : list pyobj) (i offset : Z)
    (ret : list pyobj) : gen (list pyobj) :=
  match es with
  | [] => GYield (py_slice_to ret (i - offset + 1)) GDone
  | e :: es' =>
      let i := i + 1 in
      if i - offset =? n then
        GYield ret
          (let offset := offset + n in
           let ret := py_repeat_none n in
           match py_setitem ret (i - offset) e with
           | Ok ret => chunkify_from n es' i offset ret
           | Raise ex => GRaise ex
           end)
      else
        match py_setitem ret (i - offset) e with
        | Ok ret => chunkify_from n es' i offset ret
        | Raise ex => GRaise ex
        end
  end.

Definition chunkify (iterable : list pyobj) (n : Z) : gen (list pyobj) :=
  chunkify_from n iterable (-1) 0 (py_repeat_none n).

(** [list(range(n))]. *)
Definition range (n : nat) : list pyobj := (fun k => PyInt (Z.of_nat k)) <$> seq 0 n.

(** ** Dictionaries

    A [dict] keeps its keys in insertion order; assigning to a key that is
    present replaces its value in place. *)

Definition pydict : Type := list (pyobj * pyobj).

Fixpoint dict_get (d : pydict) (k : pyobj) : option pyobj :=
  match d with
  | [] => None
  | (k', v) :: d' => if decide (k = k') then Some v else dict_get d' k
  end.

Fixpoint dict_set (d : pydict) (k v : pyobj) : pydict :=
  match d with
  | [] => [(k, v)]
  | (k', v') :: d' =>
      if decide (k = k') then (k', v) :: d' else (k', v') :: dict_set d' k v
  end.

Definition dict_keys (d : pydict) : list pyobj := d.*1.
Definition dict_values (d : pydict) : list pyobj := d.*2.

(** Only hashable values are keys: a [dict] and a [list] are not
    hashable, a tuple is when its elements are. *)
Fixpoint hashable (o : pyobj) : bool :=
  match o with
  | PyDict _ | PyList _ => false
  | PyTuple xs => forallb hashable xs
  | _ => true
  end.

(** [d[k]]. *)
Definition py_dict_getitem (d : pydict) (k : pyobj) : res pyobj :=
  if hashable k then
    match dict_get d k with
    | Some v => Ok v
    | None => Raise (KeyError k)
    end
  else Raise TypeError.

(** [d.get(k, dflt)]. *)
Definition py_dict_get (d : pydict) (k dflt : pyobj) : res pyobj :=
  if hashable k then Ok (default dflt (dict_get d k)) else Raise TypeError.

(** [d[k] = v]. *)
Definition py_dict_setitem (d : pydict) (k v : pyobj) : res pydict :=
  if hashable k then Ok (dict_set d k v) else Raise TypeError.

(** ** [len] and subscripting *)

Definition py_len (o : pyobj) : res nat :=
  match o with
  | PyTuple xs | PyList xs => Ok (length xs)
  | PyStr s => Ok (String.length s)
  | PyDict kvs => Ok (length kvs)
  | _ => Raise TypeError
  end.

(** [o[j]] for [j] taken from [range(len(first))]. *)
Definition py_getitem (o : pyobj) (j : nat) : res pyobj :=
  match o with
  | PyTuple xs | PyList xs =>
      match xs !! j with
      | Some x => Ok x
      | None => Raise IndexError
      end
  | PyStr s =>
      match String.get j s with
      | Some c => Ok (PyStr (String c EmptyString))
      | None => Raise IndexError
      end
  | PyDict kvs => py_dict_getitem kvs (PyInt (Z.of_nat j))
  | _ => Raise TypeError
  end.

(** [min(...)] of a sequence of lengths. *)
Definition py_min (l : list nat) : res nat :=
  match l with
  | [] => Raise ValueError
  | x :: l' => Ok (foldr Nat.min x l')
  end.

(** [a // b]. *)
Definition py_floordiv (a b : Z) : res Z :=
  if b =? 0 then Raise ZeroDivisionError else Ok (a / b).

(** The array type is an external collaborator: [np.array(Xs)] is kept as
    the sequence it was built from. *)
Record ndarray := np_array { np_data : list pyobj }.

(** ** The Dataset contract *)

(** [Dataset._recursive_equality], on the values of [pyobj]: tuples and
    lists are compared element by element, whichever of the two each side
    is, dictionaries key by key, and anything else with [==]. No value of
    [pyobj] is an array, so the [np.ndarray] test is never met. *)
Fixpoint _recursive_equality (a b : pyobj) {struct a} : bool :=
  match a, b with
  | (PyTuple xs | PyList xs), (PyTuple ys | PyList ys) =>
      if decide (length xs <> length ys) then false
      else
        (fix go (xs ys : list pyobj) : bool :=
           match xs, ys with
           | x :: xs', y :: ys' =>
               if _recursive_equality x y then go xs' ys' else false
           | _, _ => true
           end) xs ys
  | PyDict kas, PyDict kbs =>
      if negb (forallb (fun k => bool_decide (k ∈ dict_keys kbs)) (dict_keys kas)
               && forallb (fun k => bool_decide (k ∈ dict_keys kas)) (dict_keys kbs))
      then false
      else
        (fix go (kvs : list (pyobj * pyobj)) : bool :=
           match kvs with
           | [] => true
           | (k, v) :: kvs' =>
               match dict_get kbs k with
               | Some w => if _recursive_equality v w then go kvs' else false
               | None => false
               end
           end) kas
  | _, _ => bool_decide (a = b)
  end.

(** The methods of a dataset whose mutable attributes are a value of [St].
    [list_keys] returns the keys it enumerates as a list; [items_equality]
    returns the truth value of what the method returns; [dataset_context] is
    [getattr(dataset, "_context", None)], a [ChainMap], as the dictionary of
    its entries. *)
Record Dataset (St : Type) := {
  list_keys : py St (list pyobj);
  query_item : pyobj -> py St pyobj;
  items_equality : pyobj -> pyobj -> py St bool;
  dataset_context : St -> option pydict;
}.
Arguments list_keys {St} _.
Arguments query_item {St} _ _.
Arguments items_equality {St} _ _ _.
Arguments dataset_context {St} _ _.

(** The context of a wrapper of the dataset [ds] in state [s]: the setter
    of [parent_dataset], which [self.dataset = dataset] runs, makes it a
    child of the context of [ds], with a first map of its own that is empty
    and that nothing here writes to. Its entries are those of the context
    of [ds], none when [ds] had no context before. *)
Definition inherited_context {St} (ds : Dataset St) (s : St) : option pydict :=
  Some (default [] (dataset_context ds s)).

(** [if wrap: item = (item,)]. *)
Definition wrap_item (wrap : bool) (item : pyobj) : pyobj :=
  if wrap then PyTuple [item] else item.

(** [for j in width: XYs[j][i] = item[j]]. *)
Fixpoint fill_column (width : list nat) (i : nat) (item : pyobj)
    (XYs : list (list pyobj)) : res (list (list pyobj)) :=
  match width with
  | [] => Ok XYs
  | j :: width' =>
      match py_getitem item j with
      | Raise e => Raise e
      | Ok v =>
          match XYs !! j with
          | None => Raise IndexError
          | Some Xs =>
              match py_setitem Xs (Z.of_nat i) v with
              | Raise e => Raise e
              | Ok Xs' => fill_column width' i item (<[j := Xs']> XYs)
              end
          end
      end
  end.

(** The second loop of [query]: [for i, key in iterator]. *)
Fixpoint query_rest {St} (ds : Dataset St) (wrap : bool) (width : list nat)
    (i : nat) (keys : list pyobj) (XYs : list (list pyobj))
    : py St (list (list pyobj)) :=
  match keys with
  | [] => py_ret XYs
  | key :: keys' =>
      let* item := query_item ds key in
      let item := wrap_item wrap item in
      let* XYs := py_lift (fill_column width i item XYs) in
      query_rest ds wrap width (S i) keys' XYs
  end.

(** [Dataset.query]. [next(iterator)] on an empty [keys] raises
    [StopIteration]. *)
Definition query {St} (ds : Dataset St) (keys : list pyobj) (wrap : bool)
    : py St (list ndarray) :=
  match keys with
  | [] => py_raise StopIteration
  | key0 :: rest =>
      let* first := query_item ds key0 in
      let first := wrap_item wrap first in
      let* n := py_lift (py_len first) in
      let width := seq 0 n in
      let XYs := replicate n (replicate (length keys) PyNone) in
      let* XYs := py_lift (fill_column width 0 first XYs) in
      let* XYs := query_rest ds wrap width 1 rest XYs in
      py_ret (np_array <$> XYs)
  end.

(** An exception that leaves the body of a generator: a [StopIteration]
    is turned into a [RuntimeError]. *)
Definition in_generator (e : exn) : exn :=
  match e with
  | StopIteration => RuntimeError
  | _ => e
  end.

(** [Dataset.batches]: the loop over the chunks. *)
Fixpoint batches_loop {St} (ds : Dataset St) (wrap : bool)
    (chunks : gen (list pyobj)) (s : St) : gen (list ndarray) * St :=
  match chunks with
  | GDone => (GDone, s)
  | GRaise e => (GRaise e, s)
  | GYield key_chunk chunks' =>
      match query ds key_chunk wrap s with
      | (Raise e, s') => (GRaise (in_generator e), s')
      | (Ok b, s') =>
          let '(g, s'') := batches_loop ds wrap chunks' s' in
          (GYield b g, s'')
      end
  end.

Definition batches {St} (ds : Dataset St) (keys : list pyobj)
    (batch_size : Z) (wrap : bool) (s : St) : gen (list ndarray) * St :=
  batches_loop ds wrap (chunkify keys batch_size) s.

(** [zip] of two generators: each step asks the first, then the second. *)
Fixpoint zip_cons {A} (g : gen A) (gs : gen (list A)) : gen (list A) :=
  match g with
  | GDone => GDone
  | GRaise e => GRaise e
  | GYield a g' =>
      match gs with
      | GDone => GDone
      | GRaise e => GRaise e
      | GYield l gs' => GYield (a :: l) (zip_cons g' gs')
      end
  end.

Fixpoint gen_map {A B} (f : A -> B) (g : gen A) : gen B :=
  match g with
  | GDone => GDone
  | GRaise e => GRaise e
  | GYield a g' => GYield (f a) (gen_map f g')
  end.

(** [zip] of the unpacked list [gs]: each step asks the generators in
    order and stops at the first that is exhausted or raises; no generator
    at all gives nothing. *)
Fixpoint py_zip {A} (gs : list (gen A)) : gen (list A) :=
  match gs with
  | [] => GDone
  | [g] => gen_map (fun a => [a]) g
  | g :: gs' => zip_cons g (py_zip gs')
  end.

(** The body of the loop of [balanced_batches]. *)
Fixpoint balanced_loop {St} (ds : Dataset St) (wrap : bool) (batch_size : Z)
    (parallels : gen (list (list pyobj))) (s : St)
    : gen (ndarray * ndarray) * St :=
  match parallels with
  | GDone => (GDone, s)
  | GRaise e => (GRaise e, s)
  | GYield parallel parallels' =>
      match py_min (length <$> parallel) with
      | Raise e => (GRaise e, s)
      | Ok min_length =>
          let parallel :=
            if decide (Z.of_nat min_length <> batch_size)
            then take min_length <$> parallel
            else parallel in
          match query ds (concat parallel) wrap s with
          | (Raise e, s') => (GRaise (in_generator e), s')
          | (Ok [Xs; Ys], s') =>
              let '(g, s'') := balanced_loop ds wrap batch_size parallels' s' in
              (GYield (Xs, Ys) g, s'')
          | (Ok _, s') => (GRaise ValueError, s')
          end
      end
  end.

(** [Dataset.balanced_batches]. *)
Definition balanced_batches {St} (ds : Dataset St)
    (split_keys : list (list pyobj)) (batch_size : Z) (wrap : bool) (s : St)
    : gen (ndarray * ndarray) * St :=
  match py_floordiv batch_size (Z.of_nat (length split_keys)) with
  | Raise e => (GRaise e, s)
  | Ok sub_sizes =>
      if decide (sub_sizes * Z.of_nat (length split_keys) = batch_size) then
        let batched_keys := (fun keys => chunkify keys sub_sizes) <$> split_keys in
        balanced_loop ds wrap batch_size (py_zip batched_keys) s
      else (GRaise AssertionError, s)
  end.

(** ** DictDataset *)

Definition DictDataset (dic : pydict) : Dataset unit := {|
  list_keys := py_ret (dict_keys dic);
  query_item := fun key => py_lift (py_dict_getitem dic key);
  items_equality := fun a b => py_ret (_recursive_equality a b);
  dataset_context := fun _ => None;
|}.

(** ** A counting stub

    The dataset [ds] with a log of the keys its [query_item] was called
    with, in call order. *)
Definition counting {St} (ds : Dataset St) : Dataset (St * list pyobj) := {|
  list_keys := fun '(s, log) =>
    let '(r, s') := list_keys ds s in (r, (s', log));
  query_item := fun key '(s, log) =>
    let '(r, s') := query_item ds key s in (r, (s', log ++ [key]));
  items_equality := fun a b '(s, log) =>
    let '(r, s') := items_equality ds a b s in (r, (s', log));
  dataset_context := fun '(s, _) => dataset_context ds s;
|}.

(** ** CacheLastDataset *)

Record CacheLast (St : Type) := {
  cl_dataset : St;
  cl_cache : pyobj * pyobj;
}.
Arguments cl_dataset {St} _.
Arguments cl_cache {St} _.

(** [CacheLastDataset.__init__]. *)
Definition CacheLast_init {St} (dataset : St) : CacheLast St :=
  {| cl_dataset := dataset; cl_cache := (PyNone, PyNone) |}.

(** [CacheLastDataset.query_item], over the overridable hook. *)
Definition CacheLast_query_item {St} (ds : Dataset St)
    (after_cache_miss : pyobj -> pyobj -> py (CacheLast St) unit)
    (key : pyobj) : py (CacheLast St) pyobj :=
  fun self =>
    let '(cached_key, item) := cl_cache self in
    if decide (key <> cached_key) then
      match query_item ds key (cl_dataset self) with
      | (Raise e, s') =>
          (Raise e, {| cl_dataset := s'; cl_cache := cl_cache self |})
      | (Ok item, s') =>
          let self := {| cl_dataset := s'; cl_cache := (key, item) |} in
          match after_cache_miss key item self with
          | (Raise e, self) => (Raise e, self)
          | (Ok _, self) => (Ok item, self)
          end
      end
    else (Ok item, self).

(** The default hook: [pass]. *)
Definition after_cache_miss_default {St} (key item : pyobj)
    : py (CacheLast St) unit := py_ret tt.

Definition CacheLastDataset {St} (ds : Dataset St)
    (after_cache_miss : pyobj -> pyobj -> py (CacheLast St) unit)
    : Dataset (CacheLast St) := {|
  list_keys := fun self =>
    let '(r, s') := list_keys ds (cl_dataset self) in
    (r, {| cl_dataset := s'; cl_cache := cl_cache self |});
  query_item := CacheLast_query_item ds after_cache_miss;
  items_equality := fun a b => py_ret (_recursive_equality a b);
  dataset_context := fun self => inherited_context ds (cl_dataset self);
|}.

(** A hook that records its calls in the log of a counting stub, as
    [(key, item)] pairs. *)
Definition after_cache_miss_logged {St} (key item : pyobj)
    : py (CacheLast (St * list pyobj)) unit :=
  fun self =>
    let '(s, log) := cl_dataset self in
    (Ok tt, {| cl_dataset := (s, log ++ [PyTuple [key; item]]);
               cl_cache := cl_cache self |}).

(** ** CachedDataset *)

(** Which method [list_keys] is bound to. *)
Inductive list_keys_binding :=
  | _unforgotten_list_keys
  | _cached_keys.

(** [cd_dataset] is [None] once the inner dataset has been forgotten;
    [cd_context] is then what the maps of the inner context held, which the
    context of the wrapper still refers to. *)
Record Cached (St : Type) := {
  cd_dataset : option St;
  cd_cache : pydict;
  cd_list_keys : list_keys_binding;
  cd_context : pydict;
}.
Arguments cd_dataset {St} _.
Arguments cd_cache {St} _.
Arguments cd_list_keys {St} _.
Arguments cd_context {St} _.

(** [CachedDataset.__init__]. *)
Definition Cached_init {St} (dataset : St) : Cached St :=
  {| cd_dataset := Some dataset; cd_cache := [];
     cd_list_keys := _unforgotten_list_keys;
     cd_context := [] |}.

(** [CachedDataset.query_item]. [self.cache.get(key, None)] is [None] for
    an absent key and for a key cached with the item [None]. *)
Definition Cached_query_item {St} (ds : Dataset St) (key : pyobj)
    : py (Cached St) pyobj :=
  fun self =>
    match py_dict_get (cd_cache self) key PyNone with
    | Raise e => (Raise e, self)
    | Ok tup =>
        if decide (tup <> PyNone) then (Ok tup, self)
        else
          match cd_dataset self with
          | None => (Raise AttributeError, self)
          | Some s =>
              match query_item ds key s with
              | (Raise e, s') =>
                  (Raise e, {| cd_dataset := Some s'; cd_cache := cd_cache self;
                               cd_list_keys := cd_list_keys self;
                               cd_context := cd_context self |})
              | (Ok tup, s') =>
                  let self := {| cd_dataset := Some s'; cd_cache := cd_cache self;
                                 cd_list_keys := cd_list_keys self;
                                 cd_context := cd_context self |} in
                  match py_dict_setitem (cd_cache self) key tup with
                  | Raise e => (Raise e, self)
                  | Ok cache =>
                      (Ok tup, {| cd_dataset := Some s'; cd_cache := cache;
                                  cd_list_keys := cd_list_keys self;
                                  cd_context := cd_context self |})
                  end
              end
          end
    end.

Definition Cached_list_keys {St} (ds : Dataset St) : py (Cached St) (list pyobj) :=
  fun self =>
    match cd_list_keys self with
    | _cached_keys => (Ok (dict_keys (cd_cache self)), self)
    | _unforgotten_list_keys =>
        match cd_dataset self with
        | None => (Raise AttributeError, self)
        | Some s =>
            let '(r, s') := list_keys ds s in
            (r, {| cd_dataset := Some s'; cd_cache := cd_cache self;
                   cd_list_keys := cd_list_keys self;
                   cd_context := cd_context self |})
        end
    end.

(** [for key in keys: self.query_item(key)]. *)
Fixpoint Cached_fill {St} (ds : Dataset St) (keys : list pyobj)
    : py (Cached St) unit :=
  match keys with
  | [] => py_ret tt
  | key :: keys' =>
      let* _ := Cached_query_item ds key in
      Cached_fill ds keys'
  end.

(** [CachedDataset.fill_forget]. The inner keys are enumerated by
    [self.dataset.list_keys()], whatever [self.list_keys] is bound to. *)
Definition fill_forget {St} (ds : Dataset St) : py (Cached St) unit :=
  fun self =>
    match cd_dataset self with
    | None => (Raise AttributeError, self)
    | Some s =>
        match list_keys ds s with
        | (Raise e, s') =>
            (Raise e, {| cd_dataset := Some s'; cd_cache := cd_cache self;
                         cd_list_keys := cd_list_keys self;
                         cd_context := cd_context self |})
        | (Ok keys, s') =>
            match Cached_fill ds keys
                    {| cd_dataset := Some s'; cd_cache := cd_cache self;
                       cd_list_keys := cd_list_keys self;
                       cd_context := cd_context self |} with
            | (Raise e, self) => (Raise e, self)
            | (Ok _, self) =>
                (Ok tt, {| cd_dataset := None; cd_cache := cd_cache self;
                           cd_list_keys := _cached_keys;
                           cd_context :=
                             match cd_dataset self with
                             | Some s => default [] (dataset_context ds s)
                             | None => cd_context self
                             end |})
            end
        end
    end.

Definition CachedDataset {St} (ds : Dataset St) : Dataset (Cached St) := {|
  list_keys := Cached_list_keys ds;
  query_item := Cached_query_item ds;
  items_equality := fun a b => py_ret (_recursive_equality a b);
  dataset_context := fun self =>
    match cd_dataset self with
    | Some s => inherited_context ds s
    | None => Some (cd_context self)
    end;
|}.

(** ** Files

    A binary file handle: the bytes of the file and the position of the
    handle. *)

Abbreviation byte := Init.Byte.byte.

Record file := {
  f_content : list byte;
  f_pos : nat;
}.

(** The handle that [open(path, "wb")] returns. *)
Definition fresh_file : file := {| f_content := []; f_pos := 0 |}.

(** The handle that [open(path, "rb")] returns on a file of these bytes. *)
Definition open_rb (content : list byte) : file :=
  {| f_content := content; f_pos := 0 |}.

Definition seek (offset : Z) : py file unit :=
  fun f =>
    if offset <? 0 then (Raise OSError, f)
    else (Ok tt, {| f_content := f_content f; f_pos := Z.to_nat offset |}).

Definition tell : py file Z := fun f => (Ok (Z.of_nat (f_pos f)), f).

(** Writing replaces the bytes under the handle and extends the file; a
    gap left by a seek past the end is filled with zeros. *)
Definition write (data : list byte) : py file unit :=
  fun f =>
    let content := f_content f in
    let pos := f_pos f in
    (Ok tt,
     {| f_content := take pos content
                     ++ replicate (pos - length content) Byte.x00
                     ++ data ++ drop (pos + length data) content;
        f_pos := pos + length data |}).

Definition on_file {St A} (m : py file A) : py (file * St) A :=
  fun '(f, s) => let '(r, f') := m f in (r, (f', s)).

Definition on_dataset {St A} (m : py St A) : py (file * St) A :=
  fun '(f, s) => let '(r, s') := m s in (r, (f, s')).

(** The warnings of [pickle_or_load] on [sys.stderr]: that the check could
    not be made, that the file seems out of date, with the reason when
    there is one, and the hint about determinism after a creation. *)
Inductive warning :=
  | CouldNotCheck (path : string)
  | OutOfDate (path : string) (reason : option diff_reason)
  | JustCreated.

(** The part of the world [pickle_or_load] acts on: the files by path, the
    paths at which [open(path, "wb")] succeeds, and what was written to
    [sys.stderr]. The registry [_open_pickles] only closes handles opened
    earlier for a path; the files do not depend on it and it is left out. *)
Record world := {
  fs : gmap string (list byte);
  may_create : string -> bool;
  stderr : list warning;
}.

Definition set_fs (w : world) (fs' : gmap string (list byte)) : world :=
  {| fs := fs'; may_create := may_create w; stderr := stderr w |}.

Definition stderr_write (msgs : list warning) (w : world) : world :=
  {| fs := fs w; may_create := may_create w; stderr := stderr w ++ msgs |}.

(** [os.path.exists(path)]. *)
Definition path_exists (w : world) (path : string) : bool :=
  bool_decide (is_Some (fs w !! path)).

(** [os.remove(path)]. *)
Definition os_remove (path : string) : py world unit :=
  fun w =>
    if path_exists w path then (Ok tt, set_fs w (delete path (fs w)))
    else (Raise OSError, w).

(** ** PickledDataset

    The pickle format is an external collaborator. A pickler and an
    unpickler each keep a memo of the objects they have met, so that an
    object met again is written as a reference to it; the two memos are kept
    in step by [dump] and [load], and are one type here. [dumps m obj] are
    the bytes that [Pickler.dump] writes for [obj] with the memo [m], and
    the memo it leaves; [loads m bytes] decodes one object from the start of
    the bytes with the memo [m] and tells how many bytes it read, and leaves
    a memo as well. [no_memo] is the memo of a new pickler or unpickler and
    what [memo.clear()] leaves. *)

Section Pickle.
Variable memo : Type.
Variable no_memo : memo.
Variable dumps : memo -> pyobj -> list byte * memo.
Variable loads : memo -> list byte -> res (pyobj * nat) * memo.

(** A file operation of a pickler or unpickler on its handle. *)
Definition on_handle {A} (m : py file A) : py (file * memo) A :=
  fun '(f, mm) => let '(r, f') := m f in (r, (f', mm)).

(** [pickler.dump(obj)]. *)
Definition dump (obj : pyobj) : py (file * memo) unit :=
  fun '(f, mm) =>
    let '(data, mm') := dumps mm obj in
    let '(r, f') := write data f in (r, (f', mm')).

(** [memo.clear()]. *)
Definition memo_clear : py (file * memo) unit :=
  fun '(f, _) => (Ok tt, (f, no_memo)).

(** [unpickler.load()]. *)
Definition load : py (file * memo) pyobj :=
  fun '(f, mm) =>
    match loads mm (drop (f_pos f) (f_content f)) with
    | (Ok (obj, n), mm') =>
        (Ok obj, ({| f_content := f_content f; f_pos := f_pos f + n |}, mm'))
    | (Raise e, mm') => (Raise e, (f, mm'))
    end.

(** In [create]: the pickler on its handle, and the dataset. *)
Definition on_pickler {St A} (m : py (file * memo) A) : py (file * memo * St) A :=
  fun '(p, s) => let '(r, p') := m p in (r, (p', s)).

Definition on_source {St A} (m : py St A) : py (file * memo * St) A :=
  fun '(p, s) => let '(r, s') := m s in (r, (p, s')).

(** The loop of [create]: [for key in keys]. *)
Fixpoint create_items {St} (ds : Dataset St) (keys : list pyobj)
    (index : pydict) : py (file * memo * St) pydict :=
  match keys with
  | [] => py_ret index
  | key :: keys' =>
      let* offset := on_pickler (on_handle tell) in
      let* index := py_lift (py_dict_setitem index key (PyInt offset)) in
      let* obj := on_source (query_item ds key) in
      let* _ := on_pickler (dump obj) in
      let* _ := on_pickler memo_clear in
      create_items ds keys' index
  end.

(** The body of [PickledDataset.create], with its pickler. *)
Definition create_with {St} (ds : Dataset St) (keys : option (list pyobj))
    : py (file * memo * St) unit :=
  let* _ := on_pickler (on_handle (seek 0)) in
  let* _ := on_pickler (dump (PyInt (Z.shiftl 1 65))) in
  let* keys :=
    match keys with
    | None => on_source (list_keys ds)
    | Some keys => py_ret keys
    end in
  let* index := create_items ds keys [] in
  let* index_location := on_pickler (on_handle tell) in
  let* _ := on_pickler (dump (PyDict index)) in
  let* _ :=
    fun '(p, s) =>
      match dataset_context ds s with
      | Some (kv :: context) => on_pickler (dump (PyDict (kv :: context))) (p, s)
      | _ => (Ok tt, (p, s))
      end in
  let* _ := on_pickler (on_handle (seek 0)) in
  let index_location := Z.lxor index_location (Z.shiftl 1 65) in
  on_pickler (dump (PyInt index_location)).

(** [PickledDataset.create] on an open handle: [pickler = Pickler(file_handler)]
    is new, and gone when [create] returns. *)
Definition create {St} (ds : Dataset St) (keys : option (list pyobj))
    : py (file * St) unit :=
  fun '(f, s) =>
    let '(r, (f', _, s')) := create_with ds keys (f, no_memo, s) in
    (r, (f', s')).

(** The attributes of a [PickledDataset]; [unpickler] is the memo of
    [self.unpickler]. *)
Record Pickled := {
  file_handler : file;
  offset_keys : bool;
  unpickler : memo;
  index : pyobj;
  _context : option pyobj;
}.

(** The object after its unpickler has worked: the handle and the memo as
    they were left. *)
Definition set_unpickler (self : Pickled) (p : file * memo) : Pickled :=
  {| file_handler := p.1; offset_keys := offset_keys self;
     unpickler := p.2; index := index self; _context := _context self |}.

(** The reads of [PickledDataset.__init__]: the header, the index and,
    unless the file ends there, the context. The memo is not cleared in
    between, nor at the end. *)
Definition read_index : py (file * memo) (pyobj * option pyobj) :=
  let* _ := on_handle (seek 0) in
  let* index_location := load in
  match index_location with
  | PyInt z =>
      let* _ := on_handle (seek (Z.lxor z (Z.shiftl 1 65))) in
      let* index := load in
      fun p =>
        match load p with
        | (Ok context, p') => (Ok (index, Some context), p')
        | (Raise EOFError, p') => (Ok (index, None), p')
        | (Raise e, p') => (Raise e, p')
        end
  | _ => py_raise TypeError
  end.

(** [PickledDataset.__init__]: [Unpickler(file_handler)] is new. *)
Definition PickledDataset_init (file_handler : file) (offset_keys : bool)
    : res Pickled :=
  match read_index (file_handler, no_memo) with
  | (Ok (index, context), (f, mm)) =>
      Ok {| file_handler := f; offset_keys := offset_keys; unpickler := mm;
            index := index; _context := context |}
  | (Raise e, _) => Raise e
  end.

(** [index[key]] on whatever object was loaded as the index. *)
Definition py_subscript (o key : pyobj) : res pyobj :=
  match o with
  | PyDict kvs => py_dict_getitem kvs key
  | PyTuple _ | PyList _ | PyStr _ =>
      match key, py_len o with
      | PyInt z, Ok n =>
          let z' := if z <? 0 then z + Z.of_nat n else z in
          if z' <? 0 then Raise IndexError else py_getitem o (Z.to_nat z')
      | _, _ => Raise TypeError
      end
  | _ => Raise TypeError
  end.

(** [PickledDataset._default_query_item]: the memo is cleared after the
    load, when the load has returned. *)
Definition _default_query_item (key : pyobj) : py Pickled pyobj :=
  fun self =>
    match py_subscript (index self) key with
    | Raise e => (Raise e, self)
    | Ok (PyInt offset) =>
        match (let* _ := on_handle (seek offset) in
               let* ret := load in
               let* _ := memo_clear in
               py_ret ret) (file_handler self, unpickler self) with
        | (r, p) => (r, set_unpickler self p)
        end
    | Ok _ => (Raise TypeError, self)
    end.

(** [PickledDataset._offset_query_item]: the memo is left as the load
    leaves it. *)
Definition _offset_query_item (key : pyobj) : py Pickled pyobj :=
  fun self =>
    match key with
    | PyInt offset =>
        match (let* _ := on_handle (seek offset) in load)
                (file_handler self, unpickler self) with
        | (r, p) => (r, set_unpickler self p)
        end
    | _ => (Raise TypeError, self)
    end.

Definition _default_list_keys : py Pickled (list pyobj) :=
  fun self =>
    match index self with
    | PyDict kvs => (Ok (dict_keys kvs), self)
    | _ => (Raise AttributeError, self)
    end.

Definition _offset_list_keys : py Pickled (list pyobj) :=
  fun self =>
    match index self with
    | PyDict kvs => (Ok (dict_values kvs), self)
    | _ => (Raise AttributeError, self)
    end.

(** The methods as [__init__] binds them: with [offset_keys] the keys
    listed are the offsets, and [query_item] is bound to
    [_default_query_item] in both modes. *)
Definition PickledDataset : Dataset Pickled := {|
  list_keys := fun self =>
    if offset_keys self then _offset_list_keys self
    else _default_list_keys self;
  query_item := _default_query_item;
  items_equality := fun a b => py_ret (_recursive_equality a b);
  dataset_context := fun self =>
    match _context self with
    | Some (PyDict context) => Some context
    | _ => None
    end;
|}.

(** ** pickle_or_load *)

(** [with _open_once(path, "wb") as file: PickledDataset.create(...)],
    inside the [try] of [pickle_or_load]: when the [with] block is left
    the handle is closed and what was written is in the file; on an
    exception the file, if it was created, is removed and the exception
    raised again. *)
Definition create_or_cleanup {St} (ds : Dataset St) (path : string)
    (keys : option (list pyobj)) : py (world * St) unit :=
  fun '(w, s) =>
    if may_create w path then
      let '(r, (file, s')) := create ds keys (fresh_file, s) in
      let w' := set_fs w (<[path := f_content file]> (fs w)) in
      match r with
      | Ok _ => (Ok tt, (w', s'))
      | Raise exc =>
          match os_remove path w' with
          | (Ok _, w'') => (Raise exc, (w'', s'))
          | (Raise exc', w'') => (Raise exc', (w'', s'))
          end
      end
    else (Raise OSError, (w, s)).

(** The state of the staleness check: the world, the dataset and the
    opened dataset. *)
Definition check_state (St : Type) : Type := world * St * Pickled.

(** The [try] statement of the loop body: [Ok equality], or the reason of
    a [DiffReason], or the exception that is raised again, after a
    warning when it is an [Exception]. *)
Definition compare_items {St} (ds : Dataset St) (path : string)
    (k true_item : pyobj) : py (check_state St) (bool * option diff_reason) :=
  fun '(w, s, opened) =>
    let '(r, s', opened') :=
      match _default_query_item k opened with
      | (Raise (KeyError k'), opened') =>
          (Raise (DiffReason (MissingKey k')), s, opened')
      | (Raise e, opened') => (Raise e, s, opened')
      | (Ok loaded_item, opened') =>
          let '(r, s') := items_equality ds true_item loaded_item s in
          (r, s', opened')
      end in
    match r with
    | Ok equality => (Ok (equality, None), (w, s', opened'))
    | Raise (DiffReason r) => (Ok (false, Some r), (w, s', opened'))
    | Raise e =>
        if is_Exception e
        then (Raise e, (stderr_write [CouldNotCheck path] w, s', opened'))
        else (Raise e, (w, s', opened'))
    end.

(** The loop [for k in chunk] of [pickle_or_load]. *)
Fixpoint staleness_check {St} (ds : Dataset St) (path : string)
    (was_existing : bool) (chunk : list pyobj) : py (check_state St) unit :=
  match chunk with
  | [] => py_ret tt
  | k :: chunk' =>
      let* true_item :=
        fun '(w, s, opened) =>
          let '(r, s') := query_item ds k s in (r, (w, s', opened)) in
      let* outcome := compare_items ds path k true_item in
      let '(equality, reason) := outcome in
      if negb equality then
        fun '(w, s, opened) =>
          let msgs :=
            OutOfDate path reason
            :: (if negb was_existing then [JustCreated] else []) in
          (Ok tt, (stderr_write msgs w, s, opened))
      else staleness_check ds path was_existing chunk'
  end.

(** The end of [pickle_or_load]: the first chunk of the keys is checked
    and the opened dataset returned. *)
Definition check_first_items {St} (ds : Dataset St) (path : string)
    (was_existing : bool) (keys : list pyobj) (check_first_n_items : Z)
    : py (check_state St) Pickled :=
  match gen_next (chunkify keys check_first_n_items) with
  | Raise e => py_raise e
  | Ok (chunk, _) =>
      let* _ := staleness_check ds path was_existing chunk in
      fun '(w, s, opened_dataset) =>
        (Ok opened_dataset, (w, s, opened_dataset))
  end.

(** [pickle_or_load] on a path. *)
Definition pickle_or_load {St} (ds : Dataset St) (path : string)
    (keys : option (list pyobj)) (check_first_n_items : Z)
    (overwrite : bool) (before_pickling : option (py (world * St) unit))
    : py (world * St) Pickled :=
  fun '(w, s) =>
    let was_existing := path_exists w path in
    let '(r, w, was_existing) :=
      if overwrite && was_existing
      then let '(r, w') := os_remove path w in (r, w', false)
      else (Ok tt, w, was_existing) in
    match r with
    | Raise e => (Raise e, (w, s))
    | Ok _ =>
        let '(r, (w, s)) :=
          if negb was_existing then
            (let* _ := match before_pickling with
                       | Some callback => callback
                       | None => py_ret tt
                       end in
             create_or_cleanup ds path keys) (w, s)
          else (Ok tt, (w, s)) in
        match r with
        | Raise e => (Raise e, (w, s))
        | Ok _ =>
            match fs w !! path with
            | None => (Raise OSError, (w, s))
            | Some content =>
                match PickledDataset_init (open_rb content) false with
                | Raise e => (Raise e, (w, s))
                | Ok opened_dataset =>
                    let '(r, s) :=
                      match keys with
                      | None => list_keys ds s
                      | Some keys => (Ok keys, s)
                      end in
                    match r with
                    | Raise e => (Raise e, (w, s))
                    | Ok keys =>
                        let '(r, (w, s, _)) :=
                          check_first_items ds path was_existing keys
                            check_first_n_items (w, s, opened_dataset) in
                        (r, (w, s))
                    end
                end
            end
        end
    end.

(** [pickle_or_load] on a file object. *)
Definition pickle_or_load_stream {St} (ds : Dataset St) (path : file)
    (keys : option (list pyobj)) : py St Pickled :=
  fun s =>
    match create ds keys (path, s) with
    | (Raise e, (_, s')) => (Raise e, s')
    | (Ok _, (path, s')) =>
        match PickledDataset_init path false with
        | Raise e => (Raise e, s')
        | Ok opened => (Ok opened, s')
        end
    end.
End Pickle.

Arguments on_handle {memo A} m _.
Arguments dump {memo} dumps obj _.
Arguments memo_clear {memo} no_memo _.
Arguments load {memo} loads _.
Arguments on_pickler {memo St A} m _.
Arguments on_source {memo St A} m _.
Arguments create_items {memo} no_memo dumps {St} ds keys index _.
Arguments create_with {memo} no_memo dumps {St} ds keys _.
Arguments create {memo} no_memo dumps {St} ds keys _.
Arguments Build_Pickled {memo} _ _ _ _ _.
Arguments file_handler {memo} _.
Arguments offset_keys {memo} _.
Arguments unpickler {memo} _.
Arguments index {memo} _.
Arguments _context {memo} _.
Arguments set_unpickler {memo} self p.
Arguments read_index {memo} loads _.
Arguments PickledDataset_init {memo} no_memo loads file_handler offset_keys.
Arguments _default_query_item {memo} no_memo loads key _.
Arguments _offset_query_item {memo} loads key _.
Arguments _default_list_keys {memo} _.
Arguments _offset_list_keys {memo} _.
Arguments PickledDataset {memo} no_memo loads.
Arguments create_or_cleanup {memo} no_memo dumps {St} ds path keys _.
Arguments compare_items {memo} no_memo loads {St} ds path k true_item _.
Arguments staleness_check {memo} no_memo loads {St} ds path was_existing chunk _.
Arguments check_first_items {memo} no_memo loads {St} ds path was_existing keys
  check_first_n_items _.
Arguments pickle_or_load {memo} no_memo dumps loads {St} ds path keys
  check_first_n_items overwrite before_pickling _.
Arguments pickle_or_load_stream {memo} no_memo dumps loads {St} ds path keys _.

(** ** Vocabulary of the properties *)

(** A list of chunks of size [n]: there is at least one chunk, no chunk is
    longer than [n], and every chunk but the last has [n] elements. *)
Definition chunked {A} (n : nat) (cs : list (list A)) : Prop :=
  cs <> [] /\
  forall j c, cs !! j = Some c ->
    (length c <= n)%nat /\ ((S j < length cs)%nat -> length c = n).

(** The items of [keys], queried one after the other. *)
Fixpoint query_items {St} (ds : Dataset St) (keys : list pyobj)
    : py St (list pyobj) :=
  match keys with
  | [] => py_ret []
  | key :: keys' =>
      let* item := query_item ds key in
      let* items := query_items ds keys' in
      py_ret (item :: items)
  end.

(** [item[j]] is defined for every [j] of [range(w)]. *)
Definition subscriptable (w : nat) (item : pyobj) : Prop :=
  forall j, (j < w)%nat -> exists v, py_getitem item j = Ok v.

(** The component [j] of [item], [None] where [item[j]] is not defined. *)
Definition component (item : pyobj) (j : nat) : pyobj :=
  match py_getitem item j with
  | Ok v => v
  | Raise _ => PyNone
  end.

(** The batch assembled from [items]: array [j] holds the components [j]
    of the items, in order. *)
Definition batch_of (wrap : bool) (w : nat) (items : list pyobj) : list ndarray :=
  (fun j => np_array ((fun it => component (wrap_item wrap it) j) <$> items))
    <$> seq 0 w.

(** The dataset of the doctest of [Dataset]. *)
Definition actors : pydict :=
  [(PyInt 0, PyTuple [PyStr "Denzel"; PyStr "Washington"]);
   (PyInt 1, PyTuple [PyStr "Tom"; PyStr "Hanks"])].

(** [key] is a key of the inner dataset: it is hashable, and in every state
    the dataset can be in it returns an item for it, which is not [None]. *)
Definition answers {St} (ds : Dataset St) (key : pyobj) : Prop :=
  hashable key = true /\
  forall s, exists item s', query_item ds key s = (Ok item, s') /\ item <> PyNone.

(** [key] is a key that the inner dataset answers, in every state it can
    be in, with the item [item_of key], which is not [None]. *)
Definition answers_with {St} (ds : Dataset St) (item_of : pyobj -> pyobj)
    (key : pyobj) : Prop :=
  hashable key = true /\ item_of key <> PyNone /\
  forall s, exists s', query_item ds key s = (Ok (item_of key), s').

(** [zip] on lists: the tuples of [j]-th elements, up to the shortest. *)
Fixpoint zip_lists {A} (ls : list (list A)) : list (list A) :=
  match ls with
  | [] => []
  | [l] => (fun a => [a]) <$> l
  | l :: ls' => zip_with cons l (zip_lists ls')
  end.

(** Run [j] of [sub] consecutive keys of a group. *)
Definition sub_run (sub j : nat) (keys : list pyobj) : list pyobj :=
  take sub (drop (j * sub) keys).

(** The shortest run [j] over the groups. *)
Definition shortest_run (sub j : nat) (split_keys : list (list pyobj)) : nat :=
  foldr Nat.min sub ((fun keys => length (sub_run sub j keys)) <$> split_keys).

(** The keys of batch [j]: for each group in order, its run [j] cut to the
    shortest run [j]. *)
Definition balanced_keys (sub j : nat) (split_keys : list (list pyobj))
    : list pyobj :=
  concat ((fun keys => take (shortest_run sub j split_keys) (sub_run sub j keys))
            <$> split_keys).

(** The chunks that [chunkify(keys, n)] yields. *)
Definition chunks_of (n : nat) (keys : list pyobj) : list (list pyobj) :=
  gen_yields (chunkify keys (Z.of_nat n)).

(** The number of chunks of [sub] keys that a group of [n] keys is cut
    into: an empty group gives one empty chunk. *)
Definition chunk_count (sub n : nat) : nat :=
  match n with
  | O => 1
  | S _ => (n + sub - 1) / sub
  end%nat.

(** The number of runs that all groups have. *)
Fixpoint run_count (sub : nat) (split_keys : list (list pyobj)) : nat :=
  match split_keys with
  | [] => 0
  | [keys] => chunk_count sub (length keys)
  | keys :: split_keys' =>
      Nat.min (chunk_count sub (length keys)) (run_count sub split_keys')
  end.

(** One batch of two arrays for each key list in turn, by [query], until a
    [query] raises or returns something else than two arrays. *)
Fixpoint query_each {St} (ds : Dataset St) (wrap : bool)
    (batches_keys : list (list pyobj)) (s : St) : gen (ndarray * ndarray) * St :=
  match batches_keys with
  | [] => (GDone, s)
  | keys :: batches_keys' =>
      match query ds keys wrap s with
      | (Raise e, s') => (GRaise (in_generator e), s')
      | (Ok [Xs; Ys], s') =>
          let '(g, s'') := query_each ds wrap batches_keys' s' in
          (GYield (Xs, Ys) g, s'')
      | (Ok _, s') => (GRaise ValueError, s')
      end
  end.

(** Eight keys with two-component items, in two groups. *)
Definition squares : pydict :=
  (fun k => (PyInt (Z.of_nat k), PyTuple [PyInt (Z.of_nat k); PyInt (Z.of_nat (k * k))]))
    <$> seq 0 8.

(** The index [idx] of the bytes [c]: every key has the offset of the
    bytes of its item, written with an empty memo, past a header of [hl]
    bytes. *)
Definition indexed {memo} (no_memo : memo)
    (dumps : memo -> pyobj -> list byte * memo) {St} (ds : Dataset St) (s : St)
    (hl : nat) (c : list byte) (idx : pydict) : Prop :=
  forall k off, dict_get idx k = Some off ->
    exists n item rest,
      off = PyInt (Z.of_nat n) /\ (hl <= n <= length c)%nat /\
      query_item ds k s = (Ok item, s) /\
      drop n c = (dumps no_memo item).1 ++ rest.

(** The bytes [cf] of a created file: the header written last over the
    placeholder, the items, the index [idx] and, when there is one, the
    context, written with the memo that the index left. *)
Definition created {memo} (no_memo : memo)
    (dumps : memo -> pyobj -> list byte * memo) {St} (ds : Dataset St) (s : St)
    (cf : list byte) (idx : pydict) : Prop :=
  exists body ctxb,
    let H := (dumps no_memo (PyInt (Z.shiftl 1 65))).1 in
    let c1 := H ++ body in
    let c3 := c1 ++ (dumps no_memo (PyDict idx)).1 ++ ctxb in
    let H' := (dumps no_memo
                 (PyInt (Z.lxor (Z.of_nat (length c1)) (Z.shiftl 1 65)))).1 in
    cf = H' ++ drop (length H') c3 /\
    (length H' <= length H)%nat /\
    indexed no_memo dumps ds s (length H) c1 idx /\
    (ctxb = [] \/
     exists ctx, ctxb = (dumps (dumps no_memo (PyDict idx)).2 (PyDict ctx)).1).

(** ** A miniature pickle

    A self-delimiting codec over [pyobj], to run the store on concrete
    files: a tag byte, then the binary digits of an integer, the characters
    of a string, or the elements of a tuple, list or dictionary, each
    sequence closed by a zero byte. As in pickle, a string, a tuple, a list
    and a dictionary are entered in the memo, here once they are complete
    and equal values being one object, and a value found in the memo is
    written as its place there; the memo is the list of the values entered,
    and a new entry takes the next place. *)

Fixpoint mini_dumps_pos (p : positive) : list byte :=
  match p with
  | xH => [Byte.x02]
  | xO q => Byte.x00 :: mini_dumps_pos q
  | xI q => Byte.x01 :: mini_dumps_pos q
  end.

Definition mini_dumps_Z (z : Z) : list byte :=
  match z with
  | Z0 => [Byte.x00]
  | Zpos p => Byte.x01 :: mini_dumps_pos p
  | Zneg p => Byte.x02 :: mini_dumps_pos p
  end.

Fixpoint mini_dumps_string (s : string) : list byte :=
  match s with
  | EmptyString => [Byte.x00]
  | String c s' => Byte.x01 :: Ascii.byte_of_ascii c :: mini_dumps_string s'
  end.

(** The place of [o] in the memo [m]. *)
Fixpoint memo_index (o : pyobj) (m : list pyobj) : option nat :=
  match m with
  | [] => None
  | x :: m' => if decide (o = x) then Some 0%nat else S <$> memo_index o m'
  end.

(** A reference to place [i] of the memo. *)
Definition mini_get (i : nat) : list byte :=
  Byte.x06 :: mini_dumps_Z (Z.of_nat i).

(** The elements of a sequence one after the other, each with the memo
    the one before it left. *)
Definition mini_dumps_elements
    (dump1 : pyobj -> list pyobj -> list byte * list pyobj)
    : list pyobj -> list pyobj -> list byte * list pyobj :=
  fix elements (xs : list pyobj) (m : list pyobj) :=
    match xs with
    | [] => ([Byte.x00], m)
    | x :: xs' =>
        let '(d1, m1) := dump1 x m in
        let '(d2, m2) := elements xs' m1 in
        (Byte.x01 :: d1 ++ d2, m2)
    end.

Definition mini_dumps_entries
    (dump1 : pyobj -> list pyobj -> list byte * list pyobj)
    : list (pyobj * pyobj) -> list pyobj -> list byte * list pyobj :=
  fix entries (kvs : list (pyobj * pyobj)) (m : list pyobj) :=
    match kvs with
    | [] => ([Byte.x00], m)
    | (k, v) :: kvs' =>
        let '(d1, m1) := dump1 k m in
        let '(d2, m2) := dump1 v m1 in
        let '(d3, m3) := entries kvs' m2 in
        (Byte.x01 :: d1 ++ d2 ++ d3, m3)
    end.

Fixpoint mini_dumps (o : pyobj) (m : list pyobj) {struct o}
    : list byte * list pyobj :=
  match o with
  | PyNone => ([Byte.x00], m)
  | PyInt z => (Byte.x01 :: mini_dumps_Z z, m)
  | PyStr s =>
      match memo_index o m with
      | Some i => (mini_get i, m)
      | None => (Byte.x02 :: mini_dumps_string s, m ++ [o])
      end
  | PyTuple xs =>
      match memo_index o m with
      | Some i => (mini_get i, m)
      | None =>
          let '(data, m') := mini_dumps_elements mini_dumps xs m in
          (Byte.x03 :: data, m' ++ [o])
      end
  | PyList xs =>
      match memo_index o m with
      | Some i => (mini_get i, m)
      | None =>
          let '(data, m') := mini_dumps_elements mini_dumps xs m in
          (Byte.x05 :: data, m' ++ [o])
      end
  | PyDict kvs =>
      match memo_index o m with
      | Some i => (mini_get i, m)
      | None =>
          let '(data, m') := mini_dumps_entries mini_dumps kvs m in
          (Byte.x04 :: data, m' ++ [o])
      end
  end.

Fixpoint mini_loads_pos (bs : list byte) : option (positive * list byte) :=
  match bs with
  | Byte.x02 :: r => Some (xH, r)
  | Byte.x00 :: r =>
      match mini_loads_pos r with
      | Some (q, r') => Some (xO q, r')
      | None => None
      end
  | Byte.x01 :: r =>
      match mini_loads_pos r with
      | Some (q, r') => Some (xI q, r')
      | None => None
      end
  | _ => None
  end.

Definition mini_loads_Z (bs : list byte) : option (Z * list byte) :=
  match bs with
  | Byte.x00 :: r => Some (Z0, r)
  | Byte.x01 :: r =>
      match mini_loads_pos r with
      | Some (p, r') => Some (Zpos p, r')
      | None => None
      end
  | Byte.x02 :: r =>
      match mini_loads_pos r with
      | Some (p, r') => Some (Zneg p, r')
      | None => None
      end
  | _ => None
  end.

Fixpoint mini_loads_string (bs : list byte) : option (string * list byte) :=
  match bs with
  | Byte.x00 :: r => Some (EmptyString, r)
  | Byte.x01 :: c :: r =>
      match mini_loads_string r with
      | Some (s, r') => Some (String (Ascii.ascii_of_byte c) s, r')
      | None => None
      end
  | _ => None
  end.

(** One object, then the bytes that follow it and the memo; [fuel] bounds
    the depth. *)
Fixpoint mini_loads_obj (fuel : nat) (m : list pyobj) (bs : list byte)
    : option (pyobj * list byte * list pyobj) :=
  match fuel with
  | O => None
  | S fuel =>
      match bs with
      | Byte.x00 :: r => Some (PyNone, r, m)
      | Byte.x01 :: r =>
          match mini_loads_Z r with
          | Some (z, r') => Some (PyInt z, r', m)
          | None => None
          end
      | Byte.x02 :: r =>
          match mini_loads_string r with
          | Some (s, r') => Some (PyStr s, r', m ++ [PyStr s])
          | None => None
          end
      | Byte.x03 :: r =>
          match mini_loads_elements fuel m r with
          | Some (xs, r', m') => Some (PyTuple xs, r', m' ++ [PyTuple xs])
          | None => None
          end
      | Byte.x05 :: r =>
          match mini_loads_elements fuel m r with
          | Some (xs, r', m') => Some (PyList xs, r', m' ++ [PyList xs])
          | None => None
          end
      | Byte.x04 :: r =>
          match mini_loads_entries fuel m r with
          | Some (kvs, r', m') => Some (PyDict kvs, r', m' ++ [PyDict kvs])
          | None => None
          end
      | Byte.x06 :: r =>
          match mini_loads_Z r with
          | Some (z, r') =>
              if z <? 0 then None
              else
                match m !! Z.to_nat z with
                | Some o => Some (o, r', m)
                | None => None
                end
          | None => None
          end
      | _ => None
      end
  end
with mini_loads_elements (fuel : nat) (m : list pyobj) (bs : list byte)
    : option (list pyobj * list byte * list pyobj) :=
  match fuel with
  | O => None
  | S fuel =>
      match bs with
      | Byte.x00 :: r => Some ([], r, m)
      | Byte.x01 :: r =>
          match mini_loads_obj fuel m r with
          | Some (x, r1, m1) =>
              match mini_loads_elements fuel m1 r1 with
              | Some (xs, r2, m2) => Some (x :: xs, r2, m2)
              | None => None
              end
          | None => None
          end
      | _ => None
      end
  end
with mini_loads_entries (fuel : nat) (m : list pyobj) (bs : list byte)
    : option (list (pyobj * pyobj) * list byte * list pyobj) :=
  match fuel with
  | O => None
  | S fuel =>
      match bs with
      | Byte.x00 :: r => Some ([], r, m)
      | Byte.x01 :: r =>
          match mini_loads_obj fuel m r with
          | Some (k, r1, m1) =>
              match mini_loads_obj fuel m1 r1 with
              | Some (v, r2, m2) =>
                  match mini_loads_entries fuel m2 r2 with
                  | Some (kvs, r3, m3) => Some ((k, v) :: kvs, r3, m3)
                  | None => None
                  end
              | None => None
              end
          | None => None
          end
      | _ => None
      end
  end.

Definition mini_loads (m : list pyobj) (bs : list byte)
    : res (pyobj * nat) * list pyobj :=
  match bs with
  | [] => (Raise EOFError, m)
  | _ =>
      match mini_loads_obj (length bs) m bs with
      | Some (o, r, m') => (Ok (o, (length bs - length r)%nat), m')
      | None => (Raise ValueError, m)
      end
  end.

(** The pickler and the unpickler of the miniature. *)
Definition mini_pickler (m : list pyobj) (o : pyobj) : list byte * list pyobj :=
  mini_dumps o m.

(** The world with no file, where every path can be created. *)
Definition empty_world : world :=
  {| fs := ∅; may_create := fun _ => true; stderr := [] |}.

(** [DictDataset(actors)] with an [items_equality] that cannot compare. *)
Definition incomparable : Dataset unit := {|
  list_keys := list_keys (DictDataset actors);
  query_item := query_item (DictDataset actors);
  items_equality := fun _ _ => py_raise ValueError;
  dataset_context := fun _ => None;
|}.

(** The bytes of the file that [create] writes for [keys] of
    [DictDataset(actors)] with the miniature pickle. *)
Definition actors_file (keys : list pyobj) : list byte :=
  f_content
    (create [] mini_pickler (DictDataset actors) (Some keys) (fresh_file, tt)).2.1.

(** That file, opened. *)
Definition actors_store (keys : list pyobj) : Pickled (list pyobj) :=
  match PickledDataset_init [] mini_loads (open_rb (actors_file keys)) false with
  | Ok opened => opened
  | Raise _ =>
      {| file_handler := fresh_file; offset_keys := false; unpickler := [];
         index := PyNone; _context := None |}
  end.

(** A dataset with one item, a pair whose components are one string. *)
Definition twins : pydict := [(PyInt 0, PyTuple [PyStr "ab"; PyStr "ab"])].

(** A handle at the end of its bytes. *)
Definition file_end (content : list byte) : file :=
  {| f_content := content; f_pos := length content |}.

(** The opened dataset with its handle moved to [pos]. *)
Definition at_position {memo} (self : Pickled memo) (pos : nat) : Pickled memo :=
  set_unpickler self
    ({| f_content := f_content (file_handler self); f_pos := pos |},
     unpickler self).

(** The bytes written for [item], with an empty memo, are read back
    whatever the memo of the unpickler holds. *)
Definition read_with_any_memo {memo} (no_memo : memo)
    (dumps : memo -> pyobj -> list byte * memo)
    (loads : memo -> list byte -> res (pyobj * nat) * memo) (item : pyobj) : Prop :=
  forall m rest,
    (loads m ((dumps no_memo item).1 ++ rest)).1
    = Ok (item, length (dumps no_memo item).1).

(** The opened dataset with its handle moved to [pos] and the memo [m] in
    its unpickler. *)
Definition with_reader {memo} (self : Pickled memo) (pos : nat) (m : memo)
    : Pickled memo :=
  set_unpickler self
    ({| f_content := f_content (file_handler self); f_pos := pos |}, m).

(** The opened dataset with its handle moved to [pos] and the memo of its
    unpickler cleared, as a query that has returned leaves it. *)
Definition after_query {memo} (no_memo : memo) (self : Pickled memo) (pos : nat)
    : Pickled memo :=
  set_unpickler self
    ({| f_content := f_content (file_handler self); f_pos := pos |}, no_memo).

(** The keys of [pre] are checked one after the other from the state [st]
    and each stored item is found equal to the fresh one: nothing is
    written, and the check is left in the state [st']. *)
Fixpoint checked_equal {memo} (no_memo : memo)
    (loads : memo -> list byte -> res (pyobj * nat) * memo) {St}
    (ds : Dataset St) (pre : list pyobj) (st st' : check_state memo St) : Prop :=
  match pre with
  | [] => st' = st
  | k :: pre' =>
      exists true_item s1 loaded opened1 s2,
        query_item ds k st.1.2 = (Ok true_item, s1) /\
        _default_query_item no_memo loads k st.2 = (Ok loaded, opened1) /\
        items_equality ds true_item loaded s1 = (Ok true, s2) /\
        checked_equal no_memo loads ds pre' (st.1.1, s2, opened1) st'
  end.

(** An in-memory dataset: in state [s], listing the keys and querying an
    item leave it in state [s]. *)
Definition in_memory {St} (ds : Dataset St) (s : St) : Prop :=
  (list_keys ds s).2 = s /\ forall k, (query_item ds k s).2 = s.

(** The key list that [create] uses. *)
Definition creation_keys {St} (ds : Dataset St) (keys : option (list pyobj))
    (s : St) : res (list pyobj) :=
  match keys with
  | Some keys => Ok keys
  | None => (list_keys ds s).1
  end.

(** [items] cut into runs as long as the chunks of [cs]. *)
Fixpoint split_by {A B} (cs : list (list A)) (items : list B) : list (list B) :=
  match cs with
  | [] => []
  | c :: cs' => take (length c) items :: split_by cs' (drop (length c) items)
  end.

(** An item of arity [w]: [len] gives [w] and every component is defined. *)
Definition has_arity (wrap : bool) (w : nat) (item : pyobj) : Prop :=
  py_len (wrap_item wrap item) = Ok w /\ subscriptable w (wrap_item wrap item).

(** A value without any [dict] inside. *)
Fixpoint dict_free (o : pyobj) : bool :=
  match o with
  | PyDict _ => false
  | PyTuple xs | PyList xs => forallb dict_free xs
  | _ => true
  end.

(** The value with every list in it, outside dictionaries, read as a
    tuple. *)
Fixpoint as_tuples (o : pyobj) : pyobj :=
  match o with
  | PyTuple xs | PyList xs => PyTuple (map as_tuples xs)
  | _ => o
  end.

(** ** TransformedDataset

    A transform is a callable, taken here to be a function of its positional
    arguments, with the attribute [needs_key] it may carry
    ([getattr(t, "needs_key", False)]). *)

Record callable := {
  call : list pyobj -> res pyobj;
  needs_key_attr : bool;
}.

Record Transformed (St : Type) := {
  td_dataset : St;
  td_transforms : list (callable * bool);
}.
Arguments td_dataset {St} _.
Arguments td_transforms {St} _.

(** [TransformedDataset.__init__]. *)
Definition Transformed_init {St} (dataset : St) (transforms : list callable)
    : Transformed St :=
  {| td_dataset := dataset;
     td_transforms := (fun t => (t, needs_key_attr t)) <$> transforms |}.

(** The loop of [query_item]: [for transform, needs_key in self.transforms]. *)
Fixpoint apply_transforms (transforms : list (callable * bool))
    (key item : pyobj) : res pyobj :=
  match transforms with
  | [] => Ok item
  | (transform, needs_key) :: transforms' =>
      match (if needs_key : bool then call transform [key; item]
             else call transform [item]) with
      | Raise e => Raise e
      | Ok item => apply_transforms transforms' key item
      end
  end.

(** [TransformedDataset.query_item]. *)
Definition Transformed_query_item {St} (ds : Dataset St) (key : pyobj)
    : py (Transformed St) pyobj :=
  fun self =>
    match query_item ds key (td_dataset self) with
    | (Raise e, s') =>
        (Raise e, {| td_dataset := s'; td_transforms := td_transforms self |})
    | (Ok item, s') =>
        (apply_transforms (td_transforms self) key item,
         {| td_dataset := s'; td_transforms := td_transforms self |})
    end.

(** [TransformedDataset.add_transform], called with the transform. *)
Definition add_transform {St} (transform : callable) (needs_key : bool)
    (self : Transformed St) : Transformed St :=
  let needs_key := if negb needs_key then needs_key_attr transform else needs_key in
  {| td_dataset := td_dataset self;
     td_transforms := td_transforms self ++ [(transform, needs_key)] |}.

(** [TransformedDataset.add_transforms]. *)
Definition add_transforms {St} (transforms : list callable)
    (self : Transformed St) : Transformed St :=
  {| td_dataset := td_dataset self;
     td_transforms :=
       td_transforms self ++ ((fun t => (t, needs_key_attr t)) <$> transforms) |}.

Definition TransformedDataset {St} (ds : Dataset St) : Dataset (Transformed St) := {|
  list_keys := fun self =>
    let '(r, s') := list_keys ds (td_dataset self) in
    (r, {| td_dataset := s'; td_transforms := td_transforms self |});
  query_item := Transformed_query_item ds;
  items_equality := fun a b => py_ret (_recursive_equality a b);
  dataset_context := fun self => inherited_context ds (td_dataset self);
|}.

(** The keys of [keys] that miss a single slot holding [prev]: those that
    differ from the key before them. *)
Fixpoint slot_misses (prev : pyobj) (keys : list pyobj) : list pyobj :=
  match keys with
  | [] => []
  | k :: keys' =>
      if decide (k <> prev) then k :: slot_misses k keys' else slot_misses k keys'
  end.


(** ** AugmentedDataset

    [augment] is a generator function; a call is given by the trace of the
    [(key, item)] pairs it yields. [root_key] is the method of the subclass,
    [key[0]] by default. *)

Record Augmented (St : Type) := {
  ad_dataset : St;
  ad_cache : pyobj * option pydict;
}.
Arguments ad_dataset {St} _.
Arguments ad_cache {St} _.

(** [AugmentedDataset.__init__]. *)
Definition Augmented_init {St} (dataset : St) : Augmented St :=
  {| ad_dataset := dataset; ad_cache := (PyNone, None) |}.

(** [dict(pairs)] on the pairs of a generator, continuing from [d]. *)
Fixpoint py_dict_of (d : pydict) (pairs : gen (pyobj * pyobj)) : res pydict :=
  match pairs with
  | GDone => Ok d
  | GRaise e => Raise e
  | GYield (k, v) rest =>
      match py_dict_setitem d k v with
      | Raise e => Raise e
      | Ok d' => py_dict_of d' rest
      end
  end.

(** [AugmentedDataset._augment]. The result is [self.cache[1]], which is
    [None] as long as nothing has been cached. *)
Definition _augment {St} (ds : Dataset St)
    (augment : pyobj -> pyobj -> gen (pyobj * pyobj)) (root_key : pyobj)
    : py (Augmented St) (option pydict) :=
  fun self =>
    if decide ((ad_cache self).1 <> root_key) then
      match query_item ds root_key (ad_dataset self) with
      | (Raise e, s') =>
          (Raise e, {| ad_dataset := s'; ad_cache := ad_cache self |})
      | (Ok root_item, s') =>
          match py_dict_of [] (augment root_key root_item) with
          | Raise e =>
              (Raise e, {| ad_dataset := s'; ad_cache := ad_cache self |})
          | Ok new_items =>
              (Ok (Some new_items),
               {| ad_dataset := s'; ad_cache := (root_key, Some new_items) |})
          end
      end
    else (Ok (ad_cache self).2, self).

(** [AugmentedDataset.root_key]: [key[0]]. *)
Definition Augmented_root_key (key : pyobj) : res pyobj :=
  py_subscript key (PyInt 0).

(** [AugmentedDataset.query_item]: [self._augment(root_key)[key]]. *)
Definition Augmented_query_item {St} (ds : Dataset St)
    (augment : pyobj -> pyobj -> gen (pyobj * pyobj))
    (root_key : pyobj -> res pyobj) (key : pyobj)
    : py (Augmented St) pyobj :=
  fun self =>
    match root_key key with
    | Raise e => (Raise e, self)
    | Ok rk =>
        match _augment ds augment rk self with
        | (Raise e, self') => (Raise e, self')
        | (Ok None, self') => (Raise TypeError, self')
        | (Ok (Some new_items), self') => (py_dict_getitem new_items key, self')
        end
    end.

(** [yield from l], then [g]. *)
Definition gen_yield_from {A} (l : list A) (g : gen A) : gen A :=
  foldr GYield g l.

(** [AugmentedDataset.list_keys]: the loop over the root keys, run to its
    end. [self._augment(root_key).keys()] on [None] is an
    [AttributeError]. *)
Fixpoint Augmented_keys_loop {St} (ds : Dataset St)
    (augment : pyobj -> pyobj -> gen (pyobj * pyobj))
    (root_keys : list pyobj) (self : Augmented St)
    : gen pyobj * Augmented St :=
  match root_keys with
  | [] => (GDone, self)
  | root_key :: root_keys' =>
      match _augment ds augment root_key self with
      | (Raise e, self') => (GRaise (in_generator e), self')
      | (Ok None, self') => (GRaise AttributeError, self')
      | (Ok (Some new_items), self') =>
          let '(g, self'') := Augmented_keys_loop ds augment root_keys' self' in
          (gen_yield_from (dict_keys new_items) g, self'')
      end
  end.

Definition Augmented_list_keys {St} (ds : Dataset St)
    (augment : pyobj -> pyobj -> gen (pyobj * pyobj))
    (self : Augmented St) : gen pyobj * Augmented St :=
  match list_keys ds (ad_dataset self) with
  | (Raise e, s') =>
      (GRaise (in_generator e), {| ad_dataset := s'; ad_cache := ad_cache self |})
  | (Ok root_keys, s') =>
      Augmented_keys_loop ds augment root_keys
        {| ad_dataset := s'; ad_cache := ad_cache self |}
  end.

(** [list(g)]. *)
Definition py_list {A} (g : gen A) : res (list A) :=
  match gen_end g with
  | None => Ok (gen_yields g)
  | Some e => Raise e
  end.

Definition AugmentedDataset {St} (ds : Dataset St)
    (augment : pyobj -> pyobj -> gen (pyobj * pyobj))
    (root_key : pyobj -> res pyobj) : Dataset (Augmented St) := {|
  list_keys := fun self =>
    let '(g, self') := Augmented_list_keys ds augment self in (py_list g, self');
  query_item := Augmented_query_item ds augment root_key;
  items_equality := fun a b => py_ret (_recursive_equality a b);
  dataset_context := fun self => inherited_context ds (ad_dataset self);
|}.

(** An [augment] for examples: the item of the root key, under the keys
    [(root_key, 0)] and [(root_key, 1)]. *)
Definition twice_augment (root_key root_item : pyobj) : gen (pyobj * pyobj) :=
  GYield (PyTuple [root_key; PyInt 0], root_item)
    (GYield (PyTuple [root_key; PyInt 1], root_item) GDone).

(** ** FilteredDataset

    What a predicate returns: one of the two booleans, or something else.
    [keep_positive] is a boolean. *)
Inductive truth :=
  | PyBool (b : bool)
  | NotBool.

(** [FilteredDataset.augment]. *)
Definition Filtered_augment (predicate : pyobj -> pyobj -> res truth)
    (keep_positive : bool) (key item : pyobj) : gen (pyobj * pyobj) :=
  match predicate key item with
  | Raise e => GRaise (in_generator e)
  | Ok (PyBool truth_value) =>
      if bool_decide (truth_value = keep_positive) then GYield (key, item) GDone
      else GDone
  | Ok NotBool => GRaise AssertionError
  end.

(** [FilteredDataset.root_key]. *)
Definition Filtered_root_key (key : pyobj) : res pyobj := Ok key.

Definition FilteredDataset {St} (ds : Dataset St)
    (predicate : pyobj -> pyobj -> res truth) (keep_positive : bool)
    : Dataset (Augmented St) :=
  AugmentedDataset ds (Filtered_augment predicate keep_positive) Filtered_root_key.

(** What the slot of a [FilteredDataset] holds for a root key whose item is
    [item] and on which the predicate returned [truth_value]. *)
Definition kept (keep_positive truth_value : bool) (key item : pyobj) : pydict :=
  if bool_decide (truth_value = keep_positive) then [(key, item)] else [].


(** The order of the keys of a [dict] after the keys of [ks] have been set
    one after the other, [seen] being its keys before: a key takes its
    place when it is set first. *)
Definition key_order (seen ks : list pyobj) : list pyobj :=
  foldl (fun seen k => if decide (k ∈ seen) then seen else seen ++ [k]) seen ks.

(** What [create] writes after the index for a dataset in state [s]: its
    context, unless it has none or an empty one. *)
Definition written_context {St} (ds : Dataset St) (s : St) : option pydict :=
  match dataset_context ds s with
  | Some (kv :: context) => Some (kv :: context)
  | _ => None
  end.

(** * Properties *)

(** The doctests of [chunkify]. *)

Example chunkify_doctest_even :
  chunkify (range 10) 5 = gen_of_list [take 5 (range 10); drop 5 (range 10)].
Proof. reflexivity. Qed.

Example chunkify_doctest_odd :
  gen_yields (chunkify (range 12) 5)
  = [take 5 (range 12); take 5 (drop 5 (range 12)); drop 10 (range 12)].
Proof. reflexivity. Qed.

Example chunkify_doctest_empty : chunkify [] 100 = GYield [] GDone.
Proof. reflexivity. Qed.

(** With a chunk size of zero the first element cannot be stored. *)
Example chunkify_zero : chunkify [PyInt 7] 0 = GYield [] (GRaise IndexError).
Proof. reflexivity. Qed.

(** ** chunkify *)

Lemma py_slice_to_app {A} (l1 l2 : list A) :
  py_slice_to (l1 ++ l2) (Z.of_nat (length l1)) = l1.
Proof.
  unfold py_slice_to. rewrite length_app.
  destruct (Z.ltb_spec (Z.of_nat (length l1)) 0) as [?|_]; [lia|].
  rewrite Z.min_l by lia. rewrite Nat2Z.id. by rewrite take_app_length.
Qed.

Lemma py_slice_to_0 {A} (l : list A) : py_slice_to l 0 = [].
Proof.
  unfold py_slice_to. change (0 <? 0) with false. cbv beta iota.
  rewrite Z.min_l by lia. done.
Qed.

Lemma py_setitem_app_none {A} (l1 : list A) (x y : A) (m : nat) :
  py_setitem (l1 ++ replicate (S m) x) (Z.of_nat (length l1)) y
  = Ok ((l1 ++ [y]) ++ replicate m x).
Proof.
  unfold py_setitem. rewrite length_app, length_replicate.
  destruct (Z.ltb_spec (Z.of_nat (length l1)) 0) as [?|_]; [lia|].
  destruct (Z.leb_spec 0 (Z.of_nat (length l1))) as [_|?]; [|lia].
  destruct (Z.ltb_spec (Z.of_nat (length l1))
              (Z.of_nat (length l1 + S m)%nat)) as [_|?]; [|lia].
  simpl. rewrite Nat2Z.id.
  rewrite insert_app_r_alt by lia. rewrite Nat.sub_diag. simpl.
  by rewrite <- app_assoc.
Qed.

Lemma chunked_last {A} (n : nat) (c : list A) :
  (length c <= n)%nat -> chunked n [c].
Proof.
  intros Hc. split; [done|]. intros [|j] c' Hj; simplify_eq/=.
  split; [done|lia].
Qed.

Lemma chunked_cons {A} (n : nat) (c : list A) cs :
  length c = n -> chunked n cs -> chunked n (c :: cs).
Proof.
  intros Hc [Hne Hcs]. split; [done|]. intros [|j] c' Hj; simplify_eq/=.
  - split; [lia|done].
  - destruct (Hcs _ _ Hj) as [? Hfull]. split; [done|]. intros ?. apply Hfull. lia.
Qed.

Lemma chunkify_from_spec (n : nat) (es filled : list pyobj) (i offset : Z) :
  (0 < n)%nat ->
  i - offset + 1 = Z.of_nat (length filled) ->
  (length filled <= n)%nat ->
  let g := chunkify_from (Z.of_nat n) es i offset
             (filled ++ replicate (n - length filled) PyNone) in
  gen_end g = None /\
  concat (gen_yields g) = filled ++ es /\
  chunked n (gen_yields g).
Proof.
  intros Hn. revert filled i offset.
  induction es as [|e es IH]; intros filled i offset Hi Hlen; simpl.
  - replace (i - offset + 1) with (Z.of_nat (length filled)) by lia.
    rewrite py_slice_to_app, !app_nil_r.
    split; [done|]. split; [done|]. by apply chunked_last.
  - destruct (Z.eqb_spec (i + 1 - offset) (Z.of_nat n)) as [Heq|Hne].
    + assert (length filled = n) as Hfull by lia.
      replace (n - length filled)%nat with 0%nat by lia. simpl.
      rewrite app_nil_r.
      unfold py_repeat_none. rewrite Nat2Z.id.
      replace (i + 1 - (offset + Z.of_nat n)) with 0 by lia.
      destruct n as [|m]; [lia|].
      pose proof (py_setitem_app_none [] PyNone e m) as Hset.
      change (py_setitem (replicate (S m) PyNone) 0 e = Ok (e :: replicate m PyNone))
        in Hset.
      rewrite Hset.
      specialize (IH [e] (i + 1) (offset + Z.of_nat (S m))).
      simpl in IH. rewrite Nat.sub_0_r in IH.
      destruct IH as (Hend & Hcat & Hch); [simpl; lia | lia |].
      split; [done|]. split.
      * simpl. by rewrite Hcat.
      * by apply chunked_cons.
    + assert (length filled < n)%nat as Hlt by lia.
      replace (i + 1 - offset) with (Z.of_nat (length filled)) by lia.
      replace (n - length filled)%nat with (S (n - length (filled ++ [e])))%nat
        by (rewrite length_app; simpl; lia).
      rewrite py_setitem_app_none.
      specialize (IH (filled ++ [e]) (i + 1) offset).
      destruct IH as (Hend & Hcat & Hch).
      * rewrite length_app. simpl. lia.
      * rewrite length_app. simpl. lia.
      * split; [done|]. split; [|done].
        rewrite Hcat. by rewrite <- app_assoc.
Qed.

Lemma chunkify_spec (S : list pyobj) (n : nat) :
  (0 < n)%nat ->
  gen_end (chunkify S (Z.of_nat n)) = None /\
  concat (gen_yields (chunkify S (Z.of_nat n))) = S /\
  chunked n (gen_yields (chunkify S (Z.of_nat n))).
Proof.
  intros Hn. unfold chunkify, py_repeat_none. rewrite Nat2Z.id.
  pose proof (chunkify_from_spec n S [] (-1) 0 Hn) as H.
  simpl in H. rewrite Nat.sub_0_r in H. apply H; [done|lia].
Qed.

(** C9. For every finite sequence [S] and every chunk size [n > 0],
    [chunkify(S, n)] runs to exhaustion, the chunks it yields concatenate
    to [S], every chunk but the last has exactly [n] elements, and an empty
    [S] gives exactly one chunk, the empty one. *)
Theorem chunkify_correct (S : list pyobj) (n : Z) :
  0 < n ->
  let chunks := gen_yields (chunkify S n) in
  gen_end (chunkify S n) = None /\
  concat chunks = S /\
  (forall j c, chunks !! j = Some c -> (j + 1 < length chunks)%nat ->
     Z.of_nat (length c) = n) /\
  (S = [] -> chunkify S n = GYield [] GDone).
Proof.
  intros Hn. simpl.
  destruct (chunkify_spec S (Z.to_nat n)) as (Hend & Hcat & _ & Hch); [lia|].
  rewrite Z2Nat.id in * by lia.
  split; [done|]. split; [done|]. split.
  - intros j c Hj Hlast. destruct (Hch _ _ Hj) as [_ Hfull].
    rewrite Hfull by lia. lia.
  - intros ->. unfold chunkify. simpl. by rewrite py_slice_to_0.
Qed.

Lemma chunkify_correct_witness :
  0 < 5 /\
  concat (gen_yields (chunkify (range 12) 5)) = range 12.
Proof.
  split; [lia|]. apply (chunkify_correct (range 12) 5). lia.
Defined.

(** ** Dataset.query *)

(** C5. For every dataset, [query] on an empty key list raises at
    [next(iterator)], the fault the specification calls EmptyBatch, and
    the dataset is left as it was: the log of a counting stub shows no call
    to [query_item]. *)
Theorem query_empty_batch {St} (ds : Dataset St) (wrap : bool) (s : St)
    (log : list pyobj) :
  query ds [] wrap s = (Raise StopIteration, s) /\
  query (counting ds) [] wrap (s, log) = (Raise StopIteration, (s, log)).
Proof. split; reflexivity. Qed.

Lemma py_setitem_in_range {A} (l : list A) (i : nat) (v : A) :
  (i < length l)%nat -> py_setitem l (Z.of_nat i) v = Ok (<[i := v]> l).
Proof.
  intros Hi. unfold py_setitem.
  destruct (Z.ltb_spec (Z.of_nat i) 0) as [?|_]; [lia|].
  destruct (Z.leb_spec 0 (Z.of_nat i)) as [_|?]; [|lia].
  destruct (Z.ltb_spec (Z.of_nat i) (Z.of_nat (length l))) as [_|?]; [|lia].
  simpl. by rewrite Nat2Z.id.
Qed.

Lemma component_getitem item j w :
  subscriptable w item -> (j < w)%nat -> py_getitem item j = Ok (component item j).
Proof.
  intros Hsub Hj. destruct (Hsub j Hj) as [v Hv]. unfold component. by rewrite Hv.
Qed.

Lemma fill_column_spec (a n i : nat) (item : pyobj) (XYs : list (list pyobj)) :
  (a + n <= length XYs)%nat ->
  subscriptable (a + n) item ->
  (forall j row, XYs !! j = Some row -> (i < length row)%nat) ->
  exists XYs',
    fill_column (seq a n) i item XYs = Ok XYs' /\
    length XYs' = length XYs /\
    forall j row, XYs !! j = Some row ->
      XYs' !! j = Some (if decide (a <= j < a + n)%nat
                        then <[i := component item j]> row else row).
Proof.
  revert a XYs. induction n as [|n IH]; intros a XYs Hlen Hsub Hrows.
  - exists XYs. split; [done|]. split; [done|]. intros j row Hj.
    rewrite Hj. destruct (decide _); [lia|done].
  - simpl. rewrite (component_getitem item a (a + S n)) by (done || lia).
    destruct (lookup_lt_is_Some_2 XYs a) as [row0 Hrow0]; [lia|].
    rewrite Hrow0. rewrite py_setitem_in_range by eauto.
    destruct (IH (S a) (<[a := <[i := component item a]> row0]> XYs))
      as (XYs' & Hfill & Hlen' & Hlook).
    + rewrite length_insert. lia.
    + replace (S a + n)%nat with (a + S n)%nat by lia. done.
    + intros j row Hj. destruct (decide (a = j)) as [<-|Hne].
      * rewrite list_lookup_insert_eq in Hj by lia. simplify_eq.
        rewrite length_insert. eauto.
      * rewrite list_lookup_insert_ne in Hj by done. eauto.
    + exists XYs'. split; [done|]. split; [by rewrite Hlen', length_insert|].
      intros j row Hj. destruct (decide (a = j)) as [<-|Hne].
      * rewrite (Hlook a (<[i := component item a]> row0)).
        -- simplify_eq. destruct (decide _); [lia|].
           destruct (decide _); [done|lia].
        -- rewrite list_lookup_insert_eq by lia. done.
      * rewrite (Hlook j row) by (by rewrite list_lookup_insert_ne).
        destruct (decide (S a <= j < S a + n)%nat), (decide (a <= j < a + S n)%nat);
          (done || lia).
Qed.

Lemma query_items_cons_inv {St} (ds : Dataset St) key keys s items s' :
  query_items ds (key :: keys) s = (Ok items, s') ->
  exists item s1 items',
    query_item ds key s = (Ok item, s1) /\
    query_items ds keys s1 = (Ok items', s') /\
    items = item :: items'.
Proof.
  simpl. unfold py_bind, py_ret.
  destruct (query_item ds key s) as [[item|e] s1]; [|done].
  destruct (query_items ds keys s1) as [[items'|e] s2] eqn:Hrest; [|done].
  intros [= <- <-]. by exists item, s1, items'.
Qed.

Lemma query_rest_spec {St} (ds : Dataset St) (wrap : bool) (w : nat) keys :
  forall i XYs s items s',
  query_items ds keys s = (Ok items, s') ->
  Forall (fun it => subscriptable w (wrap_item wrap it)) items ->
  length XYs = w ->
  (forall j row, XYs !! j = Some row -> (i + length keys <= length row)%nat) ->
  exists XYs',
    query_rest ds wrap (seq 0 w) i keys XYs s = (Ok XYs', s') /\
    length XYs' = w /\
    forall j row, XYs !! j = Some row ->
      exists row',
        XYs' !! j = Some row' /\
        length row' = length row /\
        (forall i', (i' < i)%nat -> row' !! i' = row !! i') /\
        (forall t it, items !! t = Some it ->
           row' !! (i + t)%nat = Some (component (wrap_item wrap it) j)).
Proof.
  induction keys as [|key keys IH]; intros i XYs s items s' Hrun Hsub Hlen Hrows.
  - simpl in Hrun. unfold py_ret in Hrun. simplify_eq.
    exists XYs. split; [done|]. split; [done|]. intros j row Hj.
    exists row. split; [done|]. split; [done|]. split; [done|].
    intros t it Ht. by rewrite lookup_nil in Ht.
  - apply query_items_cons_inv in Hrun as (item & s1 & items' & Hq & Hrun & ->).
    apply Forall_cons in Hsub as [Hitem Hsub].
    destruct (fill_column_spec 0 (length XYs) i (wrap_item wrap item) XYs)
      as (XYs1 & Hfill & Hlen1 & Hlook1).
    { lia. }
    { by rewrite Hlen. }
    { intros j row Hj. specialize (Hrows j row Hj). simpl in Hrows. lia. }
    subst w.
    destruct (IH (S i) XYs1 s1 items' s' Hrun Hsub) as (XYs' & Hrest & Hlen' & Hlook').
    { lia. }
    { intros j row1 Hj1.
      destruct (lookup_lt_is_Some_2 XYs j) as [row Hj].
      { rewrite <- Hlen1. by eapply lookup_lt_Some. }
      rewrite (Hlook1 j row Hj) in Hj1. simplify_eq.
      specialize (Hrows j row Hj). simpl in Hrows.
      destruct (decide _); rewrite ?length_insert; lia. }
    exists XYs'. split.
    { simpl. unfold py_bind, py_lift. rewrite Hq, Hfill. done. }
    split; [done|]. intros j row Hj.
    pose proof (Hrows j row Hj) as Hrow. simpl in Hrow.
    pose proof (Hlook1 j row Hj) as Hj1.
    assert (j < length XYs)%nat as Hjw by (by eapply lookup_lt_Some).
    destruct (decide (0 <= j < 0 + length XYs)%nat) as [_|?]; [|lia].
    destruct (Hlook' j _ Hj1) as (row' & Hj' & Hlenr & Hbefore & Hafter).
    exists row'. split; [done|]. split; [by rewrite Hlenr, length_insert|].
    split.
    + intros i' Hi'. rewrite Hbefore by lia. by rewrite list_lookup_insert_ne by lia.
    + intros [|t] it Ht; simpl in Ht; simplify_eq.
      * rewrite Nat.add_0_r. rewrite Hbefore by lia.
        by rewrite list_lookup_insert_eq by lia.
      * replace (i + S t)%nat with (S i + t)%nat by lia. by apply Hafter.
Qed.

Lemma query_items_length {St} (ds : Dataset St) keys :
  forall s items s',
  query_items ds keys s = (Ok items, s') -> length items = length keys.
Proof.
  induction keys as [|key keys IH]; intros s items s' Hrun.
  - simpl in Hrun. unfold py_ret in Hrun. by simplify_eq.
  - apply query_items_cons_inv in Hrun as (? & ? & ? & _ & Hrun & ->).
    simpl. f_equal. by eapply IH.
Qed.

Lemma query_items_counting {St} (ds : Dataset St) keys :
  forall s log items s',
  query_items ds keys s = (Ok items, s') ->
  query_items (counting ds) keys (s, log) = (Ok items, (s', log ++ keys)).
Proof.
  induction keys as [|key keys IH]; intros s log items s' Hrun.
  - simpl in *. unfold py_ret in *. simplify_eq. by rewrite app_nil_r.
  - apply query_items_cons_inv in Hrun as (item & s1 & items' & Hq & Hrun & ->).
    simpl. unfold py_bind, py_ret. simpl. rewrite Hq.
    rewrite (IH _ _ _ _ Hrun). by rewrite <- app_assoc.
Qed.

Lemma query_batch_of {St} (ds : Dataset St) keys wrap s items s' first w :
  keys <> [] ->
  query_items ds keys s = (Ok items, s') ->
  head items = Some first ->
  py_len (wrap_item wrap first) = Ok w ->
  Forall (fun it => subscriptable w (wrap_item wrap it)) items ->
  query ds keys wrap s = (Ok (batch_of wrap w items), s').
Proof.
  intros Hne Hrun Hfirst Hw Hsub.
  destruct keys as [|key0 rest]; [done|].
  apply query_items_cons_inv in Hrun as (item & s1 & items' & Hq & Hrun & ->).
  simpl in Hfirst. simplify_eq.
  apply Forall_cons in Hsub as [Hsub0 Hsub].
  set (L := length (key0 :: rest)).
  set (XYs0 := replicate w (replicate L PyNone)).
  destruct (fill_column_spec 0 w 0 (wrap_item wrap first) XYs0)
    as (XYs1 & Hfill & Hlen1 & Hlook1).
  { unfold XYs0. rewrite length_replicate. lia. }
  { done. }
  { intros j row Hj. unfold XYs0 in Hj. apply lookup_replicate in Hj as [-> _].
    rewrite length_replicate. unfold L. simpl. lia. }
  unfold XYs0 in Hlen1. rewrite length_replicate in Hlen1.
  destruct (query_rest_spec ds wrap w rest 1 XYs1 s1 items' s' Hrun Hsub Hlen1)
    as (XYs' & Hrest & Hlen' & Hlook').
  { intros j row1 Hj1.
    assert (j < w)%nat as Hj by (rewrite <- Hlen1; by eapply lookup_lt_Some).
    rewrite (Hlook1 j (replicate L PyNone)) in Hj1
      by (unfold XYs0; by apply lookup_replicate_2).
    simplify_eq. destruct (decide _); rewrite ?length_insert, length_replicate;
      unfold L; simpl; lia. }
  unfold query, py_bind, py_lift, py_ret. rewrite Hq, Hw.
  fold L. fold XYs0. rewrite Hfill, Hrest. f_equal. f_equal.
  apply list_eq. intros j. unfold batch_of. rewrite !list_lookup_fmap.
  destruct (decide (j < w)%nat) as [Hj|Hj].
  - rewrite lookup_seq_lt by done. simpl.
    pose proof (Hlook1 j (replicate L PyNone)) as Hj1.
    rewrite decide_True in Hj1 by lia.
    specialize (Hj1 ltac:(unfold XYs0; by apply lookup_replicate_2)).
    destruct (Hlook' j _ Hj1) as (row' & -> & Hlenr & Hbefore & Hafter).
    simpl. f_equal. f_equal.
    rewrite length_insert, length_replicate in Hlenr.
    apply list_eq. intros [|t].
    + rewrite Hbefore by lia. rewrite list_lookup_insert_eq; [done|].
      rewrite length_replicate. unfold L. simpl. lia.
    + simpl. rewrite list_lookup_fmap.
      destruct (items' !! t) as [it|] eqn:Ht.
      * pose proof (Hafter t it Ht) as Ha. simpl in Ha. by rewrite Ha.
      * simpl. apply lookup_ge_None_2. rewrite Hlenr. unfold L. simpl.
        apply lookup_ge_None_1 in Ht.
        rewrite <- (query_items_length _ _ _ _ _ Hrun). lia.
  - rewrite lookup_seq_ge by lia. simpl.
    rewrite lookup_ge_None_2; [done|lia].
Qed.

Lemma batch_of_lookup wrap w items i j it :
  items !! i = Some it -> (j < w)%nat ->
  subscriptable w (wrap_item wrap it) ->
  exists arr v,
    batch_of wrap w items !! j = Some arr /\
    np_data arr !! i = Some v /\
    py_getitem (wrap_item wrap it) j = Ok v.
Proof.
  intros Hi Hj Hsub. unfold batch_of.
  exists (np_array ((fun it => component (wrap_item wrap it) j) <$> items)),
    (component (wrap_item wrap it) j).
  split; [|split].
  - rewrite list_lookup_fmap. rewrite (lookup_seq_lt 0 w j Hj). done.
  - simpl. by rewrite list_lookup_fmap, Hi.
  - by eapply component_getitem.
Qed.

(** C3. Let [keys] be a non-empty key list whose items the dataset
    returns, each of them subscriptable over the arity [w] of the first
    one. Then [query(keys)] returns [w] arrays, one per tuple position of
    the first item; every array has [len(keys)] entries; entry [i] of array
    [j] is component [j] of the item of [keys[i]]; and the dataset ends in
    the state reached by querying the keys one after the other: the log of
    a counting stub grows by exactly [keys], in order. *)
Theorem query_batch {St} (ds : Dataset St) (keys : list pyobj) (wrap : bool)
    (s s' : St) (items : list pyobj) (first : pyobj) (w : nat) :
  keys <> [] ->
  query_items ds keys s = (Ok items, s') ->
  head items = Some first ->
  py_len (wrap_item wrap first) = Ok w ->
  Forall (fun it => subscriptable w (wrap_item wrap it)) items ->
  exists batch,
    query ds keys wrap s = (Ok batch, s') /\
    length batch = w /\
    (forall j arr, batch !! j = Some arr -> length (np_data arr) = length keys) /\
    (forall i j it, items !! i = Some it -> (j < w)%nat ->
       exists arr v,
         batch !! j = Some arr /\ np_data arr !! i = Some v /\
         py_getitem (wrap_item wrap it) j = Ok v) /\
    (forall log,
       query (counting ds) keys wrap (s, log) = (Ok batch, (s', log ++ keys))).
Proof.
  intros Hne Hrun Hfirst Hw Hsub. exists (batch_of wrap w items).
  split; [by eapply query_batch_of|].
  split; [unfold batch_of; by rewrite length_fmap, length_seq|].
  split.
  { intros j arr Hj. unfold batch_of in Hj.
    apply list_lookup_fmap_Some in Hj as (j' & -> & _). simpl.
    rewrite length_fmap. by eapply query_items_length. }
  split.
  { intros i j it Hi Hj. apply batch_of_lookup; [done..|].
    rewrite Forall_forall in Hsub. apply Hsub. by eapply list_elem_of_lookup_2. }
  intros log. eapply query_batch_of; [done| |done..].
  by apply query_items_counting.
Qed.

Lemma query_batch_witness :
  exists batch,
    query (DictDataset actors) [PyInt 0; PyInt 1] false tt = (Ok batch, tt) /\
    length batch = 2%nat /\
    (forall j arr, batch !! j = Some arr -> length (np_data arr) = 2%nat) /\
    (forall i j it, dict_values actors !! i = Some it -> (j < 2)%nat ->
       exists arr v,
         batch !! j = Some arr /\ np_data arr !! i = Some v /\
         py_getitem (wrap_item false it) j = Ok v) /\
    (forall log,
       query (counting (DictDataset actors)) [PyInt 0; PyInt 1] false (tt, log)
       = (Ok batch, (tt, log ++ [PyInt 0; PyInt 1]))).
Proof.
  apply (query_batch (DictDataset actors) [PyInt 0; PyInt 1] false tt tt
           (dict_values actors) (PyTuple [PyStr "Denzel"; PyStr "Washington"]) 2).
  - discriminate.
  - reflexivity.
  - reflexivity.
  - reflexivity.
  - repeat constructor; intros [|[|j]] Hj; simpl; eauto; lia.
Defined.

(** The doctest of [Dataset.query]. *)
Example query_doctest :
  query (DictDataset actors) [PyInt 0; PyInt 1] false tt
  = (Ok [np_array [PyStr "Denzel"; PyStr "Tom"];
         np_array [PyStr "Washington"; PyStr "Hanks"]], tt).
Proof. reflexivity. Qed.

(** An absent key and an item shorter than the first one end [query]. *)
Example query_absent_key :
  query (DictDataset actors) [PyInt 0; PyInt 5] false tt
  = (Raise (KeyError (PyInt 5)), tt).
Proof. reflexivity. Qed.

Example query_short_item :
  query (DictDataset [(PyInt 0, PyTuple [PyInt 1; PyInt 2]); (PyInt 1, PyTuple [PyInt 3])])
    [PyInt 0; PyInt 1] false tt
  = (Raise IndexError, tt).
Proof. reflexivity. Qed.

(** ** CacheLastDataset *)

(** C10. On a freshly constructed [CacheLastDataset], whose slot is
    [(None, None)], [query_item(None)] returns [None] and leaves the
    object as it was, whatever the inner dataset and the hook are: with a
    counting stub as inner dataset and a recording hook, the log stays as it
    was, so neither the inner [query_item] nor [after_cache_miss] is
    called. *)
Theorem cache_last_none_key {St} (ds : Dataset St)
    (after_cache_miss : pyobj -> pyobj -> py (CacheLast St) unit)
    (s : St) (log : list pyobj) :
  query_item (CacheLastDataset ds after_cache_miss) PyNone (CacheLast_init s)
  = (Ok PyNone, CacheLast_init s) /\
  query_item (CacheLastDataset (counting ds) after_cache_miss_logged) PyNone
    (CacheLast_init (s, log))
  = (Ok PyNone, CacheLast_init (s, log)).
Proof. split; reflexivity. Qed.

(** Any other key misses on the fresh slot: the inner dataset is asked and
    the hook runs. *)
Lemma cache_last_fresh_miss {St} (ds : Dataset St) (key item : pyobj)
    (s s' : St) (log : list pyobj) :
  key <> PyNone ->
  query_item ds key s = (Ok item, s') ->
  query_item (CacheLastDataset (counting ds) after_cache_miss_logged) key
    (CacheLast_init (s, log))
  = (Ok item, {| cl_dataset := (s', (log ++ [key]) ++ [PyTuple [key; item]]);
                 cl_cache := (key, item) |}).
Proof.
  intros Hkey Hq. simpl. unfold CacheLast_query_item. simpl.
  rewrite decide_True by done. by rewrite Hq.
Qed.

(** ** balanced_batches: the even split *)

(** C6, amended. For every non-empty sequence of key groups and every
    [batch_size] that the number of groups does not divide,
    [balanced_batches] ends with the failed assertion, the fault the
    specification calls EvenSplitRequired, before it yields any batch and
    before it queries the dataset. *)
Theorem balanced_batches_uneven {St} (ds : Dataset St)
    (split_keys : list (list pyobj)) (batch_size : Z) (wrap : bool) (s : St) :
  split_keys <> [] ->
  ~ (Z.of_nat (length split_keys) | batch_size) ->
  balanced_batches ds split_keys batch_size wrap s = (GRaise AssertionError, s).
Proof.
  intros Hne Hdiv. unfold balanced_batches, py_floordiv.
  destruct (Z.eqb_spec (Z.of_nat (length split_keys)) 0) as [Hz|Hz].
  { destruct split_keys; [done|simpl in Hz; lia]. }
  destruct (decide _) as [Heq|_]; [|done].
  destruct Hdiv. by eexists.
Qed.

Lemma balanced_batches_uneven_witness :
  balanced_batches (DictDataset actors) [[PyInt 0]; [PyInt 1]] 3 false tt
  = (GRaise AssertionError, tt).
Proof.
  apply (balanced_batches_uneven (DictDataset actors) [[PyInt 0]; [PyInt 1]] 3 false tt).
  - discriminate.
  - intros [k Hk]. simpl in Hk. lia.
Defined.

(** C6 as stated fails without groups: the division by the number of
    groups raises first. *)
Lemma balanced_batches_no_group :
  ~ (Z.of_nat (length (@nil (list pyobj))) | 3) /\
  balanced_batches (DictDataset actors) [] 3 false tt = (GRaise ZeroDivisionError, tt) /\
  balanced_batches (DictDataset actors) [] 3 false tt <> (GRaise AssertionError, tt).
Proof.
  split; [|split; [reflexivity|discriminate]].
  intros [k Hk]. simpl in Hk. lia.
Qed.

(** ** Dictionaries *)

Lemma dict_get_set_eq d k v : dict_get (dict_set d k v) k = Some v.
Proof.
  induction d as [|[k' v'] d IH]; simpl.
  - by rewrite decide_True.
  - destruct (decide (k = k')) as [->|Hne]; simpl.
    + by rewrite decide_True.
    + by rewrite decide_False.
Qed.

Lemma dict_get_set_ne d k k' v :
  k <> k' -> dict_get (dict_set d k v) k' = dict_get d k'.
Proof.
  intros Hne. induction d as [|[k0 v0] d IH]; simpl.
  - by rewrite decide_False.
  - destruct (decide (k = k0)) as [->|Hne0]; simpl.
    + by rewrite !decide_False.
    + destruct (decide (k' = k0)); [done|]. apply IH.
Qed.

Lemma dict_get_is_Some d k : is_Some (dict_get d k) <-> k ∈ dict_keys d.
Proof.
  unfold dict_keys. induction d as [|[k' v'] d IH]; simpl.
  - split; [by intros [? ?]|by intros ?%elem_of_nil].
  - rewrite elem_of_cons. destruct (decide (k = k')) as [->|Hne].
    + split; [by left|by eexists].
    + rewrite IH. naive_solver.
Qed.

Lemma dict_keys_set d k v k' :
  k' ∈ dict_keys (dict_set d k v) <-> k' = k \/ k' ∈ dict_keys d.
Proof.
  rewrite <- !dict_get_is_Some.
  destruct (decide (k = k')) as [->|Hne].
  - rewrite dict_get_set_eq. split; [by left|by eexists].
  - rewrite dict_get_set_ne by done. naive_solver.
Qed.

(** ** CachedDataset *)

Lemma Cached_fill_spec {St} (ds : Dataset St) keys :
  forall self s,
  cd_dataset self = Some s ->
  Forall (answers ds) keys ->
  exists self' s',
    Cached_fill ds keys self = (Ok tt, self') /\
    cd_dataset self' = Some s' /\
    cd_list_keys self' = cd_list_keys self /\
    (forall k, k ∈ dict_keys (cd_cache self') <->
               k ∈ dict_keys (cd_cache self) \/ k ∈ keys) /\
    (forall k v, dict_get (cd_cache self) k = Some v -> v <> PyNone ->
                 dict_get (cd_cache self') k = Some v) /\
    (forall k, k ∈ keys ->
       exists v, dict_get (cd_cache self') k = Some v /\ v <> PyNone).
Proof.
  induction keys as [|key keys IH]; intros self s Hs Hans.
  - exists self, s. simpl. split; [done|]. split; [done|]. split; [done|].
    split; [intros k; rewrite elem_of_nil; tauto|]. split; [done|].
    by intros k ?%elem_of_nil.
  - apply Forall_cons in Hans as [[Hhash Hkey] Hans].
    simpl. unfold py_bind, Cached_query_item, py_dict_get, py_dict_setitem.
    rewrite Hhash. simpl.
    destruct (decide (default PyNone (dict_get (cd_cache self) key) <> PyNone))
      as [Hhit|Hmiss].
    + destruct (IH self s Hs Hans) as (self' & s' & Hfill & Hs' & Hb & Hk & Hp & Hv).
      exists self', s'. split; [done|]. split; [done|]. split; [done|].
      destruct (dict_get (cd_cache self) key) as [v|] eqn:Hget; [|done].
      simpl in Hhit. split; [|split; [done|]].
      * intros k. rewrite Hk, elem_of_cons.
        assert (key ∈ dict_keys (cd_cache self))
          by (apply dict_get_is_Some; by eexists).
        naive_solver.
      * intros k [->|Hin]%elem_of_cons; [|by apply Hv].
        exists v. split; [by apply Hp|done].
    + rewrite Hs. destruct (Hkey s) as (item & s1 & -> & Hitem).
      set (self1 := {| cd_dataset := Some s1;
                       cd_cache := dict_set (cd_cache self) key item;
                       cd_list_keys := cd_list_keys self;
                       cd_context := cd_context self |}).
      destruct (IH self1 s1 eq_refl Hans)
        as (self' & s' & Hfill & Hs' & Hb & Hk & Hp & Hv).
      exists self', s'. split; [done|]. split; [done|]. split; [done|].
      split; [|split].
      * intros k. rewrite Hk. simpl. rewrite dict_keys_set, elem_of_cons.
        naive_solver.
      * intros k v Hget Hne. apply Hp; [|done]. simpl.
        destruct (decide (key = k)) as [->|Hkk].
        -- rewrite Hget in Hmiss. simpl in Hmiss. by destruct Hmiss.
        -- by rewrite dict_get_set_ne.
      * intros k [->|Hin]%elem_of_cons; [|by apply Hv].
        exists item. split; [|done]. apply Hp; [|done].
        simpl. apply dict_get_set_eq.
Qed.

Lemma Cached_fill_items {St} (ds : Dataset St) (item_of : pyobj -> pyobj)
    (all_keys : list pyobj) keys :
  forall self s,
  cd_dataset self = Some s ->
  Forall (answers_with ds item_of) keys ->
  (forall k, k ∈ keys -> k ∈ all_keys) ->
  (forall k v, dict_get (cd_cache self) k = Some v ->
     k ∈ all_keys /\ v = item_of k /\ v <> PyNone) ->
  exists self' s',
    Cached_fill ds keys self = (Ok tt, self') /\
    cd_dataset self' = Some s' /\
    (forall k v, dict_get (cd_cache self') k = Some v ->
       k ∈ all_keys /\ v = item_of k /\ v <> PyNone) /\
    (forall k v, dict_get (cd_cache self) k = Some v ->
       dict_get (cd_cache self') k = Some v) /\
    (forall k, k ∈ keys -> dict_get (cd_cache self') k = Some (item_of k)).
Proof.
  induction keys as [|key keys IH]; intros self s Hs Hans Hsub Hprior.
  - exists self, s. simpl. repeat split; try done; try apply (Hprior _ _ H).
    by intros k ?%elem_of_nil.
  - apply Forall_cons in Hans as [(Hhash & Hnone & Hkey) Hans].
    assert (forall k, k ∈ keys -> k ∈ all_keys) as Hsub'
      by (intros k Hk; apply Hsub, elem_of_cons; by right).
    simpl. unfold py_bind, Cached_query_item, py_dict_get, py_dict_setitem.
    rewrite Hhash. simpl.
    destruct (dict_get (cd_cache self) key) as [v|] eqn:Hget; simpl.
    + destruct (Hprior key v Hget) as (_ & -> & Hv).
      rewrite decide_True by done.
      destruct (IH self s Hs Hans Hsub' Hprior)
        as (self' & s' & Hfill & Hs' & Hinv & Hkeep & Hitems).
      exists self', s'. repeat split; try done; try apply (Hinv _ _ H).
      intros k [->|Hin]%elem_of_cons; [by apply Hkeep|by apply Hitems].
    + rewrite Hs. destruct (Hkey s) as [s1 ->].
      set (self1 := {| cd_dataset := Some s1;
                       cd_cache := dict_set (cd_cache self) key (item_of key);
                       cd_list_keys := cd_list_keys self;
                       cd_context := cd_context self |}).
      destruct (IH self1 s1 eq_refl Hans Hsub')
        as (self' & s' & Hfill & Hs' & Hinv & Hkeep & Hitems).
      { intros k v. simpl. destruct (decide (key = k)) as [<-|Hne].
        - rewrite dict_get_set_eq. intros [= <-]. split; [|done].
          apply Hsub, elem_of_cons. by left.
        - rewrite dict_get_set_ne by done. apply Hprior. }
      exists self', s'. repeat split; try done; try apply (Hinv _ _ H).
      * intros k v Hk. apply Hkeep. simpl.
        destruct (decide (key = k)) as [<-|Hne]; [congruence|].
        by rewrite dict_get_set_ne.
      * intros k [->|Hin]%elem_of_cons; [|by apply Hitems].
        apply Hkeep. simpl. apply dict_get_set_eq.
Qed.

(** C8, amended. Let a [CachedDataset] still hold its inner dataset, let
    the inner [list_keys()] enumerate [keys], let the inner dataset answer
    each of them, a hashable key, with its item, which is not [None], and
    let the cache hold nothing but keys of [keys] with their items, as a new
    cache does. Then [fill_forget()] returns; afterwards the inner dataset
    is dropped ([self.dataset] is [None]), [list_keys()] yields exactly the
    keys of [keys], and [query_item] returns the item of each of them from
    the cache alone, leaving the object unchanged. *)
Theorem fill_forget_self_contained {St} (ds : Dataset St)
    (item_of : pyobj -> pyobj) (self : Cached St) (s s1 : St)
    (keys : list pyobj) :
  cd_dataset self = Some s ->
  list_keys ds s = (Ok keys, s1) ->
  Forall (answers_with ds item_of) keys ->
  (forall k v, dict_get (cd_cache self) k = Some v -> k ∈ keys /\ v = item_of k) ->
  exists self',
    fill_forget ds self = (Ok tt, self') /\
    cd_dataset self' = None /\
    (exists ks, list_keys (CachedDataset ds) self' = (Ok ks, self') /\
                forall k, k ∈ ks <-> k ∈ keys) /\
    (forall k, k ∈ keys ->
       query_item (CachedDataset ds) k self' = (Ok (item_of k), self')).
Proof.
  intros Hs Hkeys Hans Hprior.
  set (self1 := {| cd_dataset := Some s1; cd_cache := cd_cache self;
                   cd_list_keys := cd_list_keys self;
                   cd_context := cd_context self |}).
  destruct (Cached_fill_items ds item_of keys keys self1 s1 eq_refl Hans)
    as (self2 & s2 & Hfill & Hs2 & Hinv & _ & Hitems); [done| |].
  { intros k v Hk. destruct (Hprior k v Hk) as [Hin ->]. split; [done|].
    split; [done|]. rewrite Forall_forall in Hans.
    by destruct (Hans k Hin) as (_ & ? & _). }
  exists {| cd_dataset := None; cd_cache := cd_cache self2;
            cd_list_keys := _cached_keys;
            cd_context := default [] (dataset_context ds s2) |}.
  split.
  { unfold fill_forget. rewrite Hs, Hkeys. fold self1. by rewrite Hfill, Hs2. }
  split; [done|]. split.
  - exists (dict_keys (cd_cache self2)). split; [done|].
    intros k. rewrite <- dict_get_is_Some. split.
    + intros [v Hv]. by destruct (Hinv k v Hv).
    + intros Hin. rewrite (Hitems k Hin). by eexists.
  - intros k Hin. rewrite Forall_forall in Hans.
    destruct (Hans k Hin) as (Hhash & Hnone & _).
    simpl. unfold Cached_query_item, py_dict_get. simpl.
    rewrite Hhash, (Hitems k Hin). simpl. by rewrite decide_True.
Qed.

Lemma fill_forget_self_contained_witness :
  exists self',
    fill_forget (DictDataset actors) (Cached_init tt) = (Ok tt, self') /\
    cd_dataset self' = None /\
    (exists ks, list_keys (CachedDataset (DictDataset actors)) self' = (Ok ks, self') /\
                forall k, k ∈ ks <-> k ∈ [PyInt 0; PyInt 1]) /\
    (forall k, k ∈ [PyInt 0; PyInt 1] ->
       query_item (CachedDataset (DictDataset actors)) k self'
       = (Ok (default PyNone (dict_get actors k)), self')).
Proof.
  apply (fill_forget_self_contained (DictDataset actors)
           (fun k => default PyNone (dict_get actors k)) (Cached_init tt) tt tt
           [PyInt 0; PyInt 1]).
  - reflexivity.
  - reflexivity.
  - repeat constructor; try discriminate; intros []; exists tt; reflexivity.
  - intros k v Hk. discriminate Hk.
Defined.

(** The claim as worded fails on an item [None], which is cached like an
    absent key: [fill_forget()] returns and [list_keys()] yields the key
    enumerated, but once the inner dataset is forgotten the key cannot be
    queried. *)
Lemma fill_forget_none_item :
  let ds := DictDataset [(PyInt 0, PyNone)] in
  exists self',
    fill_forget ds (Cached_init tt) = (Ok tt, self') /\
    list_keys ds tt = (Ok [PyInt 0], tt) /\
    list_keys (CachedDataset ds) self' = (Ok [PyInt 0], self') /\
    query_item (CachedDataset ds) (PyInt 0) self' = (Raise AttributeError, self').
Proof. eexists. repeat split; reflexivity. Qed.

(** Nor does [list_keys()] yield the keys enumerated when the cache held
    another key before the fill, here a key that the inner dataset has lost
    since it was cached. *)
Example fill_forget_stale_key :
  let ds := DictDataset [(PyInt 0, PyTuple [PyStr "Denzel"; PyStr "Washington"])] in
  let self := {| cd_dataset := Some tt;
                 cd_cache := [(PyInt 1, PyTuple [PyStr "Tom"; PyStr "Hanks"])];
                 cd_list_keys := _unforgotten_list_keys;
                 cd_context := [] |} in
  exists self',
    fill_forget ds self = (Ok tt, self') /\
    list_keys ds tt = (Ok [PyInt 0], tt) /\
    list_keys (CachedDataset ds) self' = (Ok [PyInt 1; PyInt 0], self').
Proof. eexists. repeat split; reflexivity. Qed.

(** ** Generators over lists *)

Lemma gen_of_list_yields {A} (g : gen A) :
  gen_end g = None -> g = gen_of_list (gen_yields g).
Proof. induction g as [| |a g IH]; simpl; intros H; [done..|]. by rewrite <- IH. Qed.

Lemma gen_yields_of_list {A} (l : list A) : gen_yields (gen_of_list l) = l.
Proof. induction l as [|a l IH]; simpl; [done|]. by rewrite IH. Qed.

Lemma gen_map_of_list {A B} (f : A -> B) (l : list A) :
  gen_map f (gen_of_list l) = gen_of_list (f <$> l).
Proof. induction l as [|a l IH]; simpl; [done|]. by rewrite IH. Qed.

Lemma zip_cons_of_lists {A} (l : list A) (r : list (list A)) :
  zip_cons (gen_of_list l) (gen_of_list r) = gen_of_list (zip_with cons l r).
Proof.
  revert r. induction l as [|a l IH]; intros [|q r]; simpl; [done..|].
  by rewrite IH.
Qed.

Lemma py_zip_of_lists {A} (ls : list (list A)) :
  py_zip (gen_of_list <$> ls) = gen_of_list (zip_lists ls).
Proof.
  induction ls as [|l ls IH]; [done|].
  destruct ls as [|l' ls].
  - simpl. apply gen_map_of_list.
  - change (zip_cons (gen_of_list l) (py_zip (gen_of_list <$> l' :: ls))
            = gen_of_list (zip_with cons l (zip_lists (l' :: ls)))).
    rewrite IH. apply zip_cons_of_lists.
Qed.

Lemma zip_lists_lookup {A} (ls : list (list A)) j p :
  ls <> [] ->
  zip_lists ls !! j = Some p ->
  Forall2 (fun l a => l !! j = Some a) ls p.
Proof.
  revert p. induction ls as [|l ls IH]; intros p Hne Hp; [done|].
  destruct ls as [|l' ls].
  - simpl in Hp. apply list_lookup_fmap_Some in Hp as (a & -> & Ha).
    by repeat constructor.
  - change (zip_with cons l (zip_lists (l' :: ls)) !! j = Some p) in Hp.
    apply lookup_zip_with_Some in Hp as (a & q & -> & Ha & Hq).
    constructor; [done|]. by apply IH.
Qed.

(** Every value yielded by the zipped generators is made of values the
    generators yield. *)
Lemma zip_cons_Forall {A} (P : A -> Prop) (g : gen A) (gs : gen (list A)) :
  Forall P (gen_yields g) ->
  Forall (Forall P) (gen_yields gs) ->
  Forall (Forall P) (gen_yields (zip_cons g gs)).
Proof.
  revert gs. induction g as [| |a g IH]; intros gs Hg Hgs; simpl; [done..|].
  destruct gs as [| |l gs]; simpl; [done..|].
  simpl in Hg, Hgs. apply Forall_cons in Hg as [Ha Hg].
  apply Forall_cons in Hgs as [Hl Hgs].
  constructor; [by constructor|]. by apply IH.
Qed.

Lemma py_zip_Forall {A} (P : A -> Prop) (gs : list (gen A)) :
  Forall (fun g => Forall P (gen_yields g)) gs ->
  Forall (Forall P) (gen_yields (py_zip gs)).
Proof.
  induction gs as [|g gs IH]; intros Hgs; [done|].
  apply Forall_cons in Hgs as [Hg Hgs].
  destruct gs as [|g' gs].
  - simpl. clear -Hg. induction g as [| |a g IH]; simpl; [done..|].
    simpl in Hg. apply Forall_cons in Hg as [Ha Hg].
    constructor; [by repeat constructor|]. by apply IH.
  - change (Forall (Forall P) (gen_yields (zip_cons g (py_zip (g' :: gs))))).
    apply zip_cons_Forall; [done|]. by apply IH.
Qed.

(** ** The chunks of chunkify *)

Lemma chunked_tail {A} (n : nat) (c : list A) cs :
  chunked n (c :: cs) -> cs <> [] -> length c = n /\ chunked n cs.
Proof.
  intros [_ Hcs] Hne. split.
  - destruct (Hcs 0%nat c eq_refl) as [_ Hfull]. apply Hfull.
    destruct cs; [done|simpl; lia].
  - split; [done|]. intros j c' Hj.
    destruct (Hcs (S j) c' Hj) as [Hle Hfull]. split; [done|].
    intros ?. apply Hfull. simpl. lia.
Qed.

Lemma chunked_lookup {A} (n : nat) (cs : list (list A)) :
  forall S j c,
  chunked n cs -> concat cs = S -> cs !! j = Some c ->
  c = take n (drop (j * n) S).
Proof.
  induction cs as [|c0 cs IH]; intros S j c Hch Hcat Hj; [done|].
  destruct (decide (cs = [])) as [->|Hne].
  - destruct j as [|j]; [|done]. simpl in *. simplify_eq.
    rewrite app_nil_r. destruct Hch as [_ Hch].
    destruct (Hch 0%nat c eq_refl) as [Hle _]. by rewrite take_ge.
  - destruct (chunked_tail _ _ _ Hch Hne) as [Hlen Hch'].
    simpl in Hcat. subst S n. destruct j as [|j]; simpl in Hj; simplify_eq.
    + rewrite Nat.mul_0_l, drop_0. by rewrite take_app_length.
    + rewrite drop_app_ge by (simpl; lia).
      replace (S j * length c0 - length c0)%nat with (j * length c0)%nat
        by (simpl; lia).
      by eapply IH.
Qed.

Lemma chunkify_chunks (S : list pyobj) (n : nat) :
  (0 < n)%nat ->
  exists cs,
    chunkify S (Z.of_nat n) = gen_of_list cs /\
    chunked n cs /\
    forall j c, cs !! j = Some c -> c = sub_run n j S.
Proof.
  intros Hn. destruct (chunkify_spec S n Hn) as (Hend & Hcat & Hch).
  exists (gen_yields (chunkify S (Z.of_nat n))).
  split; [by apply gen_of_list_yields|]. split; [done|].
  intros j c Hj. by eapply chunked_lookup.
Qed.

(** With a chunk size that is not positive only empty chunks come out. *)
Lemma chunkify_no_size (S : list pyobj) (n : Z) :
  n <= 0 -> Forall (fun c => c = []) (gen_yields (chunkify S n)).
Proof.
  intros Hn. unfold chunkify, py_repeat_none.
  replace (Z.to_nat n) with 0%nat by lia. simpl.
  destruct S as [|e S]; simpl.
  - rewrite py_slice_to_0. by repeat constructor.
  - destruct n as [|n|n]; [|lia|]; simpl; by repeat constructor.
Qed.

(** ** balanced_batches: the batches *)

Lemma balanced_loop_spec {St} (ds : Dataset St) (wrap : bool) (batch_size : Z)
    (ps : list (list (list pyobj))) :
  forall s g s',
  balanced_loop ds wrap batch_size (gen_of_list ps) s = (g, s') ->
  exists ss : list St,
    ss !! 0%nat = Some s /\
    forall j b, gen_yields g !! j = Some b ->
      exists p m s_j s_j',
        ps !! j = Some p /\
        py_min (length <$> p) = Ok m /\
        ss !! j = Some s_j /\ ss !! S j = Some s_j' /\
        query ds (concat (if decide (Z.of_nat m <> batch_size)
                          then take m <$> p else p)) wrap s_j
        = (Ok [b.1; b.2], s_j').
Proof.
  induction ps as [|p ps IH]; intros s g s' Hrun; simpl in Hrun.
  { injection Hrun as <- <-. exists [s]. split; [done|]. by intros j b ?. }
  destruct (py_min (length <$> p)) as [m|e] eqn:Hmin; cycle 1.
  { injection Hrun as <- <-. exists [s]. split; [done|]. by intros j b ?. }
  destruct (query ds _ wrap s) as [[batch|e] s1] eqn:Hq; cycle 1.
  { injection Hrun as <- <-. exists [s]. split; [done|]. by intros j b ?. }
  destruct batch as [|Xs [|Ys [|? ?]]];
    try (injection Hrun as <- <-; exists [s]; split; [done|]; by intros j b ?).
  destruct (balanced_loop ds wrap batch_size (gen_of_list ps) s1)
    as [g1 s2] eqn:Hloop.
  injection Hrun as <- <-. destruct (IH _ _ _ Hloop) as (ss & Hss & Hyield).
  exists (s :: ss). split; [done|].
  intros [|j] b Hb; simpl in Hb.
  - simplify_eq. exists p, m, s, s1. by repeat split.
  - destruct (Hyield j b Hb) as (p' & m' & s_j & s_j' & ? & ? & ? & ? & ?).
    by exists p', m', s_j, s_j'.
Qed.

Lemma balanced_loop_empty_chunks {St} (ds : Dataset St) (wrap : bool)
    (batch_size : Z) (parallels : gen (list (list pyobj))) (s : St) :
  Forall (Forall (fun c => c = [])) (gen_yields parallels) ->
  gen_yields (balanced_loop ds wrap batch_size parallels s).1 = [].
Proof.
  intros Hall. destruct parallels as [| |p rest]; simpl; [done..|].
  simpl in Hall. apply Forall_cons in Hall as [Hp _].
  destruct (py_min (length <$> p)) as [m|e]; [|done].
  assert (forall q : list (list pyobj), Forall (fun c => c = []) q -> concat q = [])
    as Hcat.
  { induction 1 as [|c q -> _ IHq]; simpl; done. }
  assert (concat (if decide (Z.of_nat m <> batch_size)
                  then take m <$> p else p) = []) as ->.
  { destruct (decide _); apply Hcat; [|done].
    apply Forall_fmap. eapply Forall_impl; [done|]. intros c ->. by destruct m. }
  done.
Qed.

Lemma foldr_min_le (x : nat) (l : list nat) : (foldr Nat.min x l <= x)%nat.
Proof. induction l as [|y l IH]; simpl; lia. Qed.

Lemma foldr_min_bound (x : nat) (l : list nat) y :
  y ∈ l -> (foldr Nat.min x l <= y)%nat.
Proof.
  induction l as [|z l IH]; [by intros ?%elem_of_nil|].
  intros [->|Hin]%elem_of_cons; simpl; [lia|]. specialize (IH Hin). lia.
Qed.

Lemma foldr_min_const (x : nat) (l : list nat) :
  Forall (fun y => y = x) l -> foldr Nat.min x l = x.
Proof. induction 1 as [|y l -> _ IH]; simpl; [done|]. rewrite IH. lia. Qed.

Lemma foldr_min_init (x sub : nat) (l : list nat) :
  (x <= sub)%nat -> foldr Nat.min x l = Nat.min x (foldr Nat.min sub l).
Proof. intros Hx. induction l as [|y l IH]; simpl; lia. Qed.

Lemma py_min_shortest (sub j : nat) (split_keys : list (list pyobj)) :
  split_keys <> [] ->
  py_min (length <$> (sub_run sub j <$> split_keys))
  = Ok (shortest_run sub j split_keys).
Proof.
  intros Hne. unfold shortest_run. destruct split_keys as [|keys ks]; [done|].
  rewrite <- list_fmap_compose. simpl. f_equal.
  apply (foldr_min_init _ sub). unfold sub_run. rewrite length_take. lia.
Qed.

Lemma length_concat_fmap_le {A B} (f : A -> list B) (n : nat) (l : list A) :
  (forall x, x ∈ l -> (length (f x) <= n)%nat) ->
  (length (concat (f <$> l)) <= n * length l)%nat.
Proof.
  induction l as [|x l IH]; intros Hf; [simpl; lia|].
  change (concat (f <$> x :: l)) with (f x ++ concat (f <$> l)).
  rewrite length_app, length_cons, Nat.mul_succ_r.
  specialize (Hf x) as Hx. specialize (Hx ltac:(apply elem_of_cons; by left)).
  specialize (IH ltac:(intros y Hy; apply Hf, elem_of_cons; by right)). lia.
Qed.

Lemma length_concat_fmap_eq {A B} (f : A -> list B) (n : nat) (l : list A) :
  (forall x, x ∈ l -> length (f x) = n) ->
  length (concat (f <$> l)) = (n * length l)%nat.
Proof.
  induction l as [|x l IH]; intros Hf; [simpl; lia|].
  change (concat (f <$> x :: l)) with (f x ++ concat (f <$> l)).
  rewrite length_app, length_cons, Nat.mul_succ_r.
  specialize (Hf x) as Hx. specialize (Hx ltac:(apply elem_of_cons; by left)).
  specialize (IH ltac:(intros y Hy; apply Hf, elem_of_cons; by right)). lia.
Qed.

Lemma chunks_of_gen (n : nat) (keys : list pyobj) :
  (0 < n)%nat -> chunkify keys (Z.of_nat n) = gen_of_list (chunks_of n keys).
Proof.
  intros Hn. apply gen_of_list_yields. by apply chunkify_spec.
Qed.

Lemma chunks_of_lookup (n j : nat) (keys c : list pyobj) :
  (0 < n)%nat -> chunks_of n keys !! j = Some c -> c = sub_run n j keys.
Proof.
  intros Hn Hj. destruct (chunkify_spec keys n Hn) as (_ & Hcat & Hch).
  by eapply chunked_lookup.
Qed.

Lemma chunks_of_full (n j : nat) (keys : list pyobj) :
  (0 < n)%nat -> (S j < length (chunks_of n keys))%nat ->
  length (sub_run n j keys) = n.
Proof.
  intros Hn Hj. destruct (chunkify_spec keys n Hn) as (_ & Hcat & Hch).
  destruct (lookup_lt_is_Some_2 (chunks_of n keys) j) as [c Hc]; [lia|].
  rewrite <- (chunks_of_lookup n j keys c Hn Hc).
  destruct Hch as [_ Hch]. by apply (Hch j c Hc).
Qed.

Lemma chunks_of_parallel (n j : nat) (split_keys p : list (list pyobj)) :
  (0 < n)%nat ->
  Forall2 (fun cs c => cs !! j = Some c) (chunks_of n <$> split_keys) p ->
  p = sub_run n j <$> split_keys /\
  forall keys, keys ∈ split_keys -> (j < length (chunks_of n keys))%nat.
Proof.
  intros Hn. revert p. induction split_keys as [|keys ks IH]; intros p Hp.
  - apply Forall2_nil_inv_l in Hp as ->. split; [done|]. by intros ? ?%elem_of_nil.
  - rewrite fmap_cons in Hp. apply Forall2_cons_inv_l in Hp as (c & q & Hc & Hq & ->).
    destruct (IH q Hq) as [-> Hlen]. split.
    + rewrite fmap_cons. f_equal. by apply chunks_of_lookup.
    + intros k [->|Hin]%elem_of_cons; [|by apply Hlen].
      by eapply lookup_lt_Some.
Qed.

Lemma balanced_keys_parallel (n j : nat) (batch_size : Z)
    (split_keys : list (list pyobj)) :
  split_keys <> [] -> Z.of_nat n <= batch_size ->
  let p := sub_run n j <$> split_keys in
  let m := shortest_run n j split_keys in
  concat (if decide (Z.of_nat m <> batch_size) then take m <$> p else p)
  = balanced_keys n j split_keys.
Proof.
  intros Hne Hn p m. unfold balanced_keys. fold m. f_equal.
  destruct (decide _) as [_|Heq].
  - unfold p. by rewrite <- list_fmap_compose.
  - unfold p. apply list_fmap_ext. intros _ keys _.
    rewrite take_ge; [done|]. unfold sub_run. rewrite length_take.
    assert (Z.of_nat m = batch_size) by (by destruct (decide (Z.of_nat m = batch_size))).
    lia.
Qed.

(** Two groups of four keys and [batch_size=4]: two batches, each with two
    keys of each group, in group order. *)
Example balanced_batches_even_groups :
  let ds := DictDataset squares in
  balanced_batches ds [range 4; drop 4 (range 8)] 4 false tt
  = (gen_of_list
       [(np_array (PyInt <$> [0; 1; 4; 5]), np_array (PyInt <$> [0; 1; 16; 25]));
        (np_array (PyInt <$> [2; 3; 6; 7]), np_array (PyInt <$> [4; 9; 36; 49]))],
     tt).
Proof. reflexivity. Qed.

(** Groups of three and four keys: the second batch is cut to one key per
    group and the last key of the longer group is never queried. *)
Example balanced_batches_uneven_groups :
  gen_yields (balanced_batches (counting (DictDataset squares))
                [range 3; drop 4 (range 8)] 4 false (tt, [])).1
  = [(np_array (PyInt <$> [0; 1; 4; 5]), np_array (PyInt <$> [0; 1; 16; 25]));
     (np_array (PyInt <$> [2; 6]), np_array (PyInt <$> [4; 36]))] /\
  (balanced_batches (counting (DictDataset squares))
     [range 3; drop 4 (range 8)] 4 false (tt, [])).2.2
  = PyInt <$> [0; 1; 4; 5; 2; 6].
Proof. split; reflexivity. Qed.

(** ** pickle_or_load *)

(** C2. Let [path] not exist, let the callback, if any, return, let
    [open(path, "wb")] succeed and let [PickledDataset.create] raise [e] on
    the handle. Then [pickle_or_load] raises [e], in a world where no file
    is at [path]: the file that the failed creation left was removed before
    the exception was raised again. *)
Theorem partial_write_cleanup {memo} (no_memo : memo)
    (dumps : memo -> pyobj -> list byte * memo)
    (loads : memo -> list byte -> res (pyobj * nat) * memo)
    {St} (ds : Dataset St)
    (path : string) (keys : option (list pyobj)) (check_first_n_items : Z)
    (overwrite : bool) (before_pickling : option (py (world * St) unit))
    (w w0 : world) (s s0 s1 : St) (e : exn) (file : file) :
  fs w !! path = None ->
  match before_pickling with
  | Some callback => callback
  | None => py_ret tt
  end (w, s) = (Ok tt, (w0, s0)) ->
  may_create w0 path = true ->
  create no_memo dumps ds keys (fresh_file, s0) = (Raise e, (file, s1)) ->
  exists w',
    pickle_or_load no_memo dumps loads ds path keys check_first_n_items overwrite
      before_pickling (w, s) = (Raise e, (w', s1)) /\
    fs w' !! path = None.
Proof.
  intros Hnew Hbefore Hopen Hcreate.
  exists (set_fs w0 (delete path (<[path := f_content file]> (fs w0)))).
  split; [|simpl; apply lookup_delete_eq].
  unfold pickle_or_load, path_exists.
  rewrite Hnew, bool_decide_eq_false_2 by (by intros [? ?]).
  rewrite andb_false_r. simpl negb. cbv iota.
  unfold py_bind. rewrite Hbefore.
  unfold create_or_cleanup. rewrite Hopen, Hcreate.
  unfold os_remove, path_exists. simpl fs.
  rewrite lookup_insert_eq, bool_decide_eq_true_2 by (by eexists).
  done.
Qed.

Lemma partial_write_cleanup_witness :
  exists w',
    pickle_or_load [] mini_pickler mini_loads (DictDataset actors) "store.pkl"
      (Some [PyInt 0; PyInt 7]) 1 false None (empty_world, tt)
    = (Raise (KeyError (PyInt 7)), (w', tt)) /\
    fs w' !! "store.pkl"%string = None.
Proof.
  apply (partial_write_cleanup [] mini_pickler mini_loads (DictDataset actors)
           "store.pkl" (Some [PyInt 0; PyInt 7]) 1 false None
           empty_world empty_world tt tt tt (KeyError (PyInt 7))
           (create [] mini_pickler (DictDataset actors) (Some [PyInt 0; PyInt 7])
              (fresh_file, tt)).2.1).
  - reflexivity.
  - reflexivity.
  - reflexivity.
  - vm_compute. reflexivity.
Defined.

Lemma staleness_check_prefix {memo} (no_memo : memo)
    (loads : memo -> list byte -> res (pyobj * nat) * memo) {St}
    (ds : Dataset St) (path : string) (was_existing : bool)
    (pre rest : list pyobj) :
  forall st st',
  checked_equal no_memo loads ds pre st st' ->
  staleness_check no_memo loads ds path was_existing (pre ++ rest) st
  = staleness_check no_memo loads ds path was_existing rest st'.
Proof.
  induction pre as [|k pre IH]; intros [[w s] opened] st'; simpl.
  - by intros ->.
  - intros (true_item & s1 & loaded & opened1 & s2 & Hq & Hload & Heq & Hrest).
    unfold py_bind at 1. rewrite Hq.
    unfold py_bind at 1, compare_items. rewrite Hload, Heq. simpl.
    by apply IH.
Qed.

(** C7, amended. Let the keys checked before [k] have been found equal, and
    let the dataset return its fresh item for [k]. A [KeyError] of the
    stored dataset, and a [DiffReason] raised by the stored query or by the
    comparison, are a mismatch with that reason: the warning with the
    reason is written, followed by the hint when the file was just created,
    the keys after [k] are not checked and the opened dataset is returned.
    Any other exception, of the stored query or of the comparison, is
    raised again to the caller, after a warning when it is an
    [Exception]. *)
Theorem staleness_check_downgraded {memo} (no_memo : memo)
    (loads : memo -> list byte -> res (pyobj * nat) * memo)
    {St} (ds : Dataset St) (path : string) (was_existing : bool)
    (keys : list pyobj) (check_first_n_items : Z) (pre : list pyobj) (k : pyobj)
    (post : list pyobj) (g : gen (list pyobj)) (w : world) (s s0 s1 : St)
    (opened opened0 : Pickled memo) (true_item : pyobj) :
  gen_next (chunkify keys check_first_n_items) = Ok (pre ++ k :: post, g) ->
  checked_equal no_memo loads ds pre (w, s, opened) (w, s0, opened0) ->
  query_item ds k s0 = (Ok true_item, s1) ->
  let just_created := if negb was_existing then [JustCreated] else [] in
  let check :=
    check_first_items no_memo loads ds path was_existing keys check_first_n_items
      (w, s, opened) in
  (forall k' opened',
     _default_query_item no_memo loads k opened0 = (Raise (KeyError k'), opened') ->
     check = (Ok opened',
              (stderr_write (OutOfDate path (Some (MissingKey k')) :: just_created) w,
               s1, opened'))) /\
  (forall r opened',
     _default_query_item no_memo loads k opened0 = (Raise (DiffReason r), opened') ->
     check = (Ok opened',
              (stderr_write (OutOfDate path (Some r) :: just_created) w,
               s1, opened'))) /\
  (forall loaded opened' r s2,
     _default_query_item no_memo loads k opened0 = (Ok loaded, opened') ->
     items_equality ds true_item loaded s1 = (Raise (DiffReason r), s2) ->
     check = (Ok opened',
              (stderr_write (OutOfDate path (Some r) :: just_created) w,
               s2, opened'))) /\
  (forall e opened',
     _default_query_item no_memo loads k opened0 = (Raise e, opened') ->
     (forall k', e <> KeyError k') -> (forall r, e <> DiffReason r) ->
     check = (Raise e,
              (if is_Exception e then stderr_write [CouldNotCheck path] w else w,
               s1, opened'))) /\
  (forall loaded opened' e s2,
     _default_query_item no_memo loads k opened0 = (Ok loaded, opened') ->
     items_equality ds true_item loaded s1 = (Raise e, s2) ->
     (forall r, e <> DiffReason r) ->
     check = (Raise e,
              (if is_Exception e then stderr_write [CouldNotCheck path] w else w,
               s2, opened'))).
Proof.
  intros Hchunk Hpre Hfresh just_created check. unfold check, check_first_items.
  rewrite Hchunk. unfold py_bind.
  rewrite (staleness_check_prefix no_memo loads ds path was_existing pre
             (k :: post) _ _ Hpre).
  simpl staleness_check. unfold py_bind. rewrite Hfresh.
  unfold compare_items. repeat split.
  - intros k' opened' ->. done.
  - intros r opened' ->. done.
  - intros loaded opened' r s2 -> ->. done.
  - intros e opened' -> Hkey Hother.
    destruct e; try done; [by destruct (Hkey k0)|by destruct (Hother r)].
  - intros loaded opened' e s2 -> -> Hother.
    destruct e; try done. by destruct (Hother r).
Qed.

Lemma staleness_check_downgraded_witness :
  exists opened0 opened',
    _default_query_item [] mini_loads (PyInt 0) opened0
    = (Raise (KeyError (PyInt 0)), opened') /\
    check_first_items [] mini_loads (DictDataset actors) "store.pkl" true
      [PyInt 1; PyInt 0] 2 (empty_world, tt, actors_store [PyInt 1])
    = (Ok opened',
       (stderr_write [OutOfDate "store.pkl" (Some (MissingKey (PyInt 0)))]
          empty_world, tt, opened')).
Proof.
  set (opened0 := (_default_query_item [] mini_loads (PyInt 1)
                     (actors_store [PyInt 1])).2).
  assert (_default_query_item [] mini_loads (PyInt 0) opened0
          = (Raise (KeyError (PyInt 0)), opened0)) as Hmissing
    by (vm_compute; reflexivity).
  exists opened0, opened0. split; [exact Hmissing|].
  assert (gen_next (chunkify [PyInt 1; PyInt 0] 2)
          = Ok ([PyInt 1] ++ PyInt 0 :: [], GDone)) as Hchunk by reflexivity.
  assert (query_item (DictDataset actors) (PyInt 0) tt
          = (Ok (PyTuple [PyStr "Denzel"; PyStr "Washington"]), tt)) as Hfresh
    by reflexivity.
  assert (checked_equal [] mini_loads (DictDataset actors) [PyInt 1]
            (empty_world, tt, actors_store [PyInt 1]) (empty_world, tt, opened0))
    as Hpre.
  { exists (PyTuple [PyStr "Tom"; PyStr "Hanks"]), tt,
      (PyTuple [PyStr "Tom"; PyStr "Hanks"]), opened0, tt.
    split; [reflexivity|]. split; [vm_compute; reflexivity|].
    split; reflexivity. }
  destruct (staleness_check_downgraded [] mini_loads (DictDataset actors)
              "store.pkl" true [PyInt 1; PyInt 0] 2 [PyInt 1] (PyInt 0) []
              GDone empty_world tt tt tt (actors_store [PyInt 1]) opened0
              (PyTuple [PyStr "Denzel"; PyStr "Washington"]) Hchunk Hpre Hfresh)
    as [Hkey _].
  by apply Hkey.
Defined.

(** C7 as stated fails: an exception of the comparison other than
    [DiffReason] reaches the caller of [pickle_or_load]; the file has just
    been created from the same dataset. *)
Lemma comparison_fault_propagates :
  exists w',
    pickle_or_load [] mini_pickler mini_loads incomparable "store.pkl" None 1
      false None (empty_world, tt)
    = (Raise ValueError, (w', tt)) /\
    stderr w' = [CouldNotCheck "store.pkl"].
Proof. eexists. split; [vm_compute; reflexivity|reflexivity]. Qed.

(** ** The round trip through the store *)

Lemma write_file_end (data content : list byte) :
  write data (file_end content) = (Ok tt, file_end (content ++ data)).
Proof.
  unfold write, file_end. simpl. f_equal. f_equal.
  - rewrite take_ge, Nat.sub_diag by lia. simpl.
    rewrite drop_ge by lia. by rewrite app_nil_r.
  - by rewrite length_app.
Qed.

Lemma write_at_start (data content : list byte) :
  write data {| f_content := content; f_pos := 0 |}
  = (Ok tt, {| f_content := data ++ drop (length data) content;
               f_pos := length data |}).
Proof. unfold write. simpl. by rewrite ?take_0. Qed.

Lemma drop_overwritten {A} (h c : list A) (n : nat) :
  (length h <= n)%nat -> (length h <= length c)%nat ->
  drop n (h ++ drop (length h) c) = drop n c.
Proof.
  intros Hn Hc. rewrite drop_app_ge by done. rewrite drop_drop. f_equal. lia.
Qed.

Lemma lxor_twice (a b : Z) : Z.lxor (Z.lxor a b) b = a.
Proof. by rewrite Z.lxor_assoc, Z.lxor_nilpotent, Z.lxor_0_r. Qed.

Lemma py_bind_ok {St A B} (m : py St A) (k : A -> py St B) st a st' :
  m st = (Ok a, st') -> py_bind m k st = k a st'.
Proof. unfold py_bind. by intros ->. Qed.

Lemma on_file_tell {St} (c : list byte) (s : St) :
  on_file tell (file_end c, s) = (Ok (Z.of_nat (length c)), (file_end c, s)).
Proof. reflexivity. Qed.

Lemma on_file_write {St} (data c : list byte) (s : St) :
  on_file (write data) (file_end c, s) = (Ok tt, (file_end (c ++ data), s)).
Proof. unfold on_file. by rewrite write_file_end. Qed.

Lemma dict_keys_dict_set d k v :
  dict_keys (dict_set d k v)
  = if decide (k ∈ dict_keys d) then dict_keys d else dict_keys d ++ [k].
Proof.
  unfold dict_keys. induction d as [|[k' v'] d IH].
  - simpl. destruct (decide (k ∈ [])) as [Hin|_]; [|done].
    by apply elem_of_nil in Hin.
  - cbn [dict_set fmap list_fmap fst].
    destruct (decide (k ∈ k' :: d.*1)) as [Hin|Hnin];
      destruct (decide (k = k')) as [->|Hne]; cbn [fmap list_fmap fst].
    + done.
    + rewrite IH. apply elem_of_cons in Hin as [?|Hin]; [done|].
      by rewrite decide_True.
    + destruct Hnin. by apply elem_of_cons; left.
    + rewrite IH. rewrite decide_False; [done|].
      intros Hin. apply Hnin. by apply elem_of_cons; right.
Qed.

Lemma key_order_elem ks : forall seen k,
  k ∈ key_order seen ks <-> k ∈ seen \/ k ∈ ks.
Proof.
  unfold key_order. induction ks as [|k' ks IH]; intros seen k; simpl.
  - split; [by left|]. by intros [?|?%elem_of_nil].
  - rewrite IH, elem_of_cons. destruct (decide (k' ∈ seen)) as [Hin|Hnin].
    + split; [naive_solver|]. intros [?|[->|?]]; eauto.
    + rewrite elem_of_app, list_elem_of_singleton. naive_solver.
Qed.

Lemma key_order_NoDup ks : forall seen, NoDup seen -> NoDup (key_order seen ks).
Proof.
  unfold key_order. induction ks as [|k ks IH]; intros seen Hseen; [done|].
  simpl. apply IH. destruct (decide (k ∈ seen)) as [Hin|Hnin]; [done|].
  apply NoDup_app. split; [done|]. split; [|apply NoDup_singleton].
  intros x Hx ->%list_elem_of_singleton. by destruct Hnin.
Qed.

Lemma key_order_distinct ks : forall seen,
  NoDup (seen ++ ks) -> key_order seen ks = seen ++ ks.
Proof.
  unfold key_order. induction ks as [|k ks IH]; intros seen Hnd; simpl.
  - by rewrite app_nil_r.
  - apply NoDup_app in Hnd as (Hseen & Hdisj & Hks).
    rewrite decide_False by (intros Hin; apply (Hdisj k Hin); by apply elem_of_cons; left).
    rewrite IH; [by rewrite <- app_assoc|].
    rewrite <- app_assoc. apply NoDup_app. split; [done|]. split; [|done].
    intros x Hx. by apply Hdisj.
Qed.

Lemma dict_get_entry d k v :
  NoDup (dict_keys d) -> (k, v) ∈ d -> dict_get d k = Some v.
Proof.
  unfold dict_keys. induction d as [|[k' v'] d IH]; simpl.
  - by intros _ ?%elem_of_nil.
  - intros [Hnin Hnd]%NoDup_cons [Heq|Hin]%elem_of_cons.
    + simplify_eq. by rewrite decide_True.
    + rewrite decide_False; [by apply IH|].
      intros ->. apply Hnin. apply list_elem_of_fmap. by exists (k', v).
Qed.

Lemma seek_to cf pos (n : nat) :
  seek (Z.of_nat n) {| f_content := cf; f_pos := pos |}
  = (Ok tt, {| f_content := cf; f_pos := n |}).
Proof.
  unfold seek. destruct (Z.ltb_spec (Z.of_nat n) 0) as [?|_]; [lia|].
  simpl. by rewrite Nat2Z.id.
Qed.

Lemma at_position_self {memo} (store : Pickled memo) :
  at_position store (f_pos (file_handler store)) = store.
Proof. by destruct store as [[c p] o m i x]. Qed.

(** A query that has returned has cleared the memo. *)
Lemma default_query_item_clears {memo} (no_memo : memo)
    (loads : memo -> list byte -> res (pyobj * nat) * memo)
    (k item : pyobj) (self self' : Pickled memo) :
  _default_query_item no_memo loads k self = (Ok item, self') ->
  exists pos, self' = after_query no_memo self pos.
Proof.
  unfold _default_query_item.
  destruct (py_subscript (index self) k) as [[|offset|str|xs|ys|kvs]|e]; try done.
  unfold py_bind, on_handle, seek. destruct (offset <? 0); [done|].
  unfold load. simpl.
  destruct (loads _ _) as [[[obj n]|e] m']; [|done].
  simpl. intros [= _ <-]. by eexists.
Qed.

Section RoundTrip.
Context {memo : Type} (no_memo : memo).
Context (dumps : memo -> pyobj -> list byte * memo).
Context (loads : memo -> list byte -> res (pyobj * nat) * memo).
Context {St : Type} (ds : Dataset St) (s : St).

(** What the store needs of the pickle format: an object is read back,
    with the memo the pickler had when it wrote it, from the bytes written
    for it, whatever follows them, and the unpickler is then left with the
    memo the pickler was left with; an integer is written without the memo;
    and reading at the end of the data raises [EOFError]. *)
Hypothesis loads_dumps :
  forall m o rest,
    loads m ((dumps m o).1 ++ rest)
    = (Ok (o, length (dumps m o).1), (dumps m o).2).
Hypothesis dumps_int :
  forall m z, dumps m (PyInt z) = ((dumps no_memo (PyInt z)).1, m).
Hypothesis loads_eof : forall m, loads m [] = (Raise EOFError, m).

Hypothesis Hmem : in_memory ds s.

Lemma indexed_app hl c idx data :
  indexed no_memo dumps ds s hl c idx ->
  indexed no_memo dumps ds s hl (c ++ data) idx.
Proof.
  intros Hidx k off Hk.
  destruct (Hidx k off Hk) as (n & item & rest & -> & Hn & Hq & Hdrop).
  exists n, item, (rest ++ data). split; [done|].
  split; [rewrite length_app; lia|]. split; [done|].
  rewrite drop_app_le by lia. by rewrite Hdrop, <- app_assoc.
Qed.

Lemma tell_end {S0} (c : list byte) (m : memo) (s0 : S0) :
  on_pickler (on_handle tell) (file_end c, m, s0)
  = (Ok (Z.of_nat (length c)), (file_end c, m, s0)).
Proof. reflexivity. Qed.

Lemma dump_end {S0} (obj : pyobj) (c : list byte) (m : memo) (s0 : S0) :
  on_pickler (dump dumps obj) (file_end c, m, s0)
  = (Ok tt, (file_end (c ++ (dumps m obj).1), (dumps m obj).2, s0)).
Proof.
  unfold on_pickler, dump. destruct (dumps m obj) as [data m'].
  by rewrite write_file_end.
Qed.

Lemma source_query k item :
  (query_item ds k s).1 = Ok item -> query_item ds k s = (Ok item, s).
Proof.
  intros Hitem. destruct Hmem as [_ Hstate]. specialize (Hstate k).
  destruct (query_item ds k s) as [r s0]. simpl in *. by subst.
Qed.

Lemma create_items_spec hl ks :
  forall idx c,
  Forall (fun k => hashable k = true /\ exists item, (query_item ds k s).1 = Ok item) ks ->
  indexed no_memo dumps ds s hl c idx -> (hl <= length c)%nat ->
  exists idx' c',
    create_items no_memo dumps ds ks idx (file_end c, no_memo, s)
    = (Ok idx', (file_end (c ++ c'), no_memo, s)) /\
    indexed no_memo dumps ds s hl (c ++ c') idx' /\
    dict_keys idx' = key_order (dict_keys idx) ks.
Proof.
  induction ks as [|k ks IH]; intros idx c Hks Hidx Hc.
  - exists idx, []. by rewrite app_nil_r.
  - apply Forall_cons in Hks as [[Hhash [item Hitem]] Hks].
    apply source_query in Hitem as Hq.
    set (data := (dumps no_memo item).1).
    set (idx1 := dict_set idx k (PyInt (Z.of_nat (length c)))).
    assert (indexed no_memo dumps ds s hl (c ++ data) idx1) as Hidx1.
    { intros k' off Hk'. unfold idx1 in Hk'.
      destruct (decide (k = k')) as [<-|Hne].
      - rewrite dict_get_set_eq in Hk'. simplify_eq.
        exists (length c), item, []. split; [done|].
        split; [rewrite length_app; lia|]. split; [done|].
        by rewrite drop_app_length, app_nil_r.
      - rewrite dict_get_set_ne in Hk' by done.
        by apply (indexed_app hl c idx data Hidx). }
    destruct (IH idx1 (c ++ data) Hks Hidx1) as (idx' & c' & Hrun & Hidx' & Hord).
    { rewrite length_app. lia. }
    exists idx', (data ++ c'). rewrite app_assoc.
    split; [|split; [done|]].
    + cbn [create_items].
      erewrite py_bind_ok by apply tell_end.
      erewrite py_bind_ok by (unfold py_lift, py_dict_setitem; by rewrite Hhash).
      erewrite py_bind_ok by (unfold on_source; by rewrite Hq).
      erewrite py_bind_ok by apply dump_end.
      erewrite py_bind_ok by reflexivity.
      exact Hrun.
    + rewrite Hord. unfold idx1. by rewrite dict_keys_dict_set.
Qed.

Lemma load_at cf pos m o rest :
  drop pos cf = (dumps m o).1 ++ rest ->
  load loads ({| f_content := cf; f_pos := pos |}, m)
  = (Ok o, ({| f_content := cf; f_pos := pos + length (dumps m o).1 |},
            (dumps m o).2)).
Proof. intros Hdrop. unfold load. simpl. by rewrite Hdrop, loads_dumps. Qed.

Lemma handle_seek_to cf pos (m : memo) (n : nat) :
  on_handle (seek (Z.of_nat n)) ({| f_content := cf; f_pos := pos |}, m)
  = (Ok tt, ({| f_content := cf; f_pos := n |}, m)).
Proof. unfold on_handle. by rewrite seek_to. Qed.

Lemma created_item cf idx k off :
  created no_memo dumps ds s cf idx -> dict_get idx k = Some off ->
  exists n item rest,
    off = PyInt (Z.of_nat n) /\ query_item ds k s = (Ok item, s) /\
    drop n cf = (dumps no_memo item).1 ++ rest.
Proof.
  intros (body & ctxb & -> & Hfit & Hidx & _) Hk.
  destruct (Hidx k off Hk) as (n & item & rest & -> & Hn & Hq & Hdrop).
  exists n, item, (rest ++ (dumps no_memo (PyDict idx)).1 ++ ctxb).
  split; [done|]. split; [done|].
  set (H' := (dumps no_memo (PyInt (Z.lxor _ _))).1) in *.
  rewrite length_app in Hn.
  rewrite drop_overwritten by (rewrite ?length_app; lia).
  rewrite drop_app_le by (rewrite length_app; lia).
  by rewrite Hdrop, <- app_assoc.
Qed.

(** With a cleared memo, the item of a key of the index is read back. *)
Lemma query_spec cf idx store k pos :
  created no_memo dumps ds s cf idx ->
  index store = PyDict idx ->
  f_content (file_handler store) = cf ->
  hashable k = true ->
  is_Some (dict_get idx k) ->
  exists pos',
    query_item (PickledDataset no_memo loads) k (after_query no_memo store pos)
    = ((query_item ds k s).1, after_query no_memo store pos').
Proof.
  intros Hcf Hindex Hcontent Hhash [off Hk].
  destruct (created_item cf idx k off Hcf Hk) as (n & item & rest & -> & Hq & Hdrop).
  exists (n + length (dumps no_memo item).1)%nat. rewrite Hq. simpl.
  unfold _default_query_item, after_query. simpl. rewrite Hindex. simpl.
  unfold py_dict_getitem. rewrite Hhash, Hk.
  erewrite py_bind_ok by apply handle_seek_to.
  rewrite Hcontent.
  erewrite py_bind_ok by (by apply (load_at _ _ _ item rest)).
  done.
Qed.

(** The header never takes more bytes than its placeholder: this is what
    the bias [1 << 65] is for, as long as the index starts below it. *)
Hypothesis header_fits :
  forall loc, 0 <= loc < 2 ^ 65 ->
    (length (dumps no_memo (PyInt (Z.lxor loc (Z.shiftl 1 65)))).1
     <= length (dumps no_memo (PyInt (Z.shiftl 1 65))).1)%nat.

(** The file that [create] writes and what [__init__] reads from it; the
    memo that [__init__] leaves is the one the last load left. *)
Lemma store_spec keys ks :
  creation_keys ds keys s = Ok ks ->
  Forall (fun k => hashable k = true /\ exists item, (query_item ds k s).1 = Ok item) ks ->
  exists cf p idx,
    create no_memo dumps ds keys (fresh_file, s)
    = (Ok tt, ({| f_content := cf; f_pos := p |}, s)) /\
    dict_keys idx = key_order [] ks /\
    (Z.of_nat (length cf) < 2 ^ 65 ->
     created no_memo dumps ds s cf idx /\
     forall flag, exists pos m,
       PickledDataset_init no_memo loads (open_rb cf) flag
       = Ok {| file_handler := {| f_content := cf; f_pos := pos |};
               offset_keys := flag; unpickler := m; index := PyDict idx;
               _context := PyDict <$> written_context ds s |}).
Proof.
  intros Hkeys Hks.
  assert (forall m z, (dumps m (PyInt z)).2 = m) as Hint2
    by (intros m z; by rewrite dumps_int).
  assert (forall m z, (dumps m (PyInt z)).1 = (dumps no_memo (PyInt z)).1) as Hint1
    by (intros m z; by rewrite dumps_int).
  set (H := (dumps no_memo (PyInt (Z.shiftl 1 65))).1).
  destruct (create_items_spec (length H) ks [] H Hks) as (idx & body & Hrun & Hidx & Hord).
  { by intros k off ?. }
  { done. }
  set (I := (dumps no_memo (PyDict idx)).1).
  set (m_idx := (dumps no_memo (PyDict idx)).2).
  set (ctxb := match dataset_context ds s with
               | Some (kv :: context) => (dumps m_idx (PyDict (kv :: context))).1
               | _ => []
               end).
  set (c1 := H ++ body) in *.
  set (c3 := c1 ++ I ++ ctxb).
  set (H' := (dumps no_memo
                (PyInt (Z.lxor (Z.of_nat (length c1)) (Z.shiftl 1 65)))).1).
  exists (H' ++ drop (length H') c3), (length H'), idx.
  split; [|split; [done|]].
  { unfold create, create_with.
    erewrite py_bind_ok by reflexivity.
    erewrite py_bind_ok by (apply (dump_end _ [])).
    rewrite Hint2. cbn [app]. fold H.
    erewrite py_bind_ok; cycle 1.
    { instantiate (1 := (file_end H, no_memo, s)). instantiate (1 := ks).
      destruct keys as [keys|]; simpl in Hkeys.
      - by simplify_eq.
      - unfold on_source. destruct Hmem as [Hstate _].
        destruct (list_keys ds s) as [r s0]. simpl in *. by subst. }
    erewrite py_bind_ok by apply Hrun.
    erewrite py_bind_ok by apply tell_end.
    erewrite py_bind_ok by apply dump_end.
    fold c1 I m_idx.
    erewrite py_bind_ok; cycle 1.
    { instantiate (1 := (file_end c3,
                         match dataset_context ds s with
                         | Some (kv :: context) =>
                             (dumps m_idx (PyDict (kv :: context))).2
                         | _ => m_idx
                         end, s)).
      instantiate (1 := tt). unfold c3, ctxb.
      destruct (dataset_context ds s) as [[|kv ctx]|].
      - by rewrite app_nil_r.
      - by rewrite dump_end, <- app_assoc.
      - by rewrite app_nil_r. }
    erewrite py_bind_ok by reflexivity.
    unfold on_pickler, dump. cbn [file_end f_content on_handle seek].
    rewrite dumps_int. fold H'. cbn [Z.ltb Z.compare Z.to_nat].
    by rewrite write_at_start. }
  intros Hsize.
  assert (length H <= length c1)%nat as Hc1 by (unfold c1; rewrite length_app; lia).
  assert (length c1 <= length c3)%nat as Hc3 by (unfold c3; rewrite length_app; lia).
  assert (length H' <= length H)%nat as Hfit.
  { apply header_fits. split; [lia|].
    rewrite length_app, length_drop in Hsize. lia. }
  set (cf := H' ++ drop (length H') c3) in *.
  split.
  { exists body, ctxb. cbv zeta. fold H c1 I c3 H' m_idx. repeat split; [done..|].
    unfold ctxb. destruct (dataset_context ds s) as [[|kv ctx]|]; eauto. }
  intros flag.
  assert (drop (length c1) cf = I ++ ctxb) as Hindex.
  { unfold cf. rewrite drop_overwritten by lia. unfold c3. by rewrite drop_app_length. }
  assert (drop (length c1 + length I) cf = ctxb) as Hcontext.
  { unfold cf. rewrite drop_overwritten by lia. unfold c3.
    rewrite app_assoc, <- length_app. by rewrite drop_app_length. }
  unfold PickledDataset_init, read_index, open_rb.
  erewrite py_bind_ok by apply (handle_seek_to _ _ _ 0).
  erewrite py_bind_ok
    by (apply (load_at cf 0 no_memo
                 (PyInt (Z.lxor (Z.of_nat (length c1)) (Z.shiftl 1 65)))
                 (drop (length H') c3)); by rewrite drop_0).
  cbv beta iota. rewrite lxor_twice, Hint2.
  erewrite py_bind_ok by apply handle_seek_to.
  erewrite py_bind_ok by (by apply (load_at _ _ _ (PyDict idx) ctxb)).
  fold I m_idx.
  unfold written_context. unfold ctxb in Hcontext.
  destruct (dataset_context ds s) as [[|kv ctx]|].
  - unfold load at 1. cbn [f_content f_pos]. rewrite Hcontext, loads_eof.
    by eexists _, _.
  - rewrite (load_at _ _ m_idx (PyDict (kv :: ctx)) [])
      by (by rewrite Hcontext, app_nil_r).
    by eexists _, _.
  - unfold load at 1. cbn [f_content f_pos]. rewrite Hcontext, loads_eof.
    by eexists _, _.
Qed.
End RoundTrip.

(** ** The miniature pickle meets the requirements *)

Lemma pyobj_nested_ind (P : pyobj -> Prop) :
  P PyNone ->
  (forall z, P (PyInt z)) ->
  (forall s, P (PyStr s)) ->
  (forall xs, Forall P xs -> P (PyTuple xs)) ->
  (forall xs, Forall P xs -> P (PyList xs)) ->
  (forall kvs, Forall (fun kv => P kv.1 /\ P kv.2) kvs -> P (PyDict kvs)) ->
  forall o, P o.
Proof.
  intros HN HI HS HT HL HD. fix IH 1. intros [|z|s|xs|xs|kvs].
  - exact HN.
  - apply HI.
  - apply HS.
  - apply HT. induction xs as [|x xs IHxs]; constructor; [apply IH|apply IHxs].
  - apply HL. induction xs as [|x xs IHxs]; constructor; [apply IH|apply IHxs].
  - apply HD. induction kvs as [|[k v] kvs IHkvs]; constructor;
      [split; apply IH|apply IHkvs].
Qed.

Lemma mini_loads_pos_dumps (p : positive) (rest : list byte) :
  mini_loads_pos (mini_dumps_pos p ++ rest) = Some (p, rest).
Proof. induction p as [p IH|p IH|]; simpl; by rewrite ?IH. Qed.

Lemma mini_loads_Z_dumps (z : Z) (rest : list byte) :
  mini_loads_Z (mini_dumps_Z z ++ rest) = Some (z, rest).
Proof. destruct z; simpl; by rewrite ?mini_loads_pos_dumps. Qed.

Lemma mini_loads_string_dumps (s : string) (rest : list byte) :
  mini_loads_string (mini_dumps_string s ++ rest) = Some (s, rest).
Proof.
  induction s as [|c s IH]; simpl; [done|].
  by rewrite IH, Ascii.ascii_of_byte_of_ascii.
Qed.

Lemma memo_index_lookup (o : pyobj) (m : list pyobj) :
  forall i, memo_index o m = Some i -> m !! i = Some o.
Proof.
  induction m as [|x m IH]; intros i; simpl; [done|].
  destruct (decide (o = x)) as [->|_]; [by intros [= <-]|].
  destruct (memo_index o m) as [j|]; [|done].
  intros [= <-]. by apply IH.
Qed.

(** A reference is read back as the value at its place. *)
Lemma mini_loads_get (o : pyobj) (m : list pyobj) (i fuel : nat) (rest : list byte) :
  memo_index o m = Some i ->
  mini_loads_obj (S fuel) m (mini_get i ++ rest) = Some (o, rest, m).
Proof.
  intros Hi. unfold mini_get. cbn [app mini_loads_obj].
  rewrite mini_loads_Z_dumps.
  destruct (Z.ltb_spec (Z.of_nat i) 0) as [?|_]; [lia|].
  by rewrite Nat2Z.id, (memo_index_lookup o m i Hi).
Qed.

Lemma mini_loads_elements_dumps (xs : list pyobj) :
  Forall (fun x => forall m fuel rest,
            (length (mini_dumps x m).1 <= fuel)%nat ->
            mini_loads_obj fuel m ((mini_dumps x m).1 ++ rest)
            = Some (x, rest, (mini_dumps x m).2)) xs ->
  forall m fuel rest,
  (length (mini_dumps_elements mini_dumps xs m).1 <= fuel)%nat ->
  mini_loads_elements fuel m ((mini_dumps_elements mini_dumps xs m).1 ++ rest)
  = Some (xs, rest, (mini_dumps_elements mini_dumps xs m).2).
Proof.
  induction 1 as [|x xs Hx _ IH]; intros m [|fuel] rest Hfuel;
    cbn [mini_dumps_elements] in *.
  - simpl in Hfuel. lia.
  - done.
  - destruct (mini_dumps x m) as [d1 m1].
    destruct (mini_dumps_elements mini_dumps xs m1) as [d2 m2].
    simpl in Hfuel. lia.
  - specialize (Hx m). specialize (IH (mini_dumps x m).2).
    destruct (mini_dumps x m) as [d1 m1]. cbn [fst snd] in *.
    destruct (mini_dumps_elements mini_dumps xs m1) as [d2 m2]. cbn [fst snd] in *.
    simpl in Hfuel. rewrite length_app in Hfuel.
    cbn [app mini_loads_elements].
    rewrite <- app_assoc, Hx by lia. by rewrite IH by lia.
Qed.

Lemma mini_loads_entries_dumps (kvs : list (pyobj * pyobj)) :
  Forall (fun kv =>
            (forall m fuel rest,
               (length (mini_dumps kv.1 m).1 <= fuel)%nat ->
               mini_loads_obj fuel m ((mini_dumps kv.1 m).1 ++ rest)
               = Some (kv.1, rest, (mini_dumps kv.1 m).2)) /\
            (forall m fuel rest,
               (length (mini_dumps kv.2 m).1 <= fuel)%nat ->
               mini_loads_obj fuel m ((mini_dumps kv.2 m).1 ++ rest)
               = Some (kv.2, rest, (mini_dumps kv.2 m).2))) kvs ->
  forall m fuel rest,
  (length (mini_dumps_entries mini_dumps kvs m).1 <= fuel)%nat ->
  mini_loads_entries fuel m ((mini_dumps_entries mini_dumps kvs m).1 ++ rest)
  = Some (kvs, rest, (mini_dumps_entries mini_dumps kvs m).2).
Proof.
  induction 1 as [|[k v] kvs [Hk Hv] _ IH]; intros m [|fuel] rest Hfuel;
    cbn [mini_dumps_entries] in *.
  - simpl in Hfuel. lia.
  - done.
  - destruct (mini_dumps k m) as [d1 m1]. destruct (mini_dumps v m1) as [d2 m2].
    destruct (mini_dumps_entries mini_dumps kvs m2) as [d3 m3].
    simpl in Hfuel. lia.
  - cbn [fst snd] in Hk, Hv.
    specialize (Hk m). specialize (Hv (mini_dumps k m).2).
    specialize (IH (mini_dumps v (mini_dumps k m).2).2).
    destruct (mini_dumps k m) as [d1 m1]. cbn [fst snd] in *.
    destruct (mini_dumps v m1) as [d2 m2]. cbn [fst snd] in *.
    destruct (mini_dumps_entries mini_dumps kvs m2) as [d3 m3]. cbn [fst snd] in *.
    simpl in Hfuel. rewrite !length_app in Hfuel.
    cbn [app mini_loads_entries].
    rewrite <- !app_assoc, Hk by lia. rewrite Hv by lia. by rewrite IH by lia.
Qed.

Lemma mini_loads_obj_dumps (o : pyobj) :
  forall m fuel rest,
  (length (mini_dumps o m).1 <= fuel)%nat ->
  mini_loads_obj fuel m ((mini_dumps o m).1 ++ rest)
  = Some (o, rest, (mini_dumps o m).2).
Proof.
  induction o as [|z|s|xs IHxs|xs IHxs|kvs IHkvs] using pyobj_nested_ind;
    intros m [|fuel] rest Hfuel;
    try (exfalso; revert Hfuel; cbn [mini_dumps];
         repeat (destruct (memo_index _ _) || destruct (mini_dumps_elements _ _ _)
                 || destruct (mini_dumps_entries _ _ _));
         simpl; lia).
  - done.
  - simpl. by rewrite mini_loads_Z_dumps.
  - cbn [mini_dumps] in *.
    destruct (memo_index (PyStr s) m) as [i|] eqn:Hi; [by apply mini_loads_get|].
    simpl. by rewrite mini_loads_string_dumps.
  - cbn [mini_dumps] in *.
    destruct (memo_index (PyTuple xs) m) as [i|] eqn:Hi; [by apply mini_loads_get|].
    pose proof (mini_loads_elements_dumps xs IHxs m fuel rest) as Hel.
    destruct (mini_dumps_elements mini_dumps xs m) as [data m']. cbn [fst snd] in *.
    simpl in Hfuel. cbn [app mini_loads_obj]. by rewrite Hel by lia.
  - cbn [mini_dumps] in *.
    destruct (memo_index (PyList xs) m) as [i|] eqn:Hi; [by apply mini_loads_get|].
    pose proof (mini_loads_elements_dumps xs IHxs m fuel rest) as Hel.
    destruct (mini_dumps_elements mini_dumps xs m) as [data m']. cbn [fst snd] in *.
    simpl in Hfuel. cbn [app mini_loads_obj]. by rewrite Hel by lia.
  - cbn [mini_dumps] in *.
    destruct (memo_index (PyDict kvs) m) as [i|] eqn:Hi; [by apply mini_loads_get|].
    pose proof (mini_loads_entries_dumps kvs IHkvs m fuel rest) as Hen.
    destruct (mini_dumps_entries mini_dumps kvs m) as [data m']. cbn [fst snd] in *.
    simpl in Hfuel. cbn [app mini_loads_obj]. by rewrite Hen by lia.
Qed.

Lemma mini_dumps_tagged (o : pyobj) (m : list pyobj) :
  exists b data, (mini_dumps o m).1 = b :: data.
Proof.
  destruct o; cbn [mini_dumps];
    repeat (destruct (memo_index _ _) || destruct (mini_dumps_elements _ _ _)
            || destruct (mini_dumps_entries _ _ _));
    by eexists _, _.
Qed.

Lemma mini_loads_dumps (m : list pyobj) (o : pyobj) (rest : list byte) :
  mini_loads m ((mini_pickler m o).1 ++ rest)
  = (Ok (o, length (mini_pickler m o).1), (mini_pickler m o).2).
Proof.
  unfold mini_loads, mini_pickler.
  rewrite mini_loads_obj_dumps by (rewrite length_app; lia).
  rewrite length_app.
  replace (length (mini_dumps o m).1 + length rest - length rest)%nat
    with (length (mini_dumps o m).1) by lia.
  by destruct (mini_dumps_tagged o m) as (b & data & ->).
Qed.

Lemma mini_dumps_int (m : list pyobj) (z : Z) :
  mini_pickler m (PyInt z) = ((mini_pickler [] (PyInt z)).1, m).
Proof. reflexivity. Qed.

Lemma mini_loads_eof (m : list pyobj) : mini_loads m [] = (Raise EOFError, m).
Proof. reflexivity. Qed.

Lemma mini_dumps_pos_length (p : positive) :
  2 ^ (Z.of_nat (length (mini_dumps_pos p)) - 1) <= Z.pos p
  < 2 ^ Z.of_nat (length (mini_dumps_pos p)).
Proof.
  induction p as [p IH|p IH|]; [| |simpl; lia].
  - cbn [mini_dumps_pos length].
    assert (1 <= Z.of_nat (length (mini_dumps_pos p))) by (destruct p; simpl; lia).
    rewrite Nat2Z.inj_succ.
    replace (Z.succ (Z.of_nat (length (mini_dumps_pos p))) - 1)
      with (Z.succ (Z.of_nat (length (mini_dumps_pos p)) - 1)) by lia.
    rewrite !Z.pow_succ_r by lia. lia.
  - cbn [mini_dumps_pos length].
    assert (1 <= Z.of_nat (length (mini_dumps_pos p))) by (destruct p; simpl; lia).
    rewrite Nat2Z.inj_succ.
    replace (Z.succ (Z.of_nat (length (mini_dumps_pos p))) - 1)
      with (Z.succ (Z.of_nat (length (mini_dumps_pos p)) - 1)) by lia.
    rewrite !Z.pow_succ_r by lia. lia.
Qed.

Lemma lxor_bias (loc : Z) :
  0 <= loc < 2 ^ 65 -> Z.lxor loc (Z.shiftl 1 65) = loc + 2 ^ 65.
Proof.
  intros Hloc. rewrite Z.shiftl_1_l. symmetry. apply Z.add_nocarry_lxor.
  apply Z.bits_inj'. intros n Hn.
  rewrite Z.land_spec, Z.bits_0, Z.pow2_bits_eqb by lia.
  destruct (Z.eqb_spec 65 n) as [<-|_]; [|by rewrite andb_false_r].
  rewrite andb_true_r. apply Z.testbit_false; [lia|].
  by rewrite Z.div_small.
Qed.

Lemma mini_header_fits (loc : Z) :
  0 <= loc < 2 ^ 65 ->
  (length (mini_pickler [] (PyInt (Z.lxor loc (Z.shiftl 1 65)))).1
   <= length (mini_pickler [] (PyInt (Z.shiftl 1 65))).1)%nat.
Proof.
  intros Hloc. rewrite lxor_bias by done.
  change (length (mini_pickler [] (PyInt (Z.shiftl 1 65))).1) with 68%nat.
  destruct (loc + 2 ^ 65) as [|p|p] eqn:Hp; [lia| |lia].
  cbn [mini_pickler mini_dumps mini_dumps_Z length fst].
  pose proof (mini_dumps_pos_length p) as [Hlow Hhigh].
  assert (Z.of_nat (length (mini_dumps_pos p)) - 1 < 66) as Hlen.
  { apply (Z.pow_lt_mono_r_iff 2); [lia|lia|].
    eapply Z.le_lt_trans; [exact Hlow|]. rewrite <- Hp.
    change (2 ^ 66) with (2 * 2 ^ 65). lia. }
  lia.
Qed.

(** An item with no part twice is read back whatever the memo holds. *)
Lemma mini_read_denzel :
  read_with_any_memo [] mini_pickler mini_loads
    (PyTuple [PyStr "Denzel"; PyStr "Washington"]).
Proof.
  intros m rest. unfold mini_pickler.
  set (d := mini_dumps _ []). vm_compute in d. subst d.
  unfold mini_loads. cbn. do 2 f_equal. lia.
Qed.

(** ** The first query after opening *)

(** C1. The claim fails on the code. [__init__] loads the index, and the
    context, without clearing the memo of the unpickler afterwards, and
    [_default_query_item] clears it only after its own load: the first
    query decodes its item with the memo that the index left. The item of
    [twins] is a pair of one string twice, written as the string and a
    reference to the first place of the memo; in the stale memo that place
    holds the index, so the query returns the pair of the string and the
    index instead of the item. Asked again, the key gives the item. *)
Theorem first_query_stale_memo :
  exists f store store1,
    create [] mini_pickler (DictDataset twins) None (fresh_file, tt)
    = (Ok tt, (f, tt)) /\
    Z.of_nat (length (f_content f)) < 2 ^ 65 /\
    PickledDataset_init [] mini_loads (open_rb (f_content f)) false = Ok store /\
    query_item (DictDataset twins) (PyInt 0) tt
    = (Ok (PyTuple [PyStr "ab"; PyStr "ab"]), tt) /\
    query_item (PickledDataset [] mini_loads) (PyInt 0) store
    = (Ok (PyTuple [PyStr "ab"; PyDict [(PyInt 0, PyInt 68)]]), store1) /\
    (query_item (PickledDataset [] mini_loads) (PyInt 0) store1).1
    = Ok (PyTuple [PyStr "ab"; PyStr "ab"]).
Proof.
  eexists _, _, _.
  split; [vm_compute; reflexivity|].
  split; [vm_compute; reflexivity|].
  split; [vm_compute; reflexivity|].
  split; [reflexivity|].
  split; vm_compute; reflexivity.
Qed.

(** The round trip on the file of the doctest dataset, whose items have no
    part twice, queried in the reverse order of creation. *)
Example store_round_trip_actors :
  let store := actors_store [PyInt 0; PyInt 1] in
  let '(tom, store) := query_item (PickledDataset [] mini_loads) (PyInt 1) store in
  let '(denzel, _) := query_item (PickledDataset [] mini_loads) (PyInt 0) store in
  tom = Ok (PyTuple [PyStr "Tom"; PyStr "Hanks"]) /\
  denzel = Ok (PyTuple [PyStr "Denzel"; PyStr "Washington"]).
Proof. vm_compute. split; reflexivity. Qed.

(** With [offset_keys] the keys listed are offsets, and [query_item], still
    the default one, looks them up in the index. *)
Example offset_keys_query :
  let file := open_rb (actors_file [PyInt 0; PyInt 1]) in
  exists store,
    PickledDataset_init [] mini_loads file true = Ok store /\
    (list_keys (PickledDataset [] mini_loads) store).1 = Ok [PyInt 68; PyInt 108] /\
    (query_item (PickledDataset [] mini_loads) (PyInt 68) store).1
    = Raise (KeyError (PyInt 68)).
Proof. eexists. split; [vm_compute; reflexivity|]. split; vm_compute; reflexivity. Qed.

(** * Further properties *)

(** ** chunkify: the chunks as slices *)

Lemma chunkify_from_nonempty (n : nat) (es filled : list pyobj) (i offset : Z) :
  (0 < n)%nat ->
  i - offset + 1 = Z.of_nat (length filled) ->
  (length filled <= n)%nat ->
  filled <> [] \/ es <> [] ->
  Forall (fun c => c <> [])
    (gen_yields (chunkify_from (Z.of_nat n) es i offset
                   (filled ++ replicate (n - length filled) PyNone))).
Proof.
  intros Hn. revert filled i offset.
  induction es as [|e es IH]; intros filled i offset Hi Hlen Hne; simpl.
  - replace (i - offset + 1) with (Z.of_nat (length filled)) by lia.
    rewrite py_slice_to_app. constructor; [|done]. by destruct Hne.
  - destruct (Z.eqb_spec (i + 1 - offset) (Z.of_nat n)) as [Heq|Hneq].
    + assert (length filled = n) as Hfull by lia.
      replace (n - length filled)%nat with 0%nat by lia. simpl.
      rewrite app_nil_r.
      unfold py_repeat_none. rewrite Nat2Z.id.
      replace (i + 1 - (offset + Z.of_nat n)) with 0 by lia.
      destruct n as [|m]; [lia|].
      pose proof (py_setitem_app_none [] PyNone e m) as Hset.
      change (py_setitem (replicate (S m) PyNone) 0 e = Ok (e :: replicate m PyNone))
        in Hset.
      rewrite Hset. simpl. constructor.
      * intros ->. simpl in Hfull. lia.
      * specialize (IH [e] (i + 1) (offset + Z.of_nat (S m))).
        simpl in IH. rewrite Nat.sub_0_r in IH.
        apply IH; [simpl; lia|lia|by left].
    + assert (length filled < n)%nat as Hlt by lia.
      replace (i + 1 - offset) with (Z.of_nat (length filled)) by lia.
      replace (n - length filled)%nat with (S (n - length (filled ++ [e])))%nat
        by (rewrite length_app; simpl; lia).
      rewrite py_setitem_app_none.
      apply (IH (filled ++ [e]) (i + 1) offset).
      * rewrite length_app. simpl. lia.
      * rewrite length_app. simpl. lia.
      * left. by destruct filled.
Qed.

Lemma chunked_size {A} (n : nat) (cs : list (list A)) :
  chunked n cs -> Forall (fun c => c <> []) cs ->
  (n * (length cs - 1) < length (concat cs) <= n * length cs)%nat.
Proof.
  induction cs as [|c cs IH]; intros Hch Hne; [by destruct Hch|].
  apply Forall_cons in Hne as [Hc Hne].
  assert (0 < length c)%nat by (destruct c; [done|simpl; lia]).
  destruct (decide (cs = [])) as [->|Hcs].
  - destruct Hch as [_ Hch]. destruct (Hch 0%nat c eq_refl) as [Hle _].
    simpl. rewrite app_nil_r. lia.
  - destruct (chunked_tail _ _ _ Hch Hcs) as [Hlen Hch'].
    specialize (IH Hch' Hne).
    assert (0 < length cs)%nat by (destruct cs; [done|simpl; lia]).
    simpl. rewrite length_app. nia.
Qed.

(** X1. For a chunk size [n > 0] and a non-empty sequence [S],
    [chunkify(S, n)] yields [ceil(len(S)/n)] chunks, none of them empty,
    and chunk [j] is the slice [S[j*n:(j+1)*n]]. *)
Theorem chunkify_slices (S : list pyobj) (n : nat) :
  (0 < n)%nat -> S <> [] ->
  let chunks := gen_yields (chunkify S (Z.of_nat n)) in
  length chunks = ((length S + n - 1) / n)%nat /\
  forall j, (j < length chunks)%nat ->
    chunks !! j = Some (take n (drop (j * n) S)) /\
    take n (drop (j * n) S) <> [].
Proof.
  intros Hn HS chunks.
  destruct (chunkify_spec S n Hn) as (_ & Hcat & Hch). fold chunks in Hcat, Hch.
  assert (Forall (fun c => c <> []) chunks) as Hne.
  { unfold chunks, chunkify, py_repeat_none. rewrite Nat2Z.id.
    pose proof (chunkify_from_nonempty n S [] (-1) 0 Hn) as H.
    simpl in H. rewrite Nat.sub_0_r in H. apply H; [done|lia|by right]. }
  pose proof (chunked_size n chunks Hch Hne) as Hsize. rewrite Hcat in Hsize.
  split.
  - destruct (length chunks) as [|k]; [lia|].
    replace (Datatypes.S k - 1)%nat with k in Hsize by lia.
    rewrite Nat.mul_succ_r in Hsize.
    apply (Nat.div_unique _ _ _ (length S + n - 1 - (n * k + n))); [lia|].
    rewrite Nat.mul_succ_r. lia.
  - intros j Hj. destruct (lookup_lt_is_Some_2 chunks j Hj) as [c Hc].
    rewrite <- (chunked_lookup n chunks S j c Hch Hcat Hc).
    split; [done|]. rewrite Forall_forall in Hne. apply Hne.
    by eapply list_elem_of_lookup_2.
Qed.

Lemma chunkify_slices_witness :
  let chunks := gen_yields (chunkify (range 12) (Z.of_nat 5)) in
  length chunks = ((length (range 12) + 5 - 1) / 5)%nat /\
  forall j, (j < length chunks)%nat ->
    chunks !! j = Some (take 5 (drop (j * 5) (range 12))) /\
    take 5 (drop (j * 5) (range 12)) <> [].
Proof.
  apply (chunkify_slices (range 12) 5).
  - lia.
  - discriminate.
Defined.

(** X2. With a chunk size [n <= 0], [chunkify] of a non-empty sequence
    ends with the [IndexError] of [ret[i - offset] = e] and yields none of
    the elements: an empty chunk when [n = 0], nothing when [n < 0]. *)
Theorem chunkify_no_size_fails (S : list pyobj) (n : Z) :
  n <= 0 -> S <> [] ->
  gen_end (chunkify S n) = Some IndexError /\
  concat (gen_yields (chunkify S n)) = [] /\
  (n < 0 -> gen_yields (chunkify S n) = []).
Proof.
  intros Hn HS. destruct S as [|e S]; [done|].
  unfold chunkify, py_repeat_none.
  replace (Z.to_nat n) with 0%nat by lia.
  destruct n as [|n|n]; [|lia|]; simpl; repeat split; (done || lia).
Qed.

Lemma chunkify_no_size_fails_witness :
  gen_end (chunkify [PyInt 7; PyInt 8] 0) = Some IndexError /\
  concat (gen_yields (chunkify [PyInt 7; PyInt 8] 0)) = [] /\
  (0 < 0 -> gen_yields (chunkify [PyInt 7; PyInt 8] 0) = []).
Proof.
  apply (chunkify_no_size_fails [PyInt 7; PyInt 8] 0).
  - lia.
  - discriminate.
Defined.

(** ** Dataset.query: faults *)

Lemma query_rest_raises {St} (ds : Dataset St) (wrap : bool) (w : nat)
    (k : pyobj) (post : list pyobj) (e : exn) pre :
  forall i XYs s items s1 s2,
  query_items ds pre s = (Ok items, s1) ->
  Forall (fun it => subscriptable w (wrap_item wrap it)) items ->
  length XYs = w ->
  (forall j row, XYs !! j = Some row -> (i + length pre <= length row)%nat) ->
  query_item ds k s1 = (Raise e, s2) ->
  query_rest ds wrap (seq 0 w) i (pre ++ k :: post) XYs s = (Raise e, s2).
Proof.
  induction pre as [|key pre IH]; intros i XYs s items s1 s2 Hrun Hsub Hlen Hrows Hk.
  - simpl in Hrun. unfold py_ret in Hrun. simplify_eq.
    simpl. unfold py_bind. by rewrite Hk.
  - apply query_items_cons_inv in Hrun as (item & s0 & items' & Hq & Hrun & ->).
    apply Forall_cons in Hsub as [Hitem Hsub].
    destruct (fill_column_spec 0 (length XYs) i (wrap_item wrap item) XYs)
      as (XYs1 & Hfill & Hlen1 & Hlook1).
    { lia. }
    { by rewrite Hlen. }
    { intros j row Hj. specialize (Hrows j row Hj). simpl in Hrows. lia. }
    subst w. simpl. unfold py_bind, py_lift. rewrite Hq, Hfill.
    apply (IH (S i) XYs1 s0 items' s1 s2 Hrun Hsub); [lia| |done].
    intros j row1 Hj1.
    destruct (lookup_lt_is_Some_2 XYs j) as [row Hj].
    { rewrite <- Hlen1. by eapply lookup_lt_Some. }
    rewrite (Hlook1 j row Hj) in Hj1. simplify_eq.
    specialize (Hrows j row Hj). simpl in Hrows.
    destruct (decide _); rewrite ?length_insert; lia.
Qed.

Lemma query_raises {St} (ds : Dataset St) (wrap : bool) (pre post : list pyobj)
    (k : pyobj) (e : exn) (s s1 s2 : St) (items : list pyobj) :
  query_items ds pre s = (Ok items, s1) ->
  query_item ds k s1 = (Raise e, s2) ->
  (forall first, head items = Some first ->
     exists w, py_len (wrap_item wrap first) = Ok w /\
               Forall (fun it => subscriptable w (wrap_item wrap it)) items) ->
  query ds (pre ++ k :: post) wrap s = (Raise e, s2).
Proof.
  intros Hrun Hk Harity. destruct pre as [|key0 pre].
  - simpl in Hrun. unfold py_ret in Hrun. simplify_eq.
    simpl. unfold py_bind. by rewrite Hk.
  - apply query_items_cons_inv in Hrun as (first & s0 & items' & Hq & Hrun & ->).
    destruct (Harity first eq_refl) as (w & Hw & Hsub).
    apply Forall_cons in Hsub as [Hsub0 Hsub].
    change ((key0 :: pre) ++ k :: post) with (key0 :: (pre ++ k :: post)).
    set (keys := key0 :: (pre ++ k :: post)).
    set (XYs0 := replicate w (replicate (length keys) PyNone)).
    destruct (fill_column_spec 0 w 0 (wrap_item wrap first) XYs0)
      as (XYs1 & Hfill & Hlen1 & Hlook1).
    { unfold XYs0. rewrite length_replicate. lia. }
    { done. }
    { intros j row Hj. unfold XYs0 in Hj. apply lookup_replicate in Hj as [-> _].
      rewrite length_replicate. unfold keys. simpl. lia. }
    unfold XYs0 in Hlen1. rewrite length_replicate in Hlen1.
    unfold keys at 1. unfold query, py_bind, py_lift.
    rewrite Hq, Hw. fold keys. fold XYs0. rewrite Hfill.
    rewrite (query_rest_raises ds wrap w k post e pre 1 XYs1 s0 items' s1 s2);
      [done..| |done].
    intros j row1 Hj1.
    assert (j < w)%nat as Hj by (rewrite <- Hlen1; by eapply lookup_lt_Some).
    rewrite (Hlook1 j (replicate (length keys) PyNone)) in Hj1
      by (unfold XYs0; by apply lookup_replicate_2).
    simplify_eq. destruct (decide _); rewrite ?length_insert, length_replicate;
      unfold keys; simpl; rewrite length_app; simpl; lia.
Qed.

(** X3. [query] propagates the first exception of [query_item]: when the
    keys before [k] are answered with items of one arity and [query_item(k)]
    raises [e], [query] raises [e], the dataset is in the state that call
    left, and the keys after [k] are not queried: the log of a counting stub
    grows by the keys up to [k]. *)
Theorem query_first_fault {St} (ds : Dataset St) (wrap : bool)
    (pre post : list pyobj) (k : pyobj) (e : exn) (s s1 s2 : St)
    (items : list pyobj) :
  query_items ds pre s = (Ok items, s1) ->
  query_item ds k s1 = (Raise e, s2) ->
  (forall first, head items = Some first ->
     exists w, py_len (wrap_item wrap first) = Ok w /\
               Forall (fun it => subscriptable w (wrap_item wrap it)) items) ->
  query ds (pre ++ k :: post) wrap s = (Raise e, s2) /\
  forall log,
    query (counting ds) (pre ++ k :: post) wrap (s, log)
    = (Raise e, (s2, log ++ pre ++ [k])).
Proof.
  intros Hrun Hk Harity. split; [by eapply query_raises|].
  intros log. rewrite app_assoc.
  eapply query_raises; [by apply query_items_counting| |done].
  simpl. by rewrite Hk.
Qed.

Lemma query_first_fault_witness :
  query (DictDataset actors) ([PyInt 0] ++ PyInt 5 :: [PyInt 1]) false tt
  = (Raise (KeyError (PyInt 5)), tt) /\
  forall log,
    query (counting (DictDataset actors)) ([PyInt 0] ++ PyInt 5 :: [PyInt 1])
      false (tt, log)
    = (Raise (KeyError (PyInt 5)), (tt, log ++ [PyInt 0] ++ [PyInt 5])).
Proof.
  apply (query_first_fault (DictDataset actors) false [PyInt 0] [PyInt 1] (PyInt 5)
           (KeyError (PyInt 5)) tt tt tt
           [PyTuple [PyStr "Denzel"; PyStr "Washington"]]).
  - reflexivity.
  - reflexivity.
  - intros first [= <-]. exists 2%nat. split; [reflexivity|].
    repeat constructor. intros [|[|j]] Hj; simpl; eauto; lia.
Defined.

Lemma fill_column_short (a n i : nat) (xs : list pyobj) (XYs : list (list pyobj)) :
  (a + n <= length XYs)%nat ->
  (a <= length xs < a + n)%nat ->
  (forall j row, XYs !! j = Some row -> (i < length row)%nat) ->
  fill_column (seq a n) i (PyTuple xs) XYs = Raise IndexError.
Proof.
  revert a XYs. induction n as [|n IH]; intros a XYs Hlen Hxs Hrows; [lia|].
  simpl. destruct (xs !! a) as [x|] eqn:Hx.
  - destruct (lookup_lt_is_Some_2 XYs a) as [row0 Hrow0]; [lia|].
    rewrite Hrow0. rewrite py_setitem_in_range by eauto.
    apply lookup_lt_Some in Hx. apply IH.
    + rewrite length_insert. lia.
    + lia.
    + intros j row Hj. destruct (decide (a = j)) as [<-|Hne].
      * rewrite list_lookup_insert_eq in Hj by lia. simplify_eq.
        rewrite length_insert. eauto.
      * rewrite list_lookup_insert_ne in Hj by done. eauto.
  - done.
Qed.

(** X4. The arity of the first item is a lower bound that [query] checks:
    when the items before [k] are tuples of the arity [w] of the first one
    and the item of [k] is a shorter tuple, [query] raises the [IndexError]
    of [item[j]], right after it has queried [k]. *)
Theorem query_short_item_fault {St} (ds : Dataset St) (pre post : list pyobj)
    (k : pyobj) (s s1 s2 : St) (items : list pyobj) (first : pyobj)
    (xs : list pyobj) (w : nat) :
  query_items ds pre s = (Ok items, s1) ->
  head items = Some first ->
  py_len first = Ok w ->
  Forall (subscriptable w) items ->
  query_item ds k s1 = (Ok (PyTuple xs), s2) ->
  (length xs < w)%nat ->
  query ds (pre ++ k :: post) false s = (Raise IndexError, s2).
Proof.
  intros Hrun Hfirst Hw Hsub Hk Hshort.
  destruct pre as [|key0 pre].
  { simpl in Hrun. unfold py_ret in Hrun. by simplify_eq. }
  apply query_items_cons_inv in Hrun as (first' & s0 & items' & Hq & Hrun & ->).
  simpl in Hfirst. simplify_eq.
  apply Forall_cons in Hsub as [Hsub0 Hsub].
  change ((key0 :: pre) ++ k :: post) with (key0 :: (pre ++ k :: post)).
  set (keys := key0 :: (pre ++ k :: post)).
  set (XYs0 := replicate w (replicate (length keys) PyNone)).
  destruct (fill_column_spec 0 w 0 first XYs0) as (XYs1 & Hfill & Hlen1 & Hlook1).
  { unfold XYs0. rewrite length_replicate. lia. }
  { done. }
  { intros j row Hj. unfold XYs0 in Hj. apply lookup_replicate in Hj as [-> _].
    rewrite length_replicate. unfold keys. simpl. lia. }
  unfold XYs0 in Hlen1. rewrite length_replicate in Hlen1.
  assert (forall j row, XYs1 !! j = Some row -> length row = length keys) as Hrows1.
  { intros j row1 Hj1.
    assert (j < w)%nat as Hj by (rewrite <- Hlen1; by eapply lookup_lt_Some).
    rewrite (Hlook1 j (replicate (length keys) PyNone)) in Hj1
      by (unfold XYs0; by apply lookup_replicate_2).
    simplify_eq. destruct (decide _); by rewrite ?length_insert, length_replicate. }
  destruct (query_rest_spec ds false w pre 1 XYs1 s0 items' s1 Hrun Hsub Hlen1)
    as (XYs2 & Hrest & Hlen2 & Hlook2).
  { intros j row Hj. rewrite (Hrows1 j row Hj). unfold keys. simpl.
    rewrite length_app. simpl. lia. }
  unfold keys at 1. unfold query, py_bind, py_lift.
  rewrite Hq. change (wrap_item false first) with first. rewrite Hw.
  fold keys. fold XYs0. rewrite Hfill.
  enough (forall i XYs s,
            length XYs = w ->
            (forall j row, XYs !! j = Some row -> (i + length pre < length row)%nat) ->
            query_items ds pre s = (Ok items', s1) ->
            query_rest ds false (seq 0 w) i (pre ++ k :: post) XYs s
            = (Raise IndexError, s2)) as Hgoal.
  { rewrite (Hgoal 1%nat XYs1 s0); [done..| |done].
    intros j row Hj. rewrite (Hrows1 j row Hj). unfold keys. simpl.
    rewrite length_app. simpl. lia. }
  clear -Hsub Hk Hshort. revert items' Hsub.
  induction pre as [|key pre IH]; intros items' Hsub i XYs s Hlen Hrows Hrun.
  - simpl in Hrun. unfold py_ret in Hrun. simplify_eq.
    simpl. unfold py_bind, py_lift. rewrite Hk. change (wrap_item false (PyTuple xs))
      with (PyTuple xs).
    rewrite (fill_column_short 0 (length XYs) i xs XYs); [done|lia|lia|].
    intros j row Hj. specialize (Hrows j row Hj). simpl in Hrows. lia.
  - apply query_items_cons_inv in Hrun as (item & s0 & items0 & Hq & Hrun & ->).
    apply Forall_cons in Hsub as [Hitem Hsub].
    destruct (fill_column_spec 0 (length XYs) i item XYs)
      as (XYs1 & Hfill & Hlen1 & Hlook1).
    { lia. }
    { by rewrite Hlen. }
    { intros j row Hj. specialize (Hrows j row Hj). simpl in Hrows. lia. }
    simpl. unfold py_bind, py_lift. rewrite Hq.
    change (wrap_item false item) with item. rewrite <- Hlen, Hfill, Hlen.
    apply (IH items0 Hsub); [lia| |done].
    intros j row1 Hj1.
    destruct (lookup_lt_is_Some_2 XYs j) as [row Hj].
    { rewrite <- Hlen1. by eapply lookup_lt_Some. }
    rewrite (Hlook1 j row Hj) in Hj1. simplify_eq.
    specialize (Hrows j row Hj). simpl in Hrows.
    destruct (decide _); rewrite ?length_insert; lia.
Qed.

Lemma query_short_item_fault_witness :
  query (DictDataset [(PyInt 0, PyTuple [PyInt 1; PyInt 2]); (PyInt 1, PyTuple [PyInt 3])])
    ([PyInt 0] ++ PyInt 1 :: []) false tt
  = (Raise IndexError, tt).
Proof.
  apply (query_short_item_fault
           (DictDataset [(PyInt 0, PyTuple [PyInt 1; PyInt 2]); (PyInt 1, PyTuple [PyInt 3])])
           [PyInt 0] [] (PyInt 1) tt tt tt [PyTuple [PyInt 1; PyInt 2]]
           (PyTuple [PyInt 1; PyInt 2]) [PyInt 3] 2).
  - reflexivity.
  - reflexivity.
  - reflexivity.
  - repeat constructor. intros [|[|j]] Hj; simpl; eauto; lia.
  - reflexivity.
  - simpl. lia.
Defined.

(** ** Dataset.batches *)

Lemma query_items_app_inv {St} (ds : Dataset St) (a b : list pyobj) :
  forall s items s',
  query_items ds (a ++ b) s = (Ok items, s') ->
  exists ia ib s1,
    query_items ds a s = (Ok ia, s1) /\
    query_items ds b s1 = (Ok ib, s') /\
    items = ia ++ ib /\ length ia = length a.
Proof.
  induction a as [|k a IH]; intros s items s' Hrun.
  - by exists [], items, s.
  - apply query_items_cons_inv in Hrun as (item & s0 & items' & Hq & Hrun & ->).
    destruct (IH _ _ _ Hrun) as (ia & ib & s1 & Ha & Hb & -> & Hlen).
    exists (item :: ia), ib, s1. simpl. unfold py_bind, py_ret.
    rewrite Hq, Ha. by rewrite Hlen.
Qed.

Lemma batches_loop_spec {St} (ds : Dataset St) (wrap : bool) (w : nat)
    (cs : list (list pyobj)) :
  forall s items s',
  Forall (fun c => c <> []) cs ->
  query_items ds (concat cs) s = (Ok items, s') ->
  Forall (has_arity wrap w) items ->
  batches_loop ds wrap (gen_of_list cs) s
  = (gen_of_list (batch_of wrap w <$> split_by cs items), s').
Proof.
  induction cs as [|c cs IH]; intros s items s' Hne Hrun Harity.
  - simpl in Hrun. unfold py_ret in Hrun. by simplify_eq.
  - apply Forall_cons in Hne as [Hc Hne]. simpl in Hrun.
    apply query_items_app_inv in Hrun as (ia & ib & s1 & Ha & Hb & -> & Hlen).
    apply Forall_app in Harity as [Hia Hib].
    destruct ia as [|first ia]; [by destruct c|].
    assert (query ds c wrap s = (Ok (batch_of wrap w (first :: ia)), s1)) as Hq.
    { apply Forall_cons in Hia as Hfirst. destruct Hfirst as [[Hw _] _].
      eapply query_batch_of; [done..|].
      eapply Forall_impl; [done|]. by intros it [_ ?]. }
    cbn [gen_of_list batches_loop split_by]. rewrite Hq.
    rewrite <- Hlen, take_app_length, drop_app_length.
    by rewrite (IH s1 ib s' Hne Hb Hib).
Qed.

Lemma split_by_lookup {A B} (n : nat) (cs : list (list A)) :
  forall (items : list B) j,
  chunked n cs -> length items = length (concat cs) ->
  (j < length cs)%nat ->
  split_by cs items !! j = Some (take n (drop (j * n) items)).
Proof.
  induction cs as [|c cs IH]; intros items j Hch Hlen Hj; [simpl in Hj; lia|].
  destruct (decide (cs = [])) as [->|Hcs].
  - destruct j as [|j]; [|simpl in Hj; lia].
    destruct Hch as [_ Hch]. destruct (Hch 0%nat c eq_refl) as [Hle _].
    simpl in *. rewrite app_nil_r in Hlen. rewrite drop_0.
    by rewrite !take_ge by lia.
  - destruct (chunked_tail _ _ _ Hch Hcs) as [Hc Hch'].
    simpl in Hlen. rewrite length_app in Hlen.
    destruct j as [|j]; simpl.
    + by rewrite drop_0, Hc.
    + rewrite (IH (drop (length c) items) j Hch');
        [|rewrite length_drop; lia|simpl in Hj; lia].
      by rewrite drop_drop, Hc.
Qed.

Lemma split_by_length {A B} (cs : list (list A)) (items : list B) :
  length (split_by cs items) = length cs.
Proof. revert items. induction cs as [|c cs IH]; intros items; simpl; by rewrite ?IH. Qed.

Lemma chunks_of_count (n : nat) (keys : list pyobj) :
  (0 < n)%nat -> keys <> [] ->
  Forall (fun c => c <> []) (chunks_of n keys) /\
  length (chunks_of n keys) = ((length keys + n - 1) / n)%nat.
Proof.
  intros Hn Hkeys.
  destruct (chunkify_spec keys n Hn) as (_ & Hcat & Hch).
  assert (Forall (fun c => c <> []) (chunks_of n keys)) as Hne.
  { unfold chunks_of, chunkify, py_repeat_none. rewrite Nat2Z.id.
    pose proof (chunkify_from_nonempty n keys [] (-1) 0 Hn) as H.
    simpl in H. rewrite Nat.sub_0_r in H. apply H; [done|lia|by right]. }
  split; [done|].
  pose proof (chunked_size n _ Hch Hne) as Hsize.
  unfold chunks_of in *. rewrite Hcat in Hsize.
  destruct (length (gen_yields (chunkify keys (Z.of_nat n)))) as [|k]; [lia|].
  replace (S k - 1)%nat with k in Hsize by lia.
  rewrite Nat.mul_succ_r in Hsize.
  apply (Nat.div_unique _ _ _ (length keys + n - 1 - (n * k + n))); [lia|].
  rewrite Nat.mul_succ_r. lia.
Qed.

Lemma batches_epoch_of {St} (ds : Dataset St) (keys : list pyobj) (n : nat)
    (wrap : bool) (s s' : St) (items : list pyobj) (w : nat) :
  (0 < n)%nat -> keys <> [] ->
  query_items ds keys s = (Ok items, s') ->
  Forall (has_arity wrap w) items ->
  batches ds keys (Z.of_nat n) wrap s
  = (gen_of_list
       ((fun j => batch_of wrap w (take n (drop (j * n) items)))
          <$> seq 0 ((length keys + n - 1) / n)), s').
Proof.
  intros Hn Hkeys Hrun Harity.
  destruct (chunkify_spec keys n Hn) as (_ & Hcat & Hch).
  destruct (chunks_of_count n keys Hn Hkeys) as [Hne Hcount].
  fold (chunks_of n keys) in Hcat, Hch.
  unfold batches. rewrite chunks_of_gen by done.
  rewrite (batches_loop_spec ds wrap w (chunks_of n keys) s items s');
    [|done|by rewrite Hcat|done].
  do 2 f_equal. rewrite <- Hcount. apply list_eq. intros j.
  rewrite !list_lookup_fmap.
  destruct (decide (j < length (chunks_of n keys))%nat) as [Hj|Hj].
  - rewrite (split_by_lookup n) by
      (done || (rewrite Hcat; by eapply query_items_length)).
    by rewrite lookup_seq_lt.
  - rewrite lookup_ge_None_2 by (rewrite split_by_length; lia).
    by rewrite lookup_seq_ge by lia.
Qed.

(** X5. One epoch of [batches]: for a chunk size [n > 0] and a non-empty
    key list whose items the dataset returns, all of arity [w], [batches]
    yields [ceil(len(keys)/n)] batches and ends; batch [j] holds the items of
    [keys[j*n:(j+1)*n]], in order; and every key is queried exactly once, in
    the order of [keys]. *)
Theorem batches_epoch {St} (ds : Dataset St) (keys : list pyobj) (n : nat)
    (wrap : bool) (s s' : St) (items : list pyobj) (w : nat) :
  (0 < n)%nat -> keys <> [] ->
  query_items ds keys s = (Ok items, s') ->
  Forall (has_arity wrap w) items ->
  let epoch :=
    gen_of_list
      ((fun j => batch_of wrap w (take n (drop (j * n) items)))
         <$> seq 0 ((length keys + n - 1) / n)) in
  batches ds keys (Z.of_nat n) wrap s = (epoch, s') /\
  forall log,
    batches (counting ds) keys (Z.of_nat n) wrap (s, log)
    = (epoch, (s', log ++ keys)).
Proof.
  intros Hn Hkeys Hrun Harity epoch. split; [by apply batches_epoch_of|].
  intros log. apply batches_epoch_of; [done..| |done].
  by apply query_items_counting.
Qed.

Lemma batches_epoch_witness :
  let keys := range 5 in
  let items := dict_values squares in
  let epoch :=
    gen_of_list
      ((fun j => batch_of false 2 (take 2 (drop (j * 2) (take 5 items))))
         <$> seq 0 ((length keys + 2 - 1) / 2)) in
  batches (DictDataset squares) keys (Z.of_nat 2) false tt = (epoch, tt) /\
  forall log,
    batches (counting (DictDataset squares)) keys (Z.of_nat 2) false (tt, log)
    = (epoch, (tt, log ++ keys)).
Proof.
  apply (batches_epoch (DictDataset squares) (range 5) 2 false tt tt
           (take 5 (dict_values squares)) 2).
  - lia.
  - discriminate.
  - reflexivity.
  - repeat constructor; intros [|[|j]] Hj; simpl; eauto; lia.
Defined.

(** X6. [batches] over an empty key list yields no batch and ends in a
    [RuntimeError], whatever the batch size: the only chunk is empty,
    [query] cannot take its first key, and its [StopIteration] leaves the
    body of the generator. The dataset is not queried. *)
Theorem batches_no_key {St} (ds : Dataset St) (batch_size : Z) (wrap : bool)
    (s : St) (log : list pyobj) :
  batches ds [] batch_size wrap s = (GRaise RuntimeError, s) /\
  batches (counting ds) [] batch_size wrap (s, log) = (GRaise RuntimeError, (s, log)).
Proof.
  unfold batches, chunkify. simpl. by rewrite py_slice_to_0.
Qed.

(** ** balanced_batches: the whole run *)

Lemma chunks_of_length (sub : nat) (keys : list pyobj) :
  (0 < sub)%nat -> length (chunks_of sub keys) = chunk_count sub (length keys).
Proof.
  intros Hsub. destruct keys as [|k keys]; [done|].
  by apply chunks_of_count.
Qed.

Lemma chunks_of_runs (sub : nat) (keys : list pyobj) :
  (0 < sub)%nat ->
  chunks_of sub keys
  = (fun j => sub_run sub j keys) <$> seq 0 (chunk_count sub (length keys)).
Proof.
  intros Hsub. rewrite <- chunks_of_length by done. apply list_eq. intros j.
  rewrite list_lookup_fmap.
  destruct (chunks_of sub keys !! j) as [c|] eqn:Hc.
  - rewrite lookup_seq_lt by (by eapply lookup_lt_Some).
    simpl. f_equal. by apply chunks_of_lookup.
  - apply lookup_ge_None in Hc. by rewrite lookup_seq_ge.
Qed.

Lemma zip_with_fmap_seq {A B C} (h : A -> B -> C) (f : nat -> A) (g : nat -> B)
    (a : nat) :
  forall i b,
  zip_with h (f <$> seq i a) (g <$> seq i b)
  = (fun j => h (f j) (g j)) <$> seq i (Nat.min a b).
Proof.
  induction a as [|a IH]; intros i [|b]; simpl; [done..|].
  by rewrite IH.
Qed.

Lemma zip_runs (sub : nat) (split_keys : list (list pyobj)) :
  (0 < sub)%nat ->
  zip_lists (chunks_of sub <$> split_keys)
  = (fun j => sub_run sub j <$> split_keys) <$> seq 0 (run_count sub split_keys).
Proof.
  intros Hsub. induction split_keys as [|keys rest IH]; [done|].
  destruct rest as [|keys2 rest].
  - simpl. rewrite chunks_of_runs by done. by rewrite <- list_fmap_compose.
  - change (zip_lists (chunks_of sub <$> keys :: keys2 :: rest))
      with (zip_with cons (chunks_of sub keys)
              (zip_lists (chunks_of sub <$> keys2 :: rest))).
    rewrite IH, chunks_of_runs by done.
    by rewrite zip_with_fmap_seq.
Qed.

Lemma run_count_bound (sub : nat) (split_keys : list (list pyobj)) (keys : list pyobj)
    (i : nat) :
  keys ∈ split_keys -> (i < run_count sub split_keys)%nat ->
  (i < chunk_count sub (length keys))%nat.
Proof.
  induction split_keys as [|k0 rest IH]; [by intros ?%elem_of_nil|].
  intros [->|Hin]%elem_of_cons.
  - destruct rest; simpl; lia.
  - destruct rest as [|k1 rest]; [by apply elem_of_nil in Hin|].
    intros Hi. apply IH; [done|]. simpl in Hi |- *. lia.
Qed.

Lemma balanced_loop_each {St} (ds : Dataset St) (wrap : bool) (batch_size : Z)
    (sub : nat) (split_keys : list (list pyobj)) (js : list nat) :
  split_keys <> [] -> Z.of_nat sub <= batch_size ->
  forall s,
  balanced_loop ds wrap batch_size
    (gen_of_list ((fun j => sub_run sub j <$> split_keys) <$> js)) s
  = query_each ds wrap ((fun j => balanced_keys sub j split_keys) <$> js) s.
Proof.
  intros Hne Hsub. induction js as [|j js IH]; intros s; [done|].
  cbn [fmap list_fmap gen_of_list balanced_loop query_each].
  rewrite py_min_shortest by done.
  rewrite (balanced_keys_parallel sub j batch_size split_keys Hne Hsub).
  destruct (query ds (balanced_keys sub j split_keys) wrap s)
    as [[[|Xs [|Ys [|? ?]]]|e] s1]; try done.
  by rewrite <- IH.
Qed.

(** C4. Let the number of key groups divide [batch_size], and write [sub]
    for the quotient. When [batch_size] is positive, [balanced_batches]
    makes as many runs as every group has chunks of [sub] keys, and run [j]
    is [query], in the state the runs before it left, on the key list made
    of one run per group in group order: run [j] of [sub] consecutive keys
    of the group, cut to the shortest run [j] over the groups; what [query]
    returns is yielded, and the first [query] that raises ends the
    generator. When [batch_size] is not positive, nothing is yielded. The
    key list of a run never has more than [batch_size] keys, and it has
    exactly [batch_size] keys when the run is not the last one. *)
Theorem balanced_batches_structure {St} (ds : Dataset St)
    (split_keys : list (list pyobj)) (batch_size : Z) (wrap : bool) (s : St) :
  (Z.of_nat (length split_keys) | batch_size) ->
  let sub := Z.to_nat (batch_size / Z.of_nat (length split_keys)) in
  let runs := run_count sub split_keys in
  (0 < batch_size ->
   balanced_batches ds split_keys batch_size wrap s
   = query_each ds wrap
       ((fun j => balanced_keys sub j split_keys) <$> seq 0 runs) s) /\
  (batch_size <= 0 ->
   gen_yields (balanced_batches ds split_keys batch_size wrap s).1 = []) /\
  (0 < batch_size ->
   forall j, (j < runs)%nat ->
     Z.of_nat (length (balanced_keys sub j split_keys)) <= batch_size /\
     ((S j < runs)%nat ->
      Z.of_nat (length (balanced_keys sub j split_keys)) = batch_size)).
Proof.
  intros [q Hq] sub runs.
  assert (0 < batch_size ->
          split_keys <> [] /\ (0 < sub)%nat /\
          Z.of_nat sub = batch_size / Z.of_nat (length split_keys) /\
          Z.of_nat sub * Z.of_nat (length split_keys) = batch_size /\
          0 < Z.of_nat (length split_keys)) as Hpos.
  { intros Hb.
    assert (split_keys <> []) as Hne by (intros ->; simpl in Hq; lia).
    assert (0 < Z.of_nat (length split_keys)) as Hlen
      by (destruct split_keys; [done|simpl; lia]).
    assert (batch_size / Z.of_nat (length split_keys) = q) as Hdiv
      by (rewrite Hq; apply Z.div_mul; lia).
    assert (0 < q) by nia.
    unfold sub. rewrite Hdiv. repeat split; [done|lia|lia|lia|lia]. }
  split; [|split].
  - intros Hb. destruct (Hpos Hb) as (Hne & Hsub & Hsubz & Htotal & Hlen).
    unfold balanced_batches, py_floordiv.
    destruct (Z.eqb_spec (Z.of_nat (length split_keys)) 0) as [Hz|_].
    { rewrite Hz in Htotal. lia. }
    rewrite <- Hsubz. rewrite decide_True by done.
    assert ((fun keys => chunkify keys (Z.of_nat sub)) <$> split_keys
            = gen_of_list <$> (chunks_of sub <$> split_keys)) as ->.
    { rewrite <- list_fmap_compose. apply list_fmap_ext. intros _ keys _.
      by apply chunks_of_gen. }
    rewrite py_zip_of_lists, zip_runs by done.
    apply balanced_loop_each; [done|]. nia.
  - intros Hb. unfold balanced_batches, py_floordiv.
    destruct (Z.eqb_spec (Z.of_nat (length split_keys)) 0) as [Hz|Hz]; [done|].
    destruct (decide _) as [_|_]; [|done].
    apply balanced_loop_empty_chunks, py_zip_Forall.
    apply Forall_fmap, Forall_true. intros keys. apply chunkify_no_size.
    apply Z.div_le_upper_bound; lia.
  - intros Hb j Hj. destruct (Hpos Hb) as (Hne & Hsub & Hsubz & Htotal & Hlen).
    assert (forall i keys, (i < runs)%nat -> keys ∈ split_keys ->
              (i < length (chunks_of sub keys))%nat) as Hlong.
    { intros i keys Hi Hin. rewrite chunks_of_length by done.
      by apply (run_count_bound sub split_keys). }
    split.
    + unfold balanced_keys.
      pose proof (length_concat_fmap_le
        (fun ks => take (shortest_run sub j split_keys) (sub_run sub j ks))
        sub split_keys) as Hcat.
      specialize (Hcat ltac:(intros ks _; simpl; rewrite length_take;
                            pose proof (foldr_min_le sub
                              ((fun keys => length (sub_run sub j keys)) <$> split_keys));
                            unfold shortest_run; lia)).
      nia.
    + intros Hnext.
      assert (shortest_run sub j split_keys = sub) as Hshort.
      { unfold shortest_run. apply foldr_min_const, Forall_fmap, Forall_forall.
        intros ks Hks. simpl. apply chunks_of_full; [done|]. by apply Hlong. }
      unfold balanced_keys. rewrite Hshort.
      rewrite (length_concat_fmap_eq _ sub).
      * nia.
      * intros ks Hks. simpl. rewrite length_take.
        rewrite (chunks_of_full sub j ks) by (done || by apply Hlong). lia.
Qed.

Lemma balanced_batches_structure_witness :
  let split_keys := [range 3; drop 4 (range 8)] in
  let sub := Z.to_nat (4 / Z.of_nat (length split_keys)) in
  let runs := run_count sub split_keys in
  (0 < 4 ->
   balanced_batches (DictDataset squares) split_keys 4 false tt
   = query_each (DictDataset squares) false
       ((fun j => balanced_keys sub j split_keys) <$> seq 0 runs) tt) /\
  (4 <= 0 ->
   gen_yields (balanced_batches (DictDataset squares) split_keys 4 false tt).1 = []) /\
  (0 < 4 ->
   forall j, (j < runs)%nat ->
     Z.of_nat (length (balanced_keys sub j split_keys)) <= 4 /\
     ((S j < runs)%nat ->
      Z.of_nat (length (balanced_keys sub j split_keys)) = 4)).
Proof.
  apply (balanced_batches_structure (DictDataset squares)
           [range 3; drop 4 (range 8)] 4 false tt).
  exists 2. reflexivity.
Defined.

(** The run that the theorem gives for groups of three and four keys: two
    batches, the second cut to one key per group. *)
Example balanced_batches_runs :
  let split_keys := [range 3; drop 4 (range 8)] in
  run_count 2 split_keys = 2%nat /\
  (fun j => balanced_keys 2 j split_keys) <$> seq 0 2
  = [PyInt <$> [0; 1; 4; 5]; PyInt <$> [2; 6]] /\
  query_each (DictDataset squares) false
    [PyInt <$> [0; 1; 4; 5]; PyInt <$> [2; 6]] tt
  = (gen_of_list
       [(np_array (PyInt <$> [0; 1; 4; 5]), np_array (PyInt <$> [0; 1; 16; 25]));
        (np_array (PyInt <$> [2; 6]), np_array (PyInt <$> [4; 36]))], tt).
Proof. repeat split. Qed.

(** ** Dataset.query: the shape of what it returns *)

Lemma py_setitem_length {A} (l l' : list A) (i : Z) (v : A) :
  py_setitem l i v = Ok l' -> length l' = length l.
Proof.
  unfold py_setitem. destruct (_ && _); [|done].
  intros [= <-]. apply length_insert.
Qed.

Lemma fill_column_shape (width : list nat) (i : nat) (item : pyobj) :
  forall XYs XYs',
  fill_column width i item XYs = Ok XYs' ->
  length <$> XYs' = length <$> XYs.
Proof.
  induction width as [|j width IH]; intros XYs XYs' Hfill; simpl in Hfill.
  - by simplify_eq.
  - destruct (py_getitem item j) as [v|e]; [|done].
    destruct (XYs !! j) as [Xs|] eqn:Hj; [|done].
    destruct (py_setitem Xs (Z.of_nat i) v) as [Xs'|e] eqn:Hset; [|done].
    rewrite (IH _ _ Hfill), list_fmap_insert.
    rewrite (py_setitem_length _ _ _ _ Hset).
    apply list_insert_id. by rewrite list_lookup_fmap, Hj.
Qed.

Lemma query_rest_shape {St} (ds : Dataset St) (wrap : bool) (width : list nat)
    (keys : list pyobj) :
  forall i XYs s XYs' s',
  query_rest ds wrap width i keys XYs s = (Ok XYs', s') ->
  length <$> XYs' = length <$> XYs.
Proof.
  induction keys as [|key keys IH]; intros i XYs s XYs' s' Hrun; simpl in Hrun.
  - unfold py_ret in Hrun. by simplify_eq.
  - unfold py_bind, py_lift in Hrun.
    destruct (query_item ds key s) as [[item|e] s1]; [|done].
    destruct (fill_column width i (wrap_item wrap item) XYs) as [XYs1|e] eqn:Hfill;
      [|done].
    rewrite (IH _ _ _ _ _ Hrun). by eapply fill_column_shape.
Qed.

(** X7. Whenever [query] returns, it returns as many arrays as [len] of
    the first item, wrapped when [wrap] is set, and every array has
    [len(keys)] entries. *)
Theorem query_shape {St} (ds : Dataset St) (keys : list pyobj) (wrap : bool)
    (s s' : St) (batch : list ndarray) :
  query ds keys wrap s = (Ok batch, s') ->
  exists key0 first s1,
    head keys = Some key0 /\
    query_item ds key0 s = (Ok first, s1) /\
    py_len (wrap_item wrap first) = Ok (length batch) /\
    Forall (fun arr => length (np_data arr) = length keys) batch.
Proof.
  intros Hq. destruct keys as [|key0 rest]; [done|].
  unfold query, py_bind, py_lift, py_ret in Hq.
  destruct (query_item ds key0 s) as [[first|e] s1] eqn:Hfirst; [|done].
  destruct (py_len (wrap_item wrap first)) as [n|e] eqn:Hlen; [|done].
  destruct (fill_column _ 0 _ _) as [XYs1|e] eqn:Hfill; [|done].
  destruct (query_rest _ _ _ _ _ _ _) as [[XYs2|e] s2] eqn:Hrest; [|done].
  injection Hq as <- <-.
  apply fill_column_shape in Hfill. apply query_rest_shape in Hrest.
  rewrite Hfill in Hrest. rewrite fmap_replicate, length_replicate in Hrest.
  exists key0, first, s1. split; [done|]. split; [done|]. split.
  - rewrite length_fmap. rewrite <- (length_fmap length XYs2), Hrest.
    by rewrite length_replicate.
  - apply Forall_fmap, Forall_forall. intros row Hrow. simpl.
    assert (length row ∈ length <$> XYs2) as Hin by (by apply list_elem_of_fmap_2).
    rewrite Hrest in Hin. by apply elem_of_replicate in Hin as [-> _].
Qed.

Lemma query_shape_witness :
  exists key0 first s1,
    head [PyInt 0; PyInt 1] = Some key0 /\
    query_item (DictDataset actors) key0 tt = (Ok first, s1) /\
    py_len (wrap_item false first) = Ok (length (batch_of false 2 (dict_values actors))) /\
    Forall (fun arr => length (np_data arr) = length [PyInt 0; PyInt 1])
      (batch_of false 2 (dict_values actors)).
Proof.
  apply (query_shape (DictDataset actors) [PyInt 0; PyInt 1] false tt tt).
  reflexivity.
Defined.

(** ** balanced_batches: an empty group *)

Lemma balanced_loop_stops {St} (ds : Dataset St) (wrap : bool) (batch_size : Z)
    (parallels : gen (list (list pyobj))) (s : St) :
  (forall p m, head (gen_yields parallels) = Some p ->
     py_min (length <$> p) = Ok m ->
     concat (if decide (Z.of_nat m <> batch_size) then take m <$> p else p) = []) ->
  gen_yields (balanced_loop ds wrap batch_size parallels s).1 = [] /\
  (balanced_loop ds wrap batch_size parallels s).2 = s.
Proof.
  intros Hstop. destruct parallels as [| |p rest]; simpl; [done..|].
  destruct (py_min (length <$> p)) as [m|e] eqn:Hmin; [|done].
  by rewrite (Hstop p m eq_refl Hmin).
Qed.

Lemma concat_empty_chunks {A} (q : list (list A)) :
  Forall (fun c => c = []) q -> concat q = [].
Proof. induction 1 as [|c q -> _ IH]; simpl; done. Qed.

Lemma py_min_zero (l : list nat) (m : nat) :
  0%nat ∈ l -> py_min l = Ok m -> m = 0%nat.
Proof.
  destruct l as [|x l]; [done|]. simpl. intros Hin [= <-].
  apply elem_of_cons in Hin as [<-|Hin].
  - pose proof (foldr_min_le 0 l). lia.
  - pose proof (foldr_min_bound x l 0 Hin). lia.
Qed.

(** X8. When one of the key groups is empty, [balanced_batches] yields no
    batch and never queries the dataset, whatever [batch_size]: the chunk of
    the empty group cuts the first key list down to nothing. *)
Theorem balanced_batches_empty_group {St} (ds : Dataset St)
    (split_keys : list (list pyobj)) (batch_size : Z) (wrap : bool) (s : St) :
  [] ∈ split_keys ->
  gen_yields (balanced_batches ds split_keys batch_size wrap s).1 = [] /\
  (balanced_batches ds split_keys batch_size wrap s).2 = s.
Proof.
  intros Hempty. unfold balanced_batches, py_floordiv.
  destruct (Z.eqb_spec (Z.of_nat (length split_keys)) 0) as [Hz|Hz]; [done|].
  destruct (decide _) as [Hsplit|_]; [|done].
  apply balanced_loop_stops. intros p m Hp Hm.
  destruct (Z_le_gt_dec (batch_size / Z.of_nat (length split_keys)) 0) as [Hle|Hgt].
  - assert (Forall (fun c => c = []) p) as Hall.
    { pose proof (py_zip_Forall (fun c : list pyobj => c = [])
                    ((fun keys => chunkify keys (batch_size / Z.of_nat (length split_keys)))
                       <$> split_keys)) as Hzip.
      specialize (Hzip ltac:(apply Forall_fmap, Forall_true; intros keys;
                             by apply chunkify_no_size)).
      destruct (gen_yields _) as [|p0 ?]; [done|].
      simpl in Hp. simplify_eq. by apply Forall_cons in Hzip as [? _]. }
    destruct (decide _); apply concat_empty_chunks; [|done].
    apply Forall_fmap. eapply Forall_impl; [done|]. intros c ->. by destruct m.
  - set (sub := Z.to_nat (batch_size / Z.of_nat (length split_keys))).
    assert (0 < sub)%nat as Hsub by (unfold sub; lia).
    assert (Z.of_nat sub = batch_size / Z.of_nat (length split_keys)) as Hsubz
      by (unfold sub; lia).
    rewrite <- Hsubz in Hp.
    assert ((fun keys => chunkify keys (Z.of_nat sub)) <$> split_keys
            = gen_of_list <$> (chunks_of sub <$> split_keys)) as Hgens.
    { rewrite <- list_fmap_compose. apply list_fmap_ext. intros _ keys _.
      by apply chunks_of_gen. }
    rewrite Hgens, py_zip_of_lists, gen_yields_of_list in Hp.
    assert (zip_lists (chunks_of sub <$> split_keys) !! 0%nat = Some p) as Hp0
      by (by destruct (zip_lists _)).
    apply zip_lists_lookup in Hp0; [|by destruct split_keys].
    assert ([] ∈ p) as Hin.
    { clearbody sub. clear -Hp0 Hempty Hsub. revert p Hp0.
      induction split_keys as [|keys ks IH]; intros p Hp0; [by apply elem_of_nil in Hempty|].
      rewrite fmap_cons in Hp0.
      apply Forall2_cons_inv_l in Hp0 as (c & q & Hc & Hq & ->).
      apply elem_of_cons in Hempty as [<-|Hin].
      - apply elem_of_cons. left.
        unfold chunks_of, chunkify in Hc. simpl in Hc.
        rewrite py_slice_to_0 in Hc. by simplify_eq.
      - apply elem_of_cons. right. by apply IH. }
    assert (m = 0%nat) as ->.
    { eapply py_min_zero; [|done]. by apply (list_elem_of_fmap_2 length) in Hin. }
    rewrite decide_True by nia.
    apply concat_empty_chunks, Forall_fmap, Forall_true. intros c. apply take_0.
Qed.

Lemma balanced_batches_empty_group_witness :
  gen_yields (balanced_batches (DictDataset squares) [range 4; []] 4 false tt).1 = [] /\
  (balanced_batches (DictDataset squares) [range 4; []] 4 false tt).2 = tt.
Proof.
  apply (balanced_batches_empty_group (DictDataset squares) [range 4; []] 4 false tt).
  apply elem_of_cons. right. apply elem_of_cons. by left.
Defined.

(** ** Dataset._recursive_equality *)

Lemma recursive_equality_elements (xs : list pyobj) :
  Forall (fun x => forall b, dict_free x = true ->
            _recursive_equality x b = bool_decide (as_tuples x = as_tuples b)) xs ->
  forallb dict_free xs = true ->
  forall ys,
  (fix go (xs ys : list pyobj) : bool :=
     match xs, ys with
     | x :: xs', y :: ys' =>
         if _recursive_equality x y then go xs' ys' else false
     | _, _ => true
     end) xs ys
  = bool_decide (take (length ys) (map as_tuples xs)
                 = take (length xs) (map as_tuples ys)).
Proof.
  induction 1 as [|x xs Hx _ IHxs]; intros Hfree ys.
  - simpl. rewrite take_nil, take_0. by rewrite bool_decide_eq_true_2.
  - destruct ys as [|y ys]; [by rewrite bool_decide_eq_true_2|].
    simpl in Hfree. apply andb_prop in Hfree as [Hx' Hxs'].
    rewrite (Hx y Hx'). cbn [length take map].
    destruct (decide (as_tuples x = as_tuples y)) as [Heq|Hne].
    + rewrite bool_decide_eq_true_2 by done. rewrite (IHxs Hxs' ys).
      apply bool_decide_ext. rewrite Heq. split; [by intros ->|by intros [= ->]].
    + rewrite !bool_decide_eq_false_2; [done| |done]. by intros [= ? _].
Qed.

Lemma recursive_equality_sequences (xs ys : list pyobj) :
  Forall (fun x => forall b, dict_free x = true ->
            _recursive_equality x b = bool_decide (as_tuples x = as_tuples b)) xs ->
  forallb dict_free xs = true ->
  (if decide (length xs <> length ys) then false
   else
     (fix go (xs ys : list pyobj) : bool :=
        match xs, ys with
        | x :: xs', y :: ys' =>
            if _recursive_equality x y then go xs' ys' else false
        | _, _ => true
        end) xs ys)
  = bool_decide (PyTuple (map as_tuples xs) = PyTuple (map as_tuples ys)).
Proof.
  intros IH Hfree.
  destruct (decide (length xs <> length ys)) as [Hlen|Hlen].
  { rewrite bool_decide_eq_false_2; [done|].
    intros [= Heq]. apply Hlen.
    by rewrite <- (length_map as_tuples xs), Heq, length_map. }
  rewrite (recursive_equality_elements xs IH Hfree ys).
  assert (length xs = length ys) as Hl
    by (destruct (decide (length xs = length ys)); [done|lia]).
  rewrite !take_ge by (rewrite length_map; lia).
  apply bool_decide_ext. split; [by intros ->|by intros [= ->]].
Qed.

(** X9. On values without a [dict] inside, [_recursive_equality] makes no
    difference between a tuple and a list and is equality otherwise: it
    returns [True] exactly when the two values are equal once every list in
    them is read as a tuple. *)
Theorem recursive_equality_dict_free (a b : pyobj) :
  dict_free a = true ->
  _recursive_equality a b = bool_decide (as_tuples a = as_tuples b).
Proof.
  revert b. induction a as [|z|s|xs IH|xs IH|kvs _] using pyobj_nested_ind;
    intros b Hfree.
  - destruct b; cbn [_recursive_equality as_tuples]; apply bool_decide_ext; naive_solver.
  - destruct b; cbn [_recursive_equality as_tuples]; apply bool_decide_ext; naive_solver.
  - destruct b; cbn [_recursive_equality as_tuples]; apply bool_decide_ext; naive_solver.
  - simpl in Hfree.
    destruct b as [| | |ys|ys|];
      try reflexivity.
    + by apply recursive_equality_sequences.
    + by apply recursive_equality_sequences.
  - simpl in Hfree.
    destruct b as [| | |ys|ys|];
      try reflexivity.
    + by apply recursive_equality_sequences.
    + by apply recursive_equality_sequences.
  - discriminate Hfree.
Qed.

Lemma recursive_equality_dict_free_witness :
  _recursive_equality (PyTuple [PyStr "Tom"; PyList [PyInt 1; PyInt 2]])
    (PyList [PyStr "Tom"; PyTuple [PyInt 1; PyInt 2]])
  = bool_decide (as_tuples (PyTuple [PyStr "Tom"; PyList [PyInt 1; PyInt 2]])
                 = as_tuples (PyList [PyStr "Tom"; PyTuple [PyInt 1; PyInt 2]])).
Proof.
  apply (recursive_equality_dict_free
           (PyTuple [PyStr "Tom"; PyList [PyInt 1; PyInt 2]])
           (PyList [PyStr "Tom"; PyTuple [PyInt 1; PyInt 2]])).
  reflexivity.
Defined.

(** A tuple and a list with equal elements are not equal, but
    [_recursive_equality] finds them so. *)
Example recursive_equality_tuple_list :
  _recursive_equality (PyTuple [PyInt 1; PyInt 2]) (PyList [PyInt 1; PyInt 2]) = true /\
  PyTuple [PyInt 1; PyInt 2] <> PyList [PyInt 1; PyInt 2].
Proof. split; [reflexivity|discriminate]. Qed.

(** ** TransformedDataset *)

Lemma apply_transforms_app (ts1 ts2 : list (callable * bool)) (key : pyobj) :
  forall item,
  apply_transforms (ts1 ++ ts2) key item
  = match apply_transforms ts1 key item with
    | Raise e => Raise e
    | Ok item' => apply_transforms ts2 key item'
    end.
Proof.
  induction ts1 as [|[t nk] ts1 IH]; intros item; [done|].
  simpl. by destruct (if nk then call t [key; item] else call t [item]).
Qed.

(** X10. A [TransformedDataset] with transforms [ts2] over a
    [TransformedDataset] with transforms [ts1] returns, for every key, what
    one [TransformedDataset] with the transforms [ts1] followed by [ts2]
    returns, and leaves the inner dataset in the same state. *)
Theorem transformed_nested {St} (ds : Dataset St) (ts1 ts2 : list (callable * bool))
    (key : pyobj) (s : St) :
  let nested :=
    query_item (TransformedDataset (TransformedDataset ds)) key
      {| td_dataset := {| td_dataset := s; td_transforms := ts1 |};
         td_transforms := ts2 |} in
  let flat :=
    query_item (TransformedDataset ds) key
      {| td_dataset := s; td_transforms := ts1 ++ ts2 |} in
  nested.1 = flat.1 /\ td_dataset (td_dataset nested.2) = td_dataset flat.2.
Proof.
  simpl. unfold Transformed_query_item. simpl. unfold Transformed_query_item. simpl.
  destruct (query_item ds key s) as [[item|e] s']; simpl; [|done].
  rewrite apply_transforms_app.
  by destruct (apply_transforms ts1 key item).
Qed.

(** X11. A transform added with [add_transform] is applied last: the
    dataset returns what the added transform makes of the item returned
    before the addition, called with the key first when [needs_key] was
    passed or the transform carries the attribute; an exception raised
    before the addition is raised as before, the added transform not being
    called. *)
Theorem transform_added_last {St} (ds : Dataset St) (t : callable) (nk : bool)
    (key : pyobj) (self : Transformed St) :
  query_item (TransformedDataset ds) key (add_transform t nk self)
  = match query_item (TransformedDataset ds) key self with
    | (Ok item, self') =>
        (if nk || needs_key_attr t then call t [key; item] else call t [item],
         add_transform t nk self')
    | (Raise e, self') => (Raise e, add_transform t nk self')
    end.
Proof.
  simpl. unfold Transformed_query_item, add_transform. simpl.
  destruct (query_item ds key (td_dataset self)) as [[item|e] s']; simpl; [|done].
  rewrite apply_transforms_app.
  destruct (apply_transforms (td_transforms self) key item) as [item'|e]; [|done].
  simpl. destruct nk; simpl.
  - by destruct (call t [key; item']).
  - destruct (needs_key_attr t).
    + by destruct (call t [key; item']).
    + by destruct (call t [item']).
Qed.

(** ** CacheLastDataset *)

(** X12. With the default hook, a [CacheLastDataset] that has returned an
    item for a key returns the same item when asked for that key again at
    once, and nothing changes: the inner dataset is not queried. *)
Theorem cache_last_repeat {St} (ds : Dataset St) (key item : pyobj)
    (self self1 : CacheLast St) :
  query_item (CacheLastDataset ds after_cache_miss_default) key self
    = (Ok item, self1) ->
  query_item (CacheLastDataset ds after_cache_miss_default) key self1
    = (Ok item, self1).
Proof.
  simpl. unfold CacheLast_query_item. destruct self as [s [ck ci]]. simpl.
  destruct (decide (key <> ck)) as [Hne|Heq].
  - destruct (query_item ds key s) as [[item'|e] s']; simpl; [|done].
    intros [= <- <-]. simpl. rewrite decide_False; [done|]. by intros H.
  - intros [= <- <-]. simpl. by rewrite decide_False.
Qed.

Lemma cache_last_repeat_witness :
  query_item (CacheLastDataset (counting (DictDataset actors)) after_cache_miss_default)
    (PyInt 1)
    {| cl_dataset := (tt, [PyInt 1]);
       cl_cache := (PyInt 1, PyTuple [PyStr "Tom"; PyStr "Hanks"]) |}
  = (Ok (PyTuple [PyStr "Tom"; PyStr "Hanks"]),
     {| cl_dataset := (tt, [PyInt 1]);
        cl_cache := (PyInt 1, PyTuple [PyStr "Tom"; PyStr "Hanks"]) |}).
Proof.
  apply (cache_last_repeat (counting (DictDataset actors)) (PyInt 1)
           (PyTuple [PyStr "Tom"; PyStr "Hanks"])
           (CacheLast_init (tt, []))).
  reflexivity.
Defined.

(** X13. With the default hook, when a [CacheLastDataset] answers a
    sequence of keys one after the other, the inner dataset is queried
    exactly for the keys that differ from the key asked just before (for
    the first key: from the key held in the slot), in order. *)
Theorem cache_last_inner_queries {St} (ds : Dataset St) (keys : list pyobj) :
  forall (self self' : CacheLast (St * list pyobj)) (items : list pyobj),
  query_items (CacheLastDataset (counting ds) after_cache_miss_default) keys self
    = (Ok items, self') ->
  (cl_dataset self').2
  = (cl_dataset self).2 ++ slot_misses (cl_cache self).1 keys.
Proof.
  induction keys as [|key keys IH]; intros self self' items.
  - intros [= <- <-]. simpl. by rewrite app_nil_r.
  - cbn [query_items]. unfold py_bind at 1.
    destruct (query_item _ key self) as [[item|e] self1] eqn:Hq; [|done].
    unfold py_bind at 1.
    destruct (query_items _ keys self1) as [[items'|e] self2] eqn:Hrest; [|done].
    intros [= <- <-]. rewrite (IH _ _ _ Hrest).
    revert Hq. simpl. unfold CacheLast_query_item.
    destruct self as [[s log] [ck ci]]. simpl.
    destruct (decide (key <> ck)) as [Hne|Heq].
    + destruct (query_item ds key s) as [[item'|e] s']; simpl; [|done].
      intros [= <- <-]. simpl. by rewrite <- app_assoc.
    + intros [= <- <-]. simpl.
      assert (key = ck) as -> by (by destruct (decide (key = ck))).
      done.
Qed.

Lemma cache_last_inner_queries_witness :
  (tt, [PyInt 0; PyInt 1; PyInt 0]).2
  = (cl_dataset (CacheLast_init (tt, @nil pyobj))).2
    ++ slot_misses (cl_cache (CacheLast_init (tt, @nil pyobj))).1
         [PyInt 0; PyInt 0; PyInt 1; PyInt 1; PyInt 0].
Proof.
  apply (cache_last_inner_queries (DictDataset actors)
           [PyInt 0; PyInt 0; PyInt 1; PyInt 1; PyInt 0]
           (CacheLast_init (tt, []))
           {| cl_dataset := (tt, [PyInt 0; PyInt 1; PyInt 0]);
              cl_cache := (PyInt 0, PyTuple [PyStr "Denzel"; PyStr "Washington"]) |}
           [PyTuple [PyStr "Denzel"; PyStr "Washington"];
            PyTuple [PyStr "Denzel"; PyStr "Washington"];
            PyTuple [PyStr "Tom"; PyStr "Hanks"];
            PyTuple [PyStr "Tom"; PyStr "Hanks"];
            PyTuple [PyStr "Denzel"; PyStr "Washington"]]).
  reflexivity.
Defined.

(** ** CachedDataset *)

Lemma Cached_query_item_keeps {St} (ds : Dataset St) (key k item : pyobj)
    (self self' : Cached St) (r : res pyobj) :
  Cached_query_item ds key self = (r, self') ->
  dict_get (cd_cache self) k = Some item -> item <> PyNone ->
  dict_get (cd_cache self') k = Some item.
Proof.
  unfold Cached_query_item, py_dict_get, py_dict_setitem.
  intros Hrun Hk Hitem. revert Hrun.
  destruct (hashable key); [|by intros [= _ <-]].
  destruct (decide (default PyNone (dict_get (cd_cache self) key) <> PyNone))
    as [Hhit|Hmiss]; [by intros [= _ <-]|].
  destruct (cd_dataset self) as [s|]; [|by intros [= _ <-]].
  destruct (query_item ds key s) as [[tup|e] s']; simpl; [|by intros [= _ <-]].
  intros [= _ <-]. simpl.
  destruct (decide (k = key)) as [->|Hne].
  - rewrite Hk in Hmiss. simpl in Hmiss. by destruct Hmiss.
  - by rewrite dict_get_set_ne.
Qed.

Lemma Cached_query_items_keep {St} (ds : Dataset St) (k item : pyobj) keys :
  forall (self self' : Cached St) (r : res (list pyobj)),
  query_items (CachedDataset ds) keys self = (r, self') ->
  dict_get (cd_cache self) k = Some item -> item <> PyNone ->
  dict_get (cd_cache self') k = Some item.
Proof.
  induction keys as [|key keys IH]; intros self self' r.
  - by intros [= _ <-].
  - cbn [query_items]. unfold py_bind at 1.
    destruct (query_item _ key self) as [[it|e] self1] eqn:Hq.
    + unfold py_bind at 1.
      destruct (query_items _ keys self1) as [[its|e] self2] eqn:Hrest;
        intros [= _ <-] Hk Hitem;
        (apply (IH _ _ _ Hrest); [|done]);
        by apply (Cached_query_item_keeps ds key k item self self1 (Ok it) Hq).
    + intros [= _ <-] Hk Hitem.
      by apply (Cached_query_item_keeps ds key k item self self1 (Raise e) Hq).
Qed.

Lemma Cached_query_item_cached {St} (ds : Dataset St) (key item : pyobj)
    (self self' : Cached St) :
  Cached_query_item ds key self = (Ok item, self') -> item <> PyNone ->
  hashable key = true /\ dict_get (cd_cache self') key = Some item.
Proof.
  unfold Cached_query_item, py_dict_get, py_dict_setitem.
  intros Hrun Hitem. revert Hrun.
  destruct (hashable key); [|done].
  destruct (decide (default PyNone (dict_get (cd_cache self) key) <> PyNone))
    as [Hhit|Hmiss].
  - intros [= <- <-]. split; [done|].
    destruct (dict_get (cd_cache self) key); [done|by destruct Hhit].
  - destruct (cd_dataset self) as [s|]; [|done].
    destruct (query_item ds key s) as [[tup|e] s']; simpl; [|done].
    intros [= <- <-]. simpl. split; [done|]. apply dict_get_set_eq.
Qed.

(** X14. A [CachedDataset] never forgets an item that is not [None]: once
    [query_item(key)] has returned such an item, then after any further
    queries, whether they succeed or fail, [query_item(key)] returns that
    item again and changes nothing, so the inner dataset is not asked. *)
Theorem cached_item_kept {St} (ds : Dataset St) (key item : pyobj)
    (keys : list pyobj) (self self1 self2 : Cached St) (r : res (list pyobj)) :
  item <> PyNone ->
  query_item (CachedDataset ds) key self = (Ok item, self1) ->
  query_items (CachedDataset ds) keys self1 = (r, self2) ->
  query_item (CachedDataset ds) key self2 = (Ok item, self2).
Proof.
  intros Hitem Hq Hrest.
  destruct (Cached_query_item_cached ds key item self self1 Hq Hitem) as [Hh Hc].
  pose proof (Cached_query_items_keep ds key item keys self1 self2 r Hrest Hc Hitem)
    as Hc2.
  simpl. unfold Cached_query_item, py_dict_get. rewrite Hh, Hc2. simpl.
  by rewrite decide_True.
Qed.

Lemma cached_item_kept_witness :
  query_item (CachedDataset (counting (DictDataset actors))) (PyInt 0)
    {| cd_dataset := Some (tt, [PyInt 0; PyInt 1; PyInt 7]);
       cd_cache := [(PyInt 0, PyTuple [PyStr "Denzel"; PyStr "Washington"]);
                    (PyInt 1, PyTuple [PyStr "Tom"; PyStr "Hanks"])];
       cd_list_keys := _unforgotten_list_keys;
       cd_context := [] |}
  = (Ok (PyTuple [PyStr "Denzel"; PyStr "Washington"]),
     {| cd_dataset := Some (tt, [PyInt 0; PyInt 1; PyInt 7]);
        cd_cache := [(PyInt 0, PyTuple [PyStr "Denzel"; PyStr "Washington"]);
                     (PyInt 1, PyTuple [PyStr "Tom"; PyStr "Hanks"])];
        cd_list_keys := _unforgotten_list_keys;
        cd_context := [] |}).
Proof.
  apply (cached_item_kept (counting (DictDataset actors)) (PyInt 0)
           (PyTuple [PyStr "Denzel"; PyStr "Washington"])
           [PyInt 1; PyInt 7; PyInt 0]
           (Cached_init (tt, []))
           {| cd_dataset := Some (tt, [PyInt 0]);
              cd_cache := [(PyInt 0, PyTuple [PyStr "Denzel"; PyStr "Washington"])];
              cd_list_keys := _unforgotten_list_keys;
              cd_context := [] |}
           _ (Raise (KeyError (PyInt 7)))).
  - discriminate.
  - reflexivity.
  - reflexivity.
Defined.


(** X15. After [fill_forget()] has returned, [query_item] on a hashable key
    that is neither an inner key nor was cached before raises
    [AttributeError], the inner dataset being gone, and a second
    [fill_forget()] raises [AttributeError] as well; neither changes the
    object. *)
Theorem forgotten_miss {St} (ds : Dataset St) (self : Cached St)
    (s s1 : St) (keys : list pyobj) :
  cd_dataset self = Some s ->
  list_keys ds s = (Ok keys, s1) ->
  Forall (answers ds) keys ->
  exists self',
    fill_forget ds self = (Ok tt, self') /\
    fill_forget ds self' = (Raise AttributeError, self') /\
    forall k, hashable k = true -> k ∉ keys -> k ∉ dict_keys (cd_cache self) ->
      query_item (CachedDataset ds) k self' = (Raise AttributeError, self').
Proof.
  intros Hs Hkeys Hans.
  set (self1 := {| cd_dataset := Some s1; cd_cache := cd_cache self;
                   cd_list_keys := cd_list_keys self;
                   cd_context := cd_context self |}).
  destruct (Cached_fill_spec ds keys self1 s1 eq_refl Hans)
    as (self2 & s2 & Hfill & _ & _ & Hk & _ & _).
  eexists. split.
  { unfold fill_forget. rewrite Hs, Hkeys. fold self1. rewrite Hfill. reflexivity. }
  split; [done|].
  intros k Hhash Hnk Hnc. simpl. unfold Cached_query_item, py_dict_get. simpl.
  rewrite Hhash.
  destruct (dict_get (cd_cache self2) k) as [v|] eqn:Hget.
  - assert (k ∈ dict_keys (cd_cache self2)) as Hin
      by (apply dict_get_is_Some; by eexists).
    apply Hk in Hin as [Hin|Hin]; [by destruct Hnc|by destruct Hnk].
  - by simpl.
Qed.

Lemma forgotten_miss_witness :
  exists self',
    fill_forget (DictDataset actors) (Cached_init tt) = (Ok tt, self') /\
    fill_forget (DictDataset actors) self' = (Raise AttributeError, self') /\
    forall k, hashable k = true -> k ∉ [PyInt 0; PyInt 1] ->
      k ∉ dict_keys (cd_cache (Cached_init tt)) ->
      query_item (CachedDataset (DictDataset actors)) k self'
      = (Raise AttributeError, self').
Proof.
  apply (forgotten_miss (DictDataset actors) (Cached_init tt) tt tt
           [PyInt 0; PyInt 1]).
  - reflexivity.
  - reflexivity.
  - repeat constructor; intros []; eexists _, tt; (split; [reflexivity|discriminate]).
Defined.

(** X16. A [CachedDataset] does not serve the item [None] from its cache:
    a key that the inner dataset answers with [None], asked [n] times in a
    row, is passed to the inner dataset [n] times. *)
Theorem cached_none_requeried {St} (ds : Dataset St) (key : pyobj) (n : nat) :
  hashable key = true ->
  (forall s, exists s', query_item ds key s = (Ok PyNone, s')) ->
  forall (self : Cached (St * list pyobj)) (s : St) (log : list pyobj),
  cd_dataset self = Some (s, log) ->
  default PyNone (dict_get (cd_cache self) key) = PyNone ->
  exists self' s',
    query_items (CachedDataset (counting ds)) (replicate n key) self
      = (Ok (replicate n PyNone), self') /\
    cd_dataset self' = Some (s', log ++ replicate n key).
Proof.
  intros Hhash Hnone. induction n as [|n IH]; intros self s log Hs Hc.
  - exists self, s. simpl. by rewrite app_nil_r.
  - destruct (Hnone s) as [s1 Hq].
    set (self1 := {| cd_dataset := Some (s1, log ++ [key]);
                     cd_cache := dict_set (cd_cache self) key PyNone;
                     cd_list_keys := cd_list_keys self;
                     cd_context := cd_context self |}).
    assert (query_item (CachedDataset (counting ds)) key self = (Ok PyNone, self1))
      as Hstep.
    { simpl. unfold Cached_query_item, py_dict_get, py_dict_setitem.
      rewrite Hhash, Hc. rewrite decide_False by (by intros H).
      rewrite Hs. simpl. by rewrite Hq. }
    destruct (IH self1 s1 (log ++ [key]) eq_refl) as (self' & s' & Hrest & Hs').
    { simpl. by rewrite dict_get_set_eq. }
    exists self', s'. split.
    + change (replicate (S n) key) with (key :: replicate n key).
      cbn [query_items]. unfold py_bind. by rewrite Hstep, Hrest.
    + rewrite Hs'. simpl. by rewrite <- app_assoc.
Qed.

Lemma cached_none_requeried_witness :
  exists self' s',
    query_items (CachedDataset (counting (DictDataset [(PyInt 0, PyNone)])))
      (replicate 3 (PyInt 0)) (Cached_init (tt, []))
      = (Ok (replicate 3 PyNone), self') /\
    cd_dataset self' = Some (s', [] ++ replicate 3 (PyInt 0)).
Proof.
  refine (cached_none_requeried (DictDataset [(PyInt 0, PyNone)]) (PyInt 0) 3
            eq_refl _ (Cached_init (tt, [])) tt [] eq_refl eq_refl).
  intros []. exists tt. reflexivity.
Defined.

(** ** AugmentedDataset *)

(** X17. When an [AugmentedDataset] has returned an item for a key, a query
    for any key with the same root key that follows at once is answered
    from the slot: it is the lookup of the key among the items augmented
    from that root, a [KeyError] when it is not among them, and neither the
    inner dataset nor the slot changes. *)
Theorem augmented_same_root {St} (ds : Dataset St)
    (augment : pyobj -> pyobj -> gen (pyobj * pyobj))
    (root_key : pyobj -> res pyobj) (key1 key2 r item1 : pyobj)
    (self self1 : Augmented St) :
  root_key key1 = Ok r -> root_key key2 = Ok r ->
  query_item (AugmentedDataset ds augment root_key) key1 self = (Ok item1, self1) ->
  exists new_items,
    ad_cache self1 = (r, Some new_items) /\
    query_item (AugmentedDataset ds augment root_key) key2 self1
    = (py_dict_getitem new_items key2, self1).
Proof.
  intros Hr1 Hr2. simpl. unfold Augmented_query_item, _augment. rewrite Hr1, Hr2.
  destruct self as [s [ck cd]]. simpl.
  destruct (decide (ck <> r)) as [Hne|Heq].
  - destruct (query_item ds r s) as [[root_item|e] s']; [|done].
    destruct (py_dict_of [] (augment r root_item)) as [new_items|e]; [|done].
    intros [= Hitem <-]. exists new_items. simpl. split; [done|].
    by rewrite decide_False by (by intros H).
  - assert (ck = r) as -> by (by destruct (decide (ck = r))).
    destruct cd as [new_items|]; [|done].
    intros [= Hitem <-]. exists new_items. simpl. split; [done|].
    by rewrite decide_False by (by intros H).
Qed.

Lemma augmented_same_root_witness :
  exists new_items,
    ad_cache {| ad_dataset := tt;
                ad_cache := (PyInt 1,
                  Some [(PyTuple [PyInt 1; PyInt 0], PyTuple [PyStr "Tom"; PyStr "Hanks"]);
                        (PyTuple [PyInt 1; PyInt 1], PyTuple [PyStr "Tom"; PyStr "Hanks"])]) |}
    = (PyInt 1, Some new_items) /\
    query_item (AugmentedDataset (DictDataset actors) twice_augment
                  Augmented_root_key) (PyTuple [PyInt 1; PyInt 1])
      {| ad_dataset := tt;
         ad_cache := (PyInt 1,
           Some [(PyTuple [PyInt 1; PyInt 0], PyTuple [PyStr "Tom"; PyStr "Hanks"]);
                 (PyTuple [PyInt 1; PyInt 1], PyTuple [PyStr "Tom"; PyStr "Hanks"])]) |}
    = (py_dict_getitem new_items (PyTuple [PyInt 1; PyInt 1]),
       {| ad_dataset := tt;
          ad_cache := (PyInt 1,
            Some [(PyTuple [PyInt 1; PyInt 0], PyTuple [PyStr "Tom"; PyStr "Hanks"]);
                  (PyTuple [PyInt 1; PyInt 1], PyTuple [PyStr "Tom"; PyStr "Hanks"])]) |}).
Proof.
  apply (augmented_same_root (DictDataset actors) twice_augment
           Augmented_root_key (PyTuple [PyInt 1; PyInt 0])
           (PyTuple [PyInt 1; PyInt 1]) (PyInt 1)
           (PyTuple [PyStr "Tom"; PyStr "Hanks"]) (Augmented_init tt)).
  - reflexivity.
  - reflexivity.
  - reflexivity.
Defined.

(** X18. The slot of a new [AugmentedDataset] holds the root key [None]
    with no items. So on a new object a query whose root key is [None]
    raises [TypeError], and [list_keys()] over inner keys that start with
    [None] raises [AttributeError] before yielding a key; the inner
    [query_item] is not called in either case. *)
Theorem augmented_none_root {St} (ds : Dataset St)
    (augment : pyobj -> pyobj -> gen (pyobj * pyobj))
    (root_key : pyobj -> res pyobj) (s : St) (log : list pyobj) :
  (forall key, root_key key = Ok PyNone ->
     query_item (AugmentedDataset (counting ds) augment root_key) key
       (Augmented_init (s, log))
     = (Raise TypeError, Augmented_init (s, log))) /\
  (forall root_keys s1, list_keys ds s = (Ok (PyNone :: root_keys), s1) ->
     Augmented_list_keys (counting ds) augment (Augmented_init (s, log))
     = (GRaise AttributeError, Augmented_init (s1, log))).
Proof.
  split.
  - intros key Hr. simpl. unfold Augmented_query_item, _augment. by rewrite Hr.
  - intros root_keys s1 Hkeys. unfold Augmented_list_keys. simpl. by rewrite Hkeys.
Qed.

Lemma augmented_none_root_witness :
  query_item (FilteredDataset (counting (DictDataset [(PyNone, PyInt 5)]))
                (fun _ _ => Ok (PyBool true)) true) PyNone
    (Augmented_init (tt, []))
  = (Raise TypeError, Augmented_init (tt, [])) /\
  Augmented_list_keys (counting (DictDataset [(PyNone, PyInt 5)]))
    (Filtered_augment (fun _ _ => Ok (PyBool true)) true)
    (Augmented_init (tt, []))
  = (GRaise AttributeError, Augmented_init (tt, [])).
Proof.
  destruct (augmented_none_root (DictDataset [(PyNone, PyInt 5)])
              (Filtered_augment (fun _ _ => Ok (PyBool true)) true)
              Filtered_root_key tt []) as [Hquery Hkeys].
  split.
  - apply Hquery. reflexivity.
  - apply (Hkeys [] tt). reflexivity.
Defined.

(** ** FilteredDataset *)

Lemma filtered_slot {St} (ds : Dataset St)
    (predicate : pyobj -> pyobj -> res truth) (keep_positive b : bool)
    (key item : pyobj) (self : Augmented St) (s' : St) :
  hashable key = true ->
  (ad_cache self).1 <> key ->
  query_item ds key (ad_dataset self) = (Ok item, s') ->
  predicate key item = Ok (PyBool b) ->
  _augment ds (Filtered_augment predicate keep_positive) key self
  = (Ok (Some (kept keep_positive b key item)),
     {| ad_dataset := s';
        ad_cache := (key, Some (kept keep_positive b key item)) |}).
Proof.
  intros Hhash Hne Hq Hp. unfold _augment. rewrite decide_True by done.
  rewrite Hq. unfold Filtered_augment, kept. rewrite Hp.
  destruct (bool_decide (b = keep_positive)); simpl; [|done].
  unfold py_dict_setitem. by rewrite Hhash.
Qed.

(** X19. Querying a [FilteredDataset] for a hashable key that its slot does
    not hold asks the inner dataset for the item and the predicate for its
    verdict. When the verdict is the boolean the dataset keeps, the item is
    returned; when it is the other boolean, [KeyError] is raised for the
    key; in both cases the slot then holds the key. When the verdict is not
    a boolean, [AssertionError] is raised and the slot keeps what it
    held. *)
Theorem filtered_query_item {St} (ds : Dataset St)
    (predicate : pyobj -> pyobj -> res truth) (keep_positive : bool)
    (key item : pyobj) (self : Augmented St) (s' : St) :
  hashable key = true ->
  (ad_cache self).1 <> key ->
  query_item ds key (ad_dataset self) = (Ok item, s') ->
  (forall b, predicate key item = Ok (PyBool b) ->
     query_item (FilteredDataset ds predicate keep_positive) key self
     = (if bool_decide (b = keep_positive) then Ok item else Raise (KeyError key),
        {| ad_dataset := s';
           ad_cache := (key, Some (kept keep_positive b key item)) |})) /\
  (predicate key item = Ok NotBool ->
     query_item (FilteredDataset ds predicate keep_positive) key self
     = (Raise AssertionError, {| ad_dataset := s'; ad_cache := ad_cache self |})).
Proof.
  intros Hhash Hne Hq. split.
  - intros b Hp. simpl. unfold Augmented_query_item, Filtered_root_key.
    rewrite (filtered_slot ds predicate keep_positive b key item self s'
               Hhash Hne Hq Hp).
    unfold kept, py_dict_getitem. rewrite Hhash.
    destruct (bool_decide (b = keep_positive)); simpl; [|done].
    by rewrite decide_True.
  - intros Hp. simpl. unfold Augmented_query_item, Filtered_root_key, _augment.
    rewrite decide_True by done. rewrite Hq. unfold Filtered_augment.
    by rewrite Hp.
Qed.

Lemma filtered_query_item_witness :
  (forall b, (fun _ _ => Ok (PyBool false)) (PyInt 1) (PyTuple [PyStr "Tom"; PyStr "Hanks"])
             = Ok (PyBool b) ->
     query_item (FilteredDataset (DictDataset actors)
                   (fun _ _ => Ok (PyBool false)) true) (PyInt 1) (Augmented_init tt)
     = (if bool_decide (b = true) then Ok (PyTuple [PyStr "Tom"; PyStr "Hanks"])
        else Raise (KeyError (PyInt 1)),
        {| ad_dataset := tt;
           ad_cache := (PyInt 1, Some (kept true b (PyInt 1)
                                         (PyTuple [PyStr "Tom"; PyStr "Hanks"]))) |})) /\
  ((fun _ _ => Ok (PyBool false)) (PyInt 1) (PyTuple [PyStr "Tom"; PyStr "Hanks"])
   = Ok NotBool ->
     query_item (FilteredDataset (DictDataset actors)
                   (fun _ _ => Ok (PyBool false)) true) (PyInt 1) (Augmented_init tt)
     = (Raise AssertionError,
        {| ad_dataset := tt; ad_cache := ad_cache (Augmented_init tt) |})).
Proof.
  apply (filtered_query_item (DictDataset actors) (fun _ _ => Ok (PyBool false)) true
           (PyInt 1) (PyTuple [PyStr "Tom"; PyStr "Hanks"]) (Augmented_init tt) tt).
  - reflexivity.
  - discriminate.
  - reflexivity.
Defined.

Lemma filtered_keys_loop {St} (ds : Dataset St)
    (predicate : pyobj -> pyobj -> res truth) (keep_positive : bool)
    (item : pyobj -> pyobj) (keep : pyobj -> bool) (keys : list pyobj) :
  (forall k, k ∈ keys -> hashable k = true) ->
  (forall k s, k ∈ keys -> exists s', query_item ds k s = (Ok (item k), s')) ->
  (forall k, k ∈ keys -> predicate k (item k) = Ok (PyBool (keep k))) ->
  forall self : Augmented St,
  (forall k, head keys = Some k -> (ad_cache self).1 = k ->
     (ad_cache self).2 = Some (kept keep_positive (keep k) k (item k))) ->
  exists self',
    Augmented_keys_loop ds (Filtered_augment predicate keep_positive) keys self
    = (gen_of_list (filter (fun k => keep k = keep_positive) keys), self').
Proof.
  induction keys as [|k keys IH]; intros Hhash Hq Hp self Hslot.
  - by exists self.
  - assert (exists self1,
              _augment ds (Filtered_augment predicate keep_positive) k self
              = (Ok (Some (kept keep_positive (keep k) k (item k))), self1) /\
              ad_cache self1 = (k, Some (kept keep_positive (keep k) k (item k))))
      as (self1 & Haug & Hc1).
    { destruct (decide ((ad_cache self).1 = k)) as [Heq|Hne].
      - exists self. pose proof (Hslot k eq_refl Heq) as Hd.
        unfold _augment. rewrite decide_False by (by intros H).
        rewrite Hd. split; [done|].
        destruct (ad_cache self) as [c d]. simpl in *. by subst.
      - destruct (Hq k (ad_dataset self)) as [s' Hqk]; [by apply elem_of_cons; left|].
        exists {| ad_dataset := s';
                  ad_cache := (k, Some (kept keep_positive (keep k) k (item k))) |}.
        split; [|done].
        apply filtered_slot; [|done|done|].
        + apply Hhash. by apply elem_of_cons; left.
        + apply Hp. by apply elem_of_cons; left. }
    assert (forall k', k' ∈ keys -> k' ∈ k :: keys) as Hsub
      by (intros k' Hin; apply elem_of_cons; by right).
    destruct (IH (fun k' Hin => Hhash k' (Hsub k' Hin))
                 (fun k' s Hin => Hq k' s (Hsub k' Hin))
                 (fun k' Hin => Hp k' (Hsub k' Hin))
                 self1) as [self' Hloop].
    { intros k' _ Hk'. rewrite Hc1 in *. simpl in *. by subst. }
    exists self'. cbn [Augmented_keys_loop]. rewrite Haug, Hloop.
    rewrite filter_cons. unfold kept.
    destruct (decide (keep k = keep_positive)) as [Hkeep|Hkeep].
    + by rewrite bool_decide_eq_true_2.
    + by rewrite bool_decide_eq_false_2.
Qed.

Lemma py_list_of_list {A} (l : list A) : py_list (gen_of_list l) = Ok l.
Proof.
  unfold py_list.
  assert (gen_end (gen_of_list l) = None) as -> by (by induction l).
  f_equal. induction l; simpl; by f_equal.
Qed.

(** X20. Let the inner dataset enumerate [keys], not starting with [None],
    all hashable, and answer each of them with its item, on which the
    predicate returns a boolean. Then [list_keys()] of a new
    [FilteredDataset] yields exactly the inner keys on which the predicate
    returned the boolean the dataset keeps, in the order of the inner
    dataset, and ends without an exception. *)
Theorem filtered_list_keys {St} (ds : Dataset St)
    (predicate : pyobj -> pyobj -> res truth) (keep_positive : bool)
    (item : pyobj -> pyobj) (keep : pyobj -> bool)
    (keys : list pyobj) (s s1 : St) :
  list_keys ds s = (Ok keys, s1) ->
  head keys <> Some PyNone ->
  (forall k, k ∈ keys -> hashable k = true) ->
  (forall k s, k ∈ keys -> exists s', query_item ds k s = (Ok (item k), s')) ->
  (forall k, k ∈ keys -> predicate k (item k) = Ok (PyBool (keep k))) ->
  exists self',
    Augmented_list_keys ds (Filtered_augment predicate keep_positive)
      (Augmented_init s)
    = (gen_of_list (filter (fun k => keep k = keep_positive) keys), self') /\
    list_keys (FilteredDataset ds predicate keep_positive) (Augmented_init s)
    = (Ok (filter (fun k => keep k = keep_positive) keys), self').
Proof.
  intros Hkeys Hhead Hhash Hq Hp.
  destruct (filtered_keys_loop ds predicate keep_positive item keep keys Hhash Hq Hp
              {| ad_dataset := s1; ad_cache := (PyNone, None) |}) as [self' Hloop].
  { intros k Hk Hnone. simpl in Hnone. subst k. by destruct Hhead. }
  exists self'.
  assert (Augmented_list_keys ds (Filtered_augment predicate keep_positive)
            (Augmented_init s)
          = (gen_of_list (filter (fun k => keep k = keep_positive) keys), self'))
    as Hgen.
  { unfold Augmented_list_keys. simpl. by rewrite Hkeys. }
  split; [done|].
  simpl. unfold FilteredDataset. simpl. by rewrite Hgen, py_list_of_list.
Qed.

Lemma filtered_list_keys_witness :
  exists self',
    Augmented_list_keys (DictDataset actors)
      (Filtered_augment (fun k _ => Ok (PyBool (bool_decide (k = PyInt 1)))) true)
      (Augmented_init tt)
    = (gen_of_list (filter (fun k => bool_decide (k = PyInt 1) = true)
                      [PyInt 0; PyInt 1]), self') /\
    list_keys (FilteredDataset (DictDataset actors)
                 (fun k _ => Ok (PyBool (bool_decide (k = PyInt 1)))) true)
      (Augmented_init tt)
    = (Ok (filter (fun k => bool_decide (k = PyInt 1) = true) [PyInt 0; PyInt 1]),
       self').
Proof.
  apply (filtered_list_keys (DictDataset actors)
           (fun k _ => Ok (PyBool (bool_decide (k = PyInt 1)))) true
           (fun k => default PyNone (dict_get actors k))
           (fun k => bool_decide (k = PyInt 1))
           [PyInt 0; PyInt 1] tt tt).
  - reflexivity.
  - discriminate.
  - intros k Hk.
    repeat (apply elem_of_cons in Hk as [->|Hk]; [reflexivity|]).
    by apply elem_of_nil in Hk.
  - intros k [] Hk. exists tt.
    repeat (apply elem_of_cons in Hk as [->|Hk]; [reflexivity|]).
    by apply elem_of_nil in Hk.
  - intros k Hk. reflexivity.
Defined.

(** The keys of an [AugmentedDataset] with two keys for each root key, as in
    the doctest. *)
Example augmented_list_keys :
  (Augmented_list_keys (DictDataset actors) twice_augment (Augmented_init tt)).1
  = gen_of_list [PyTuple [PyInt 0; PyInt 0]; PyTuple [PyInt 0; PyInt 1];
                 PyTuple [PyInt 1; PyInt 0]; PyTuple [PyInt 1; PyInt 1]].
Proof. reflexivity. Qed.


(** ** PickledDataset: the keys and the context of a created file *)

(** A key whose item is read back whatever the memo holds can be queried
    at once, and the query leaves the memo empty. *)
Lemma query_spec_any_memo {memo} (no_memo : memo)
    (dumps : memo -> pyobj -> list byte * memo)
    (loads : memo -> list byte -> res (pyobj * nat) * memo)
    {St} (ds : Dataset St) (s : St) (cf : list byte) (idx : pydict)
    (store : Pickled memo) (k : pyobj) (pos : nat) (m : memo) (item : pyobj) :
  created no_memo dumps ds s cf idx ->
  index store = PyDict idx ->
  f_content (file_handler store) = cf ->
  hashable k = true ->
  is_Some (dict_get idx k) ->
  (query_item ds k s).1 = Ok item ->
  read_with_any_memo no_memo dumps loads item ->
  exists pos',
    _default_query_item no_memo loads k (with_reader store pos m)
    = (Ok item, after_query no_memo store pos').
Proof.
  intros Hcreated Hindex Hcontent Hhash [off Hk] Hitem Hblind.
  destruct (created_item no_memo dumps ds s cf idx k off Hcreated Hk)
    as (n & item' & rest & -> & Hq & Hdrop).
  assert (item' = item) as -> by (rewrite Hq in Hitem; by simplify_eq/=).
  pose proof (Hblind m rest) as Hread.
  exists (n + length (dumps no_memo item).1)%nat.
  unfold _default_query_item, with_reader, after_query. simpl.
  rewrite Hindex. simpl. unfold py_dict_getitem. rewrite Hhash, Hk.
  erewrite py_bind_ok by apply handle_seek_to.
  rewrite Hcontent. unfold py_bind at 1, load. cbn [f_content f_pos].
  rewrite Hdrop.
  destruct (loads m ((dumps no_memo item).1 ++ rest)) as [r m1].
  simpl in Hread. by subst r.
Qed.

Section Store.
Context {memo : Type} (no_memo : memo).
Context (dumps : memo -> pyobj -> list byte * memo).
Context (loads : memo -> list byte -> res (pyobj * nat) * memo).
Context {St : Type} (ds : Dataset St) (s : St).

Hypothesis loads_dumps :
  forall m o rest,
    loads m ((dumps m o).1 ++ rest)
    = (Ok (o, length (dumps m o).1), (dumps m o).2).
Hypothesis dumps_int :
  forall m z, dumps m (PyInt z) = ((dumps no_memo (PyInt z)).1, m).
Hypothesis loads_eof : forall m, loads m [] = (Raise EOFError, m).
Hypothesis Hmem : in_memory ds s.
Hypothesis header_fits :
  forall loc, 0 <= loc < 2 ^ 65 ->
    (length (dumps no_memo (PyInt (Z.lxor loc (Z.shiftl 1 65)))).1
     <= length (dumps no_memo (PyInt (Z.shiftl 1 65))).1)%nat.

(** X21. Let [D] be an in-memory dataset and [ks] the key list used at
    creation, every key of it hashable and answered by [D]. On the file
    that [create] writes, if shorter than [2^65] bytes and opened in the
    default mode, [list_keys()] returns exactly the keys of [ks], each
    once, and in the order of [ks] when [ks] has no repetition; and
    [query_item] raises [KeyError] for every hashable key that is not in
    [ks], without moving the handle. *)
Theorem store_keys (keys : option (list pyobj)) (ks : list pyobj) :
  creation_keys ds keys s = Ok ks ->
  Forall (fun k => hashable k = true /\ exists item, (query_item ds k s).1 = Ok item) ks ->
  exists f,
    create no_memo dumps ds keys (fresh_file, s) = (Ok tt, (f, s)) /\
    (Z.of_nat (length (f_content f)) < 2 ^ 65 ->
     exists store lk,
       PickledDataset_init no_memo loads (open_rb (f_content f)) false = Ok store /\
       list_keys (PickledDataset no_memo loads) store = (Ok lk, store) /\
       NoDup lk /\ (forall k, k ∈ lk <-> k ∈ ks) /\ (NoDup ks -> lk = ks) /\
       forall k pos, hashable k = true -> k ∉ ks ->
         query_item (PickledDataset no_memo loads) k (at_position store pos)
         = (Raise (KeyError k), at_position store pos)).
Proof.
  intros Hkeys Hks.
  destruct (store_spec no_memo dumps loads ds s loads_dumps dumps_int loads_eof
              Hmem header_fits keys ks Hkeys Hks)
    as (cf & p & idx & Hcreate & Hord & Hopen).
  eexists. split; [exact Hcreate|]. cbn [f_content]. intros Hsize.
  destruct (Hopen Hsize) as [_ Hinit]. destruct (Hinit false) as (pos0 & m0 & Hstore).
  eexists _, (key_order [] ks). split; [exact Hstore|].
  assert (forall k, k ∈ key_order [] ks <-> k ∈ ks) as Helem.
  { intros k. rewrite key_order_elem. split; [|by right].
    by intros [?%elem_of_nil|?]. }
  split; [simpl; by rewrite <- Hord|].
  split; [apply key_order_NoDup, NoDup_nil_2|].
  split; [done|].
  split; [intros Hnd; by apply (key_order_distinct ks [])|].
  intros k pos Hhash Hk. simpl. unfold _default_query_item, at_position. simpl.
  unfold py_dict_getitem. rewrite Hhash.
  destruct (dict_get idx k) as [off|] eqn:Hget; [|done].
  destruct Hk. apply Helem. rewrite <- Hord. apply dict_get_is_Some. by eexists.
Qed.

(** X22. Under the same conditions the opened dataset has the context of
    [D] when [D] has a context that is not empty, and no context when [D]
    has none or an empty one. *)
Theorem store_context (keys : option (list pyobj)) (ks : list pyobj) :
  creation_keys ds keys s = Ok ks ->
  Forall (fun k => hashable k = true /\ exists item, (query_item ds k s).1 = Ok item) ks ->
  exists f,
    create no_memo dumps ds keys (fresh_file, s) = (Ok tt, (f, s)) /\
    (Z.of_nat (length (f_content f)) < 2 ^ 65 ->
     exists store,
       PickledDataset_init no_memo loads (open_rb (f_content f)) false = Ok store /\
       dataset_context (PickledDataset no_memo loads) store = written_context ds s).
Proof.
  intros Hkeys Hks.
  destruct (store_spec no_memo dumps loads ds s loads_dumps dumps_int loads_eof
              Hmem header_fits keys ks Hkeys Hks)
    as (cf & p & idx & Hcreate & _ & Hopen).
  eexists. split; [exact Hcreate|]. cbn [f_content]. intros Hsize.
  destruct (Hopen Hsize) as [_ Hinit]. destruct (Hinit false) as (pos0 & m0 & Hstore).
  eexists. split; [exact Hstore|]. simpl.
  by destruct (written_context ds s).
Qed.

(** X23. Under the same conditions, on the file opened with
    [offset_keys=True], [list_keys()] returns one offset for each key that
    the default mode lists, in the same order. Each offset is the position
    at which the item of its key was written: [_offset_query_item] on it,
    when the memo of the unpickler is empty, returns the item
    [D.query_item] returns for that key, and leaves the handle after the
    item and the memo as the load has filled it, since it does not clear
    it. But [query_item], which is bound to [_default_query_item] in this
    mode too, raises [KeyError] on every listed offset that is not itself
    a key of [ks]. *)
Theorem store_offset_keys (keys : option (list pyobj)) (ks : list pyobj) :
  creation_keys ds keys s = Ok ks ->
  Forall (fun k => hashable k = true /\ exists item, (query_item ds k s).1 = Ok item) ks ->
  exists f,
    create no_memo dumps ds keys (fresh_file, s) = (Ok tt, (f, s)) /\
    (Z.of_nat (length (f_content f)) < 2 ^ 65 ->
     exists store lk offsets,
       PickledDataset_init no_memo loads (open_rb (f_content f)) true = Ok store /\
       list_keys (PickledDataset no_memo loads) store = (Ok offsets, store) /\
       NoDup lk /\ (forall k, k ∈ lk <-> k ∈ ks) /\ (NoDup ks -> lk = ks) /\
       Forall2 (fun k offset => exists n item,
                  offset = PyInt (Z.of_nat n) /\
                  query_item ds k s = (Ok item, s) /\
                  forall pos,
                    _offset_query_item loads offset (after_query no_memo store pos)
                    = (Ok item,
                       set_unpickler store
                         ({| f_content := f_content f;
                             f_pos := n + length (dumps no_memo item).1 |},
                          (dumps no_memo item).2)))
               lk offsets /\
       forall offset pos, offset ∈ offsets -> offset ∉ ks ->
         query_item (PickledDataset no_memo loads) offset (at_position store pos)
         = (Raise (KeyError offset), at_position store pos)).
Proof.
  intros Hkeys Hks.
  destruct (store_spec no_memo dumps loads ds s loads_dumps dumps_int loads_eof
              Hmem header_fits keys ks Hkeys Hks)
    as (cf & p & idx & Hcreate & Hord & Hopen).
  eexists. split; [exact Hcreate|]. cbn [f_content]. intros Hsize.
  destruct (Hopen Hsize) as [Hcreated Hinit].
  destruct (Hinit true) as (pos0 & m0 & Hstore).
  assert (forall k, k ∈ dict_keys idx <-> k ∈ ks) as Helem.
  { intros k. rewrite Hord, key_order_elem. split; [|by right].
    by intros [?%elem_of_nil|?]. }
  assert (NoDup (dict_keys idx)) as Hnd
    by (rewrite Hord; apply key_order_NoDup, NoDup_nil_2).
  eexists _, (dict_keys idx), (dict_values idx). split; [exact Hstore|].
  split; [done|]. split; [done|]. split; [done|].
  split; [intros Hndks; rewrite Hord; by apply (key_order_distinct ks [])|].
  split.
  - unfold dict_keys, dict_values. apply Forall2_fmap, Forall_Forall2_diag.
    apply Forall_forall. intros [k off] Hin. simpl.
    destruct (created_item no_memo dumps ds s cf idx k off Hcreated)
      as (n & item & rest & -> & Hq & Hdrop); [by apply dict_get_entry|].
    exists n, item. split; [done|]. split; [done|]. intros pos.
    unfold _offset_query_item, after_query, set_unpickler. simpl.
    erewrite py_bind_ok by apply handle_seek_to.
    by rewrite (load_at dumps loads loads_dumps _ _ _ item rest).
  - intros offset pos Hin Hnk. simpl.
    unfold _default_query_item, at_position. simpl. unfold py_dict_getitem.
    apply list_elem_of_fmap in Hin as ([k off] & -> & Hin). simpl.
    destruct (created_item no_memo dumps ds s cf idx k off Hcreated)
      as (n & item & rest & -> & _ & _); [by apply dict_get_entry|].
    simpl in *.
    destruct (dict_get idx (PyInt (Z.of_nat n))) as [v|] eqn:Hget; [|done].
    destruct Hnk. apply Helem. apply dict_get_is_Some. by eexists.
Qed.
(** X28. Under the same conditions, on the file opened in the default
    mode, [query_item] on a key of [ks] returns the item that
    [D.query_item] returns for it whenever the memo of the unpickler is
    empty, as every query that has returned leaves it; and the first query
    after opening, which meets the memo that [__init__] has left, does so
    when the item of its key is read back from its bytes whatever the memo
    holds. Either way the memo is empty afterwards. *)
Theorem store_round_trip_settled (keys : option (list pyobj)) (ks : list pyobj) :
  creation_keys ds keys s = Ok ks ->
  Forall (fun k => hashable k = true /\ exists item, (query_item ds k s).1 = Ok item) ks ->
  exists f,
    create no_memo dumps ds keys (fresh_file, s) = (Ok tt, (f, s)) /\
    (Z.of_nat (length (f_content f)) < 2 ^ 65 ->
     exists store,
       PickledDataset_init no_memo loads (open_rb (f_content f)) false = Ok store /\
       (forall k pos, k ∈ ks -> exists pos',
          query_item (PickledDataset no_memo loads) k (after_query no_memo store pos)
          = ((query_item ds k s).1, after_query no_memo store pos')) /\
       (forall k item, k ∈ ks -> (query_item ds k s).1 = Ok item ->
          read_with_any_memo no_memo dumps loads item ->
          exists pos',
            query_item (PickledDataset no_memo loads) k store
            = (Ok item, after_query no_memo store pos'))).
Proof.
  intros Hkeys Hks.
  destruct (store_spec no_memo dumps loads ds s loads_dumps dumps_int loads_eof
              Hmem header_fits keys ks Hkeys Hks)
    as (cf & p & idx & Hcreate & Hord & Hopen).
  eexists. split; [exact Hcreate|]. cbn [f_content]. intros Hsize.
  destruct (Hopen Hsize) as [Hcreated Hinit].
  destruct (Hinit false) as (pos0 & m0 & Hstore).
  assert (forall k, k ∈ ks -> hashable k = true /\ is_Some (dict_get idx k)) as Hin.
  { intros k Hk. rewrite Forall_forall in Hks. destruct (Hks k Hk) as [Hhash _].
    split; [done|]. apply dict_get_is_Some. rewrite Hord, key_order_elem. by right. }
  set (store := {| file_handler := {| f_content := cf; f_pos := pos0 |};
                   offset_keys := false; unpickler := m0; index := PyDict idx;
                   _context := PyDict <$> written_context ds s |}) in *.
  exists store. split; [exact Hstore|]. split.
  - intros k pos Hk. destruct (Hin k Hk) as [Hhash Hidx].
    exact (query_spec no_memo dumps loads ds s loads_dumps cf idx store k pos
             Hcreated eq_refl eq_refl Hhash Hidx).
  - intros k item Hk Hitem Hblind. destruct (Hin k Hk) as [Hhash Hidx].
    exact (query_spec_any_memo no_memo dumps loads ds s cf idx store k pos0 m0 item
             Hcreated eq_refl eq_refl Hhash Hidx Hitem Hblind).
Qed.
End Store.

Lemma store_keys_witness :
  exists f,
    create [] mini_pickler (DictDataset actors) None (fresh_file, tt) = (Ok tt, (f, tt)) /\
    (Z.of_nat (length (f_content f)) < 2 ^ 65 ->
     exists store lk,
       PickledDataset_init [] mini_loads (open_rb (f_content f)) false = Ok store /\
       list_keys (PickledDataset [] mini_loads) store = (Ok lk, store) /\
       NoDup lk /\ (forall k, k ∈ lk <-> k ∈ [PyInt 0; PyInt 1]) /\
       (NoDup [PyInt 0; PyInt 1] -> lk = [PyInt 0; PyInt 1]) /\
       forall k pos, hashable k = true -> k ∉ [PyInt 0; PyInt 1] ->
         query_item (PickledDataset [] mini_loads) k (at_position store pos)
         = (Raise (KeyError k), at_position store pos)).
Proof.
  refine (store_keys [] mini_pickler mini_loads (DictDataset actors) tt
            mini_loads_dumps mini_dumps_int mini_loads_eof _ mini_header_fits
            None [PyInt 0; PyInt 1] eq_refl _).
  - split; [reflexivity|]. intros k. reflexivity.
  - repeat constructor; eexists; reflexivity.
Defined.

Lemma store_round_trip_settled_witness :
  exists f,
    create [] mini_pickler (DictDataset actors) None (fresh_file, tt) = (Ok tt, (f, tt)) /\
    (Z.of_nat (length (f_content f)) < 2 ^ 65 ->
     exists store,
       PickledDataset_init [] mini_loads (open_rb (f_content f)) false = Ok store /\
       (forall k pos, k ∈ [PyInt 0; PyInt 1] -> exists pos',
          query_item (PickledDataset [] mini_loads) k (after_query [] store pos)
          = ((query_item (DictDataset actors) k tt).1, after_query [] store pos')) /\
       (forall k item, k ∈ [PyInt 0; PyInt 1] ->
          (query_item (DictDataset actors) k tt).1 = Ok item ->
          read_with_any_memo [] mini_pickler mini_loads item ->
          exists pos',
            query_item (PickledDataset [] mini_loads) k store
            = (Ok item, after_query [] store pos'))).
Proof.
  refine (store_round_trip_settled [] mini_pickler mini_loads (DictDataset actors) tt
            mini_loads_dumps mini_dumps_int mini_loads_eof _ mini_header_fits
            None [PyInt 0; PyInt 1] eq_refl _).
  - split; [reflexivity|]. intros k. reflexivity.
  - repeat constructor; eexists; reflexivity.
Defined.

Lemma store_context_witness :
  exists f,
    create [] mini_pickler (DictDataset actors) None (fresh_file, tt) = (Ok tt, (f, tt)) /\
    (Z.of_nat (length (f_content f)) < 2 ^ 65 ->
     exists store,
       PickledDataset_init [] mini_loads (open_rb (f_content f)) false = Ok store /\
       dataset_context (PickledDataset [] mini_loads) store
       = written_context (DictDataset actors) tt).
Proof.
  refine (store_context [] mini_pickler mini_loads (DictDataset actors) tt
            mini_loads_dumps mini_dumps_int mini_loads_eof _ mini_header_fits
            None [PyInt 0; PyInt 1] eq_refl _).
  - split; [reflexivity|]. intros k. reflexivity.
  - repeat constructor; eexists; reflexivity.
Defined.

Lemma store_offset_keys_witness :
  exists f,
    create [] mini_pickler (DictDataset actors) None (fresh_file, tt) = (Ok tt, (f, tt)) /\
    (Z.of_nat (length (f_content f)) < 2 ^ 65 ->
     exists store lk offsets,
       PickledDataset_init [] mini_loads (open_rb (f_content f)) true = Ok store /\
       list_keys (PickledDataset [] mini_loads) store = (Ok offsets, store) /\
       NoDup lk /\ (forall k, k ∈ lk <-> k ∈ [PyInt 0; PyInt 1]) /\
       (NoDup [PyInt 0; PyInt 1] -> lk = [PyInt 0; PyInt 1]) /\
       Forall2 (fun k offset => exists n item,
                  offset = PyInt (Z.of_nat n) /\
                  query_item (DictDataset actors) k tt = (Ok item, tt) /\
                  forall pos,
                    _offset_query_item mini_loads offset (after_query [] store pos)
                    = (Ok item,
                       set_unpickler store
                         ({| f_content := f_content f;
                             f_pos := n + length (mini_pickler [] item).1 |},
                          (mini_pickler [] item).2)))
               lk offsets /\
       forall offset pos, offset ∈ offsets -> offset ∉ [PyInt 0; PyInt 1] ->
         query_item (PickledDataset [] mini_loads) offset (at_position store pos)
         = (Raise (KeyError offset), at_position store pos)).
Proof.
  refine (store_offset_keys [] mini_pickler mini_loads (DictDataset actors) tt
            mini_loads_dumps mini_dumps_int mini_loads_eof _ mini_header_fits
            None [PyInt 0; PyInt 1] eq_refl _).
  - split; [reflexivity|]. intros k. reflexivity.
  - repeat constructor; eexists; reflexivity.
Defined.

(** With [offset_keys=True] the first item read by [_offset_query_item]
    after opening meets the memo that [__init__] left: on the store of
    [twins] the second component comes back as the index. *)
Example offset_query_stale_memo :
  exists f store offset store1,
    create [] mini_pickler (DictDataset twins) None (fresh_file, tt) = (Ok tt, (f, tt)) /\
    PickledDataset_init [] mini_loads (open_rb (f_content f)) true = Ok store /\
    list_keys (PickledDataset [] mini_loads) store = (Ok [offset], store) /\
    _offset_query_item mini_loads offset store
    = (Ok (PyTuple [PyStr "ab"; PyDict [(PyInt 0, offset)]]), store1) /\
    (_offset_query_item mini_loads offset (after_query [] store 0)).1
    = Ok (PyTuple [PyStr "ab"; PyStr "ab"]).
Proof.
  eexists _, _, _, _. split; [vm_compute; reflexivity|].
  split; [vm_compute; reflexivity|].
  split; [vm_compute; reflexivity|].
  split; vm_compute; reflexivity.
Qed.


(** ** pickle_or_load: an existing file *)

Lemma with_reader_self {memo} (self : Pickled memo) :
  with_reader self (f_pos (file_handler self)) (unpickler self) = self.
Proof. by destruct self as [[c p] o m i x]. Qed.

Lemma with_reader_twice {memo} (self : Pickled memo) (pos pos' : nat) (m m' : memo) :
  with_reader (with_reader self pos m) pos' m' = with_reader self pos' m'.
Proof. done. Qed.

Lemma default_query_item_handle {memo} (no_memo : memo)
    (loads : memo -> list byte -> res (pyobj * nat) * memo)
    (k : pyobj) (self self' : Pickled memo) (r : res pyobj) :
  _default_query_item no_memo loads k self = (r, self') ->
  exists pos m, self' = with_reader self pos m.
Proof.
  unfold _default_query_item.
  destruct (py_subscript (index self) k) as [[|offset|str|xs|ys|kvs]|e];
    try (intros [= _ <-]; exists (f_pos (file_handler self)), (unpickler self);
         by rewrite with_reader_self).
  unfold py_bind, on_handle, seek. destruct (offset <? 0).
  - intros [= _ <-]. exists (f_pos (file_handler self)), (unpickler self).
    by destruct self as [[c p] o m i x].
  - unfold load, memo_clear. simpl.
    destruct (loads _ _) as [[[obj n]|e] m]; intros [= _ <-]; by eexists _, _.
Qed.

Lemma compare_items_world {memo} (no_memo : memo)
    (loads : memo -> list byte -> res (pyobj * nat) * memo) {St}
    (ds : Dataset St) (path : string) (k true_item : pyobj)
    (w w' : world) (s s' : St) (o o' : Pickled memo)
    (r : res (bool * option diff_reason)) :
  compare_items no_memo loads ds path k true_item (w, s, o) = (r, (w', s', o')) ->
  fs w' = fs w /\ exists pos m, o' = with_reader o pos m.
Proof.
  unfold compare_items.
  destruct (_default_query_item no_memo loads k o) as [rq o1] eqn:Hq.
  apply default_query_item_handle in Hq as (pos & m & ->).
  destruct rq as [loaded|e].
  - destruct (items_equality ds true_item loaded s) as [[eq|e] s1].
    + intros [= _ <- _ <-]. eauto.
    + destruct e; simpl; intros [= _ <- _ <-]; eauto.
  - destruct e; simpl; intros [= _ <- _ <-]; eauto.
Qed.

Lemma staleness_check_world {memo} (no_memo : memo)
    (loads : memo -> list byte -> res (pyobj * nat) * memo) {St}
    (ds : Dataset St) (path : string) (was_existing : bool) (chunk : list pyobj) :
  forall (w w' : world) (s s' : St) (o o' : Pickled memo) (r : res unit),
  staleness_check no_memo loads ds path was_existing chunk (w, s, o)
  = (r, (w', s', o')) ->
  fs w' = fs w /\ exists pos m, o' = with_reader o pos m.
Proof.
  induction chunk as [|k chunk IH]; intros w w' s s' o o' r.
  - intros [= _ <- _ <-]. split; [done|].
    exists (f_pos (file_handler o)), (unpickler o). by rewrite with_reader_self.
  - cbn [staleness_check]. unfold py_bind at 1.
    destruct (query_item ds k s) as [[true_item|e] s1].
    + unfold py_bind at 1.
      destruct (compare_items no_memo loads ds path k true_item (w, s1, o))
        as [rc [[w2 s2] o2]] eqn:Hc.
      apply compare_items_world in Hc as [Hfs (pos & m & ->)].
      destruct rc as [[equality reason]|e].
      * destruct equality; simpl.
        -- intros Hrest. apply IH in Hrest as [Hfs' (pos' & m' & ->)].
           split; [congruence|]. by eexists _, _.
        -- intros [= _ <- _ <-]. split; [done|]. by eexists _, _.
      * intros [= _ <- _ <-]. split; [done|]. by eexists _, _.
    + intros [= _ <- _ <-]. split; [done|].
      exists (f_pos (file_handler o)), (unpickler o). by rewrite with_reader_self.
Qed.

(** X24. When a file exists at [path] and [overwrite] is not set,
    [pickle_or_load] does not call [before_pickling], leaves every file as
    it is, and what it returns, if it returns, is the dataset read from the
    existing file, with its handle somewhere in it and its unpickler as the
    check has left it: nothing of the dataset given is written. *)
Theorem existing_file_reused {memo} (no_memo : memo)
    (dumps : memo -> pyobj -> list byte * memo)
    (loads : memo -> list byte -> res (pyobj * nat) * memo) {St} (ds : Dataset St)
    (path : string) (keys : option (list pyobj)) (check_first_n_items : Z)
    (before_pickling : option (py (world * St) unit))
    (w : world) (s : St) (content : list byte) :
  fs w !! path = Some content ->
  let run :=
    pickle_or_load no_memo dumps loads ds path keys check_first_n_items false
      before_pickling (w, s) in
  run = pickle_or_load no_memo dumps loads ds path keys check_first_n_items false
          None (w, s) /\
  fs run.2.1 = fs w /\
  forall store, run.1 = Ok store ->
    exists opened pos m,
      PickledDataset_init no_memo loads (open_rb content) false = Ok opened /\
      store = with_reader opened pos m.
Proof.
  intros Hfile. cbv zeta. unfold pickle_or_load, path_exists.
  rewrite Hfile, bool_decide_eq_true_2 by (by eexists).
  simpl. rewrite Hfile.
  split; [done|].
  destruct (PickledDataset_init no_memo loads (open_rb content) false) as [opened|e];
    [|by split].
  destruct (match keys with
            | Some keys0 => (Ok keys0, s)
            | None => list_keys ds s
            end) as [[ks|e] s1]; [|by split].
  unfold check_first_items.
  destruct (gen_next (chunkify ks check_first_n_items)) as [[chunk rest]|e];
    [|by split].
  unfold py_bind.
  destruct (staleness_check no_memo loads ds path true chunk (w, s1, opened))
    as [[[]|e] [[w2 s2] o2]] eqn:Hcheck;
    apply staleness_check_world in Hcheck as [Hfs (pos & m & ->)]; simpl.
  - split; [done|]. intros store [= <-]. by eexists _, _, _.
  - by split.
Qed.

Lemma existing_file_reused_witness :
  let run :=
    pickle_or_load [] mini_pickler mini_loads (DictDataset actors) "store.pkl" None 1
      false (Some (py_raise ValueError))
      (set_fs empty_world {[ "store.pkl"%string := actors_file [PyInt 0; PyInt 1] ]},
       tt) in
  run = pickle_or_load [] mini_pickler mini_loads (DictDataset actors) "store.pkl"
          None 1 false None
          (set_fs empty_world {[ "store.pkl"%string := actors_file [PyInt 0; PyInt 1] ]},
           tt) /\
  fs run.2.1
  = fs (set_fs empty_world {[ "store.pkl"%string := actors_file [PyInt 0; PyInt 1] ]}) /\
  forall store, run.1 = Ok store ->
    exists opened pos m,
      PickledDataset_init [] mini_loads (open_rb (actors_file [PyInt 0; PyInt 1])) false
      = Ok opened /\
      store = with_reader opened pos m.
Proof.
  apply (existing_file_reused [] mini_pickler mini_loads (DictDataset actors)
           "store.pkl" None 1 (Some (py_raise ValueError))
           (set_fs empty_world {[ "store.pkl"%string := actors_file [PyInt 0; PyInt 1] ]})
           tt (actors_file [PyInt 0; PyInt 1])).
  apply lookup_singleton_eq.
Defined.

(** X25. When a file exists at [path], [pickle_or_load] with [overwrite]
    set does what it does, with or without [overwrite], once the file has
    been removed. *)
Theorem overwrite_removes_first {memo} (no_memo : memo)
    (dumps : memo -> pyobj -> list byte * memo)
    (loads : memo -> list byte -> res (pyobj * nat) * memo) {St} (ds : Dataset St)
    (path : string) (keys : option (list pyobj)) (check_first_n_items : Z)
    (overwrite : bool) (before_pickling : option (py (world * St) unit))
    (w : world) (s : St) (content : list byte) :
  fs w !! path = Some content ->
  pickle_or_load no_memo dumps loads ds path keys check_first_n_items true
    before_pickling (w, s)
  = pickle_or_load no_memo dumps loads ds path keys check_first_n_items overwrite
      before_pickling (set_fs w (delete path (fs w)), s).
Proof.
  intros Hfile. unfold pickle_or_load, os_remove, path_exists.
  rewrite Hfile, bool_decide_eq_true_2 by (by eexists).
  simpl fs. rewrite lookup_delete_eq.
  rewrite bool_decide_eq_false_2 by (by intros [? ?]).
  by rewrite andb_false_r.
Qed.

Lemma overwrite_removes_first_witness :
  pickle_or_load [] mini_pickler mini_loads (DictDataset actors) "store.pkl" None 1
    true None
    (set_fs empty_world {[ "store.pkl"%string := [] ]}, tt)
  = pickle_or_load [] mini_pickler mini_loads (DictDataset actors) "store.pkl" None 1
      false None
      (set_fs (set_fs empty_world {[ "store.pkl"%string := [] ]})
         (delete "store.pkl"%string
            (fs (set_fs empty_world {[ "store.pkl"%string := [] ]}))), tt).
Proof.
  apply (overwrite_removes_first [] mini_pickler mini_loads (DictDataset actors)
           "store.pkl" None 1 false None
           (set_fs empty_world {[ "store.pkl"%string := [] ]}) tt []).
  apply lookup_singleton_eq.
Defined.


(** ** pickle_or_load: a new file *)

Lemma first_chunk (ks : list pyobj) (n : Z) :
  0 <= n ->
  exists rest, gen_next (chunkify ks n) = Ok (take (Z.to_nat n) ks, rest).
Proof.
  intros Hn. destruct (decide (n = 0)) as [->|Hpos].
  - unfold chunkify. destruct ks as [|e ks]; simpl; by eexists.
  - destruct (chunkify_chunks ks (Z.to_nat n)) as (cs & Hgen & [Hne _] & Hlook);
      [lia|].
    rewrite Z2Nat.id in Hgen by done. rewrite Hgen.
    destruct cs as [|c cs]; [done|].
    rewrite (Hlook 0%nat c eq_refl). unfold sub_run. simpl. by eexists.
Qed.

Section Reconcile.
Context {memo : Type} (no_memo : memo).
Context (dumps : memo -> pyobj -> list byte * memo).
Context (loads : memo -> list byte -> res (pyobj * nat) * memo).
Context {St : Type} (ds : Dataset St) (s : St).

Hypothesis loads_dumps :
  forall m o rest,
    loads m ((dumps m o).1 ++ rest)
    = (Ok (o, length (dumps m o).1), (dumps m o).2).
Hypothesis dumps_int :
  forall m z, dumps m (PyInt z) = ((dumps no_memo (PyInt z)).1, m).
Hypothesis loads_eof : forall m, loads m [] = (Raise EOFError, m).
Hypothesis Hmem : in_memory ds s.
Hypothesis header_fits :
  forall loc, 0 <= loc < 2 ^ 65 ->
    (length (dumps no_memo (PyInt (Z.lxor loc (Z.shiftl 1 65)))).1
     <= length (dumps no_memo (PyInt (Z.shiftl 1 65))).1)%nat.

Lemma staleness_check_equal (path : string) (was_existing : bool)
    (cf : list byte) (idx : pydict) (store : Pickled memo) (chunk : list pyobj) :
  created no_memo dumps ds s cf idx ->
  index store = PyDict idx ->
  f_content (file_handler store) = cf ->
  Forall (fun k => hashable k = true /\ is_Some (dict_get idx k) /\
                   exists item, (query_item ds k s).1 = Ok item /\
                                items_equality ds item item s = (Ok true, s)) chunk ->
  forall w pos, exists pos',
    staleness_check no_memo loads ds path was_existing chunk
      (w, s, after_query no_memo store pos)
    = (Ok tt, (w, s, after_query no_memo store pos')).
Proof.
  intros Hcreated Hindex Hcontent.
  induction chunk as [|k chunk IH]; intros Hchunk w pos; [by eexists|].
  apply Forall_cons in Hchunk as [(Hhash & Hk & item & Hitem & Heq) Hchunk].
  assert (query_item ds k s = (Ok item, s)) as Hq
    by (by apply source_query).
  destruct (query_spec no_memo dumps loads ds s loads_dumps cf idx store k pos
              Hcreated Hindex Hcontent Hhash Hk) as [pos1 Hload].
  rewrite Hq in Hload. simpl in Hload.
  destruct (IH Hchunk w pos1) as [pos' Hrest].
  exists pos'. cbn [staleness_check]. unfold py_bind at 1. rewrite Hq.
  unfold py_bind at 1, compare_items. rewrite Hload, Heq. simpl. exact Hrest.
Qed.

(** The first key checked meets the memo that [__init__] has left. *)
Lemma staleness_check_first (path : string) (was_existing : bool)
    (cf : list byte) (idx : pydict) (store : Pickled memo) (chunk : list pyobj) :
  created no_memo dumps ds s cf idx ->
  index store = PyDict idx ->
  f_content (file_handler store) = cf ->
  Forall (fun k => hashable k = true /\ is_Some (dict_get idx k) /\
                   exists item, (query_item ds k s).1 = Ok item /\
                                items_equality ds item item s = (Ok true, s)) chunk ->
  (forall k item, head chunk = Some k -> (query_item ds k s).1 = Ok item ->
     read_with_any_memo no_memo dumps loads item) ->
  forall w pos m, exists pos' m',
    staleness_check no_memo loads ds path was_existing chunk
      (w, s, with_reader store pos m)
    = (Ok tt, (w, s, with_reader store pos' m')).
Proof.
  intros Hcreated Hindex Hcontent Hchunk Hfirst w pos m.
  destruct chunk as [|k chunk]; [by eexists _, _|].
  apply Forall_cons in Hchunk as [(Hhash & Hk & item & Hitem & Heq) Hchunk].
  assert (query_item ds k s = (Ok item, s)) as Hq
    by (by apply source_query).
  destruct (query_spec_any_memo no_memo dumps loads ds s cf idx store k pos m item
              Hcreated Hindex Hcontent Hhash Hk Hitem (Hfirst k item eq_refl Hitem))
    as [pos1 Hload].
  destruct (staleness_check_equal path was_existing cf idx store chunk
              Hcreated Hindex Hcontent Hchunk w pos1) as [pos' Hrest].
  exists pos', no_memo. cbn [staleness_check]. unfold py_bind at 1. rewrite Hq.
  unfold py_bind at 1, compare_items. rewrite Hload, Heq. simpl. exact Hrest.
Qed.

(** X26. Let no file be at [path], let [before_pickling], if given, return
    and leave the dataset as it is, let the file be creatable, let [D] be
    an in-memory dataset whose creation keys [ks] are hashable and
    answered by [D] with items that [D.items_equality] finds equal to
    themselves, let [check_first_n_items] not be negative, and let the
    item of the first key checked, if one is checked, be read back from
    its bytes whatever the memo of the unpickler holds. Then
    [pickle_or_load] returns the dataset opened on the file that [create]
    writes for [D], if shorter than [2^65] bytes, with its handle somewhere
    in the file; that file is at [path] afterwards and nothing was written
    to [sys.stderr]. *)
Theorem pickle_or_load_creates (path : string) (keys : option (list pyobj))
    (ks : list pyobj) (check_first_n_items : Z) (overwrite : bool)
    (before_pickling : option (py (world * St) unit)) (w w0 : world) :
  fs w !! path = None ->
  match before_pickling with
  | Some callback => callback
  | None => py_ret tt
  end (w, s) = (Ok tt, (w0, s)) ->
  may_create w0 path = true ->
  creation_keys ds keys s = Ok ks ->
  Forall (fun k => hashable k = true /\
                   exists item, (query_item ds k s).1 = Ok item /\
                                items_equality ds item item s = (Ok true, s)) ks ->
  0 <= check_first_n_items ->
  (forall k item,
     head (take (Z.to_nat check_first_n_items) ks) = Some k ->
     (query_item ds k s).1 = Ok item ->
     read_with_any_memo no_memo dumps loads item) ->
  exists f,
    create no_memo dumps ds keys (fresh_file, s) = (Ok tt, (f, s)) /\
    (Z.of_nat (length (f_content f)) < 2 ^ 65 ->
     exists store pos m,
       PickledDataset_init no_memo loads (open_rb (f_content f)) false = Ok store /\
       pickle_or_load no_memo dumps loads ds path keys check_first_n_items overwrite
         before_pickling (w, s)
       = (Ok (with_reader store pos m),
          (set_fs w0 (<[path := f_content f]> (fs w0)), s))).
Proof.
  intros Hnew Hbefore Hmay Hkeys Hks Hn Hfirst.
  assert (Forall (fun k => hashable k = true /\
                           exists item, (query_item ds k s).1 = Ok item) ks) as Hks'.
  { eapply Forall_impl; [exact Hks|]. intros k (? & item & ? & _). eauto. }
  destruct (store_spec no_memo dumps loads ds s loads_dumps dumps_int loads_eof
              Hmem header_fits keys ks Hkeys Hks')
    as (cf & p & idx & Hcreate & Hord & Hopen).
  eexists. split; [exact Hcreate|]. cbn [f_content]. intros Hsize.
  destruct (Hopen Hsize) as [Hcreated Hinit].
  destruct (Hinit false) as (pos0 & m0 & Hstore).
  set (store := {| file_handler := {| f_content := cf; f_pos := pos0 |};
                   offset_keys := false; unpickler := m0; index := PyDict idx;
                   _context := PyDict <$> written_context ds s |}) in *.
  destruct (first_chunk ks check_first_n_items Hn) as [rest Hchunk].
  destruct (staleness_check_first path false cf idx store
              (take (Z.to_nat check_first_n_items) ks) Hcreated eq_refl eq_refl)
    with (w := set_fs w0 (<[path := cf]> (fs w0))) (pos := pos0) (m := m0)
    as (pos & m & Hcheck).
  { apply Forall_forall. intros k Hin. apply (subseteq_take _ ks) in Hin.
    rewrite Forall_forall in Hks.
    destruct (Hks k Hin) as (Hhash & item & Hitem & Heq).
    split; [done|]. split; [|eauto].
    apply dict_get_is_Some. rewrite Hord, key_order_elem. by right. }
  { exact Hfirst. }
  exists store, pos, m. split; [exact Hstore|].
  assert (match keys with
          | Some keys0 => (Ok keys0, s)
          | None => list_keys ds s
          end = (Ok ks, s)) as Hlist.
  { destruct keys as [keys|]; simpl in Hkeys; [by simplify_eq|].
    destruct Hmem as [Hstate _].
    destruct (list_keys ds s) as [r s0]. simpl in *. by subst. }
  unfold pickle_or_load, path_exists.
  rewrite Hnew, bool_decide_eq_false_2 by (by intros [? ?]).
  rewrite andb_false_r. simpl negb. cbv iota.
  unfold py_bind at 1. rewrite Hbefore.
  unfold create_or_cleanup. rewrite Hmay, Hcreate.
  cbn [fs set_fs f_content]. rewrite lookup_insert_eq.
  rewrite Hstore, Hlist.
  unfold check_first_items. rewrite Hchunk.
  unfold py_bind.
  change store with (with_reader store pos0 m0) at 1.
  by rewrite Hcheck.
Qed.
End Reconcile.

Lemma pickle_or_load_creates_witness :
  exists f,
    create [] mini_pickler (DictDataset actors) None (fresh_file, tt) = (Ok tt, (f, tt)) /\
    (Z.of_nat (length (f_content f)) < 2 ^ 65 ->
     exists store pos m,
       PickledDataset_init [] mini_loads (open_rb (f_content f)) false = Ok store /\
       pickle_or_load [] mini_pickler mini_loads (DictDataset actors) "store.pkl" None 1
         false None (empty_world, tt)
       = (Ok (with_reader store pos m),
          (set_fs empty_world (<["store.pkl"%string := f_content f]> (fs empty_world)),
           tt))).
Proof.
  refine (pickle_or_load_creates [] mini_pickler mini_loads (DictDataset actors) tt
            mini_loads_dumps mini_dumps_int mini_loads_eof _ mini_header_fits
            "store.pkl" None [PyInt 0; PyInt 1] 1 false None empty_world empty_world
            eq_refl eq_refl eq_refl eq_refl _ _ _).
  - split; [reflexivity|]. intros k. reflexivity.
  - repeat constructor; eexists; split; reflexivity.
  - lia.
  - intros k item [= <-] [= <-]. apply mini_read_denzel.
Defined.

(** Without the condition on the first item checked: a new file for
    [twins] is reported out of date as soon as it is written, since the
    first item read back meets the memo that [__init__] has left. *)
Example pickle_or_load_twins_warning :
  exists store w,
    pickle_or_load [] mini_pickler mini_loads (DictDataset twins) "store.pkl" None 1
      false None (empty_world, tt) = (Ok store, (w, tt)) /\
    stderr w = [OutOfDate "store.pkl" None; JustCreated].
Proof. eexists _, _. split; vm_compute; reflexivity. Qed.


(** ** pickle_or_load: how much is checked *)

Lemma compare_items_log {memo} (no_memo : memo)
    (loads : memo -> list byte -> res (pyobj * nat) * memo) {St}
    (ds : Dataset St) (path : string) (k true_item : pyobj)
    (w w' : world) (s s' : St) (log log' : list pyobj) (o o' : Pickled memo)
    (r : res (bool * option diff_reason)) :
  compare_items no_memo loads (counting ds) path k true_item (w, (s, log), o)
    = (r, (w', (s', log'), o')) ->
  log' = log.
Proof.
  unfold compare_items.
  destruct (_default_query_item no_memo loads k o) as [[loaded|e] o1].
  - simpl. destruct (items_equality ds true_item loaded s) as [[eq|e] s1].
    + by intros [= _ _ _ <- _].
    + destruct e; simpl; by intros [= _ _ _ <- _].
  - destruct e; simpl; by intros [= _ _ _ <- _].
Qed.

Lemma staleness_check_log {memo} (no_memo : memo)
    (loads : memo -> list byte -> res (pyobj * nat) * memo) {St}
    (ds : Dataset St) (path : string) (was_existing : bool) (chunk : list pyobj) :
  forall (w w' : world) (s s' : St) (log log' : list pyobj) (o o' : Pickled memo)
         (r : res unit),
  staleness_check no_memo loads (counting ds) path was_existing chunk (w, (s, log), o)
    = (r, (w', (s', log'), o')) ->
  exists m, log' = log ++ take m chunk.
Proof.
  induction chunk as [|k chunk IH]; intros w w' s s' log log' o o' r.
  - intros [= _ _ _ <- _]. exists 0%nat. by rewrite app_nil_r.
  - cbn [staleness_check]. unfold py_bind at 1. simpl.
    destruct (query_item ds k s) as [[true_item|e] s1].
    + unfold py_bind at 1.
      destruct (compare_items no_memo loads (counting ds) path k true_item
                  (w, (s1, log ++ [k]), o)) as [rc [[w2 [s2 log2]] o2]] eqn:Hc.
      apply compare_items_log in Hc as ->.
      destruct rc as [[equality reason]|e].
      * destruct equality; simpl.
        -- intros Hrest. apply IH in Hrest as [m ->].
           exists (S m). by rewrite <- app_assoc.
        -- intros [= _ _ _ <- _]. by exists 1%nat.
      * intros [= _ _ _ <- _]. by exists 1%nat.
    + intros [= _ _ _ <- _]. by exists 1%nat.
Qed.

Lemma first_chunk_prefix (keys chunk : list pyobj) (n : Z) (rest : gen (list pyobj)) :
  gen_next (chunkify keys n) = Ok (chunk, rest) ->
  chunk = take (Z.to_nat n) keys.
Proof.
  intros Hnext. destruct (Z.le_gt_cases 0 n) as [Hn|Hn].
  - destruct (first_chunk keys n Hn) as [rest' Hfirst]. congruence.
  - replace (Z.to_nat n) with 0%nat by lia. rewrite take_0.
    pose proof (chunkify_no_size keys n ltac:(lia)) as Hall.
    destruct (chunkify keys n) as [| |c g]; simplify_eq/=.
    by apply Forall_cons in Hall as [-> _].
Qed.

(** X27. The check at the end of [pickle_or_load] asks the dataset for the
    items of a prefix of the keys that has at most [check_first_n_items]
    keys, in order, and for nothing else, however the check ends. *)
Theorem check_first_items_bounded {memo} (no_memo : memo)
    (loads : memo -> list byte -> res (pyobj * nat) * memo) {St}
    (ds : Dataset St) (path : string) (was_existing : bool)
    (keys : list pyobj) (check_first_n_items : Z) (w : world) (s : St)
    (log : list pyobj) (opened : Pickled memo) :
  exists m,
    (m <= Z.to_nat check_first_n_items)%nat /\
    (check_first_items no_memo loads (counting ds) path was_existing keys
       check_first_n_items (w, (s, log), opened)).2.1.2.2
    = log ++ take m keys.
Proof.
  unfold check_first_items.
  destruct (gen_next (chunkify keys check_first_n_items)) as [[chunk rest]|e]
    eqn:Hnext.
  - apply first_chunk_prefix in Hnext as ->. unfold py_bind.
    destruct (staleness_check no_memo loads (counting ds) path was_existing
                (take (Z.to_nat check_first_n_items) keys) (w, (s, log), opened))
      as [rc [[w2 [s2 log2]] o2]] eqn:Hcheck.
    apply staleness_check_log in Hcheck as [m ->].
    exists (m `min` Z.to_nat check_first_n_items)%nat. split; [lia|].
    rewrite take_take. by destruct rc.
  - exists 0%nat. split; [lia|]. simpl. by rewrite app_nil_r.
Qed.
